(** * SonicSage on-chain programs: strategy ledger, fee sweeps, trade gating

    Shallow embedding of the Rust sources under [contracts/sonic-agent/src]:
    - [strategy_manager.rs]: strategies, subscriptions, value updates and
      the management / performance fee sweeps; the registry, strategy
      creation, update, verification and ownership transfer with their
      account constraints (PDA seeds, [init], account space);
    - [ai_trading.rs]: initialisation, parameter updates, trade
      authorisation and trade-outcome reconciliation;
    - [defi_strategy.rs]: the native-program instruction processors (create,
      subscribe, unsubscribe with lockup, harvest, update, verify).

    Conventions.
    - Integers ([u8], [u16], [u64], [i32], [i64]) are [Z] with their range
      written out; arithmetic that Rust checks ([checked_add(..).unwrap()],
      [+=] in a crate built with overflow checks) fails with [Panic].
    - A failing instruction ([Err], [?], a panic, a failed account
      constraint) aborts the whole transaction, so the accounts keep their
      pre-state; an instruction is therefore modelled as a function from the
      accounts it may write to [result] of their new values.
    - [f64] is IEEE-754 binary64, modelled with the Standard Library's
      [SpecFloat] (round to nearest, ties to even).
    - External collaborators (clock, token transfer CPI, Pyth price feed)
      are inputs of the instruction. *)

From Stdlib Require Import ZArith List Lia Bool String.
From Stdlib Require Import SpecFloat Reals Lra.
Import ListNotations.

Open Scope Z_scope.

(** ** Machine integers *)

Definition Pubkey := Z.

Definition U64_MAX : Z := 2 ^ 64 - 1.
Definition I64_MIN : Z := - 2 ^ 63.
Definition I64_MAX : Z := 2 ^ 63 - 1.

Definition in_u64 (x : Z) : bool := (0 <=? x) && (x <=? U64_MAX).
Definition in_i64 (x : Z) : bool := (I64_MIN <=? x) && (x <=? I64_MAX).

(** [u64::checked_add] / [u64::checked_sub] *)
Definition checked_add_u64 (a b : Z) : option Z :=
  if a + b <=? U64_MAX then Some (a + b) else None.

Definition checked_sub_u64 (a b : Z) : option Z :=
  if b <=? a then Some (a - b) else None.

(** [i64] addition / subtraction with overflow checks *)
Definition checked_add_i64 (a b : Z) : option Z :=
  if in_i64 (a + b) then Some (a + b) else None.

Definition checked_sub_i64 (a b : Z) : option Z :=
  if in_i64 (a - b) then Some (a - b) else None.

Definition unwrap_or (o : option Z) (d : Z) : Z :=
  match o with Some v => v | None => d end.

(** ** IEEE-754 binary64 ([f64]) *)

Module F64.

Definition prec : Z := 53.
Definition emax : Z := 1024.

Definition f64 := spec_float.

(** [n as f64] for an integer [n]: rounded to nearest, ties to even *)
Definition of_int (n : Z) : f64 := binary_normalize prec emax n 0 false.

Definition mul (x y : f64) : f64 := SFmul prec emax x y.
Definition div (x y : f64) : f64 := SFdiv prec emax x y.

(** [x as u64]: truncation towards zero, saturating at both ends, NaN to 0 *)
Definition to_u64 (x : f64) : Z :=
  match x with
  | S754_nan | S754_zero _ | S754_infinity true | S754_finite true _ _ => 0
  | S754_infinity false => U64_MAX
  | S754_finite false m e => Z.min U64_MAX (Z.shiftl (Zpos m) e)
  end.

End F64.

(** ** Results *)

Inductive result (A E : Type) : Type :=
| Ok : A -> result A E
| Err : E -> result A E.
Arguments Ok {A E} _.
Arguments Err {A E} _.

Definition bind {A B E} (m : result A E) (k : A -> result B E) : result B E :=
  match m with Ok a => k a | Err e => Err e end.

Notation "'let*' x ':=' m 'in' k" := (bind m (fun x => k))
  (at level 200, x name, m at level 100, k at level 200).

(** [require!(cond, err)] *)
Definition require {E} (b : bool) (e : E) : result unit E :=
  if b then Ok tt else Err e.

(** [opt.unwrap()]: a panic on [None] *)
Definition unwrap {A E} (o : option A) (panic : E) : result A E :=
  match o with Some a => Ok a | None => Err panic end.

(** * [strategy_manager.rs] *)

Module StrategyManager.

(** [#[account] pub struct AIStrategy] *)
Record AIStrategy := mkAIStrategy {
  id : string;
  creator : Pubkey;
  name : string;
  description_hash : string;
  risk_level : Z;            (* u8 *)
  time_horizon : Z;          (* u8 *)
  ai_models : Z;             (* u32 *)
  token_support : Z;         (* u8 *)
  management_fee_bps : Z;    (* u16 *)
  performance_fee_bps : Z;   (* u16 *)
  min_investment : Z;        (* u64 *)
  tvl : Z;                   (* u64 *)
  subscriber_count : Z;      (* u64 *)
  total_returns_bps : Z;     (* i32 *)
  created_at : Z;            (* i64 *)
  updated_at : Z;            (* i64 *)
  status : Z;                (* u8: 0 Active, 1 Paused, 2 Deprecated *)
  verified : bool;
  bump : Z                   (* u8 *)
}.

(** [#[account] pub struct StrategySubscription] *)
Record StrategySubscription := mkStrategySubscription {
  strategy : Pubkey;
  subscriber : Pubkey;
  investment_amount : Z;     (* u64 *)
  current_value : Z;         (* u64 *)
  subscribed_at : Z;         (* i64 *)
  last_fee_collection : Z;   (* i64 *)
  high_water_mark : Z;       (* u64 *)
  sub_bump : Z               (* u8 *)
}.

(** [pub enum ErrorCode] of this program, together with the failures of the
    surrounding runtime that an instruction can end in. *)
Inductive Error :=
| Unauthorized
| InvalidParameter
| StrategyNotActive
| BelowMinimumInvestment
| InsufficientFunds
| AccountAlreadyInUse      (* [init] on an account that already exists *)
| AccountNotInitialized    (* an [Account<..>] that does not exist *)
| TransferFailed           (* the SPL token transfer CPI returned an error *)
| Panic.                   (* [unwrap()] on [None], arithmetic overflow *)

(** Record-update helpers (Rust's field assignments). *)
Definition set_tvl (s : AIStrategy) (v : Z) : AIStrategy :=
  {| id := id s; creator := creator s; name := name s;
     description_hash := description_hash s; risk_level := risk_level s;
     time_horizon := time_horizon s; ai_models := ai_models s;
     token_support := token_support s;
     management_fee_bps := management_fee_bps s;
     performance_fee_bps := performance_fee_bps s;
     min_investment := min_investment s; tvl := v;
     subscriber_count := subscriber_count s;
     total_returns_bps := total_returns_bps s; created_at := created_at s;
     updated_at := updated_at s; status := status s; verified := verified s;
     bump := bump s |}.

Definition set_subscriber_count (s : AIStrategy) (v : Z) : AIStrategy :=
  {| id := id s; creator := creator s; name := name s;
     description_hash := description_hash s; risk_level := risk_level s;
     time_horizon := time_horizon s; ai_models := ai_models s;
     token_support := token_support s;
     management_fee_bps := management_fee_bps s;
     performance_fee_bps := performance_fee_bps s;
     min_investment := min_investment s; tvl := tvl s;
     subscriber_count := v;
     total_returns_bps := total_returns_bps s; created_at := created_at s;
     updated_at := updated_at s; status := status s; verified := verified s;
     bump := bump s |}.

Definition set_total_returns_bps (s : AIStrategy) (v : Z) : AIStrategy :=
  {| id := id s; creator := creator s; name := name s;
     description_hash := description_hash s; risk_level := risk_level s;
     time_horizon := time_horizon s; ai_models := ai_models s;
     token_support := token_support s;
     management_fee_bps := management_fee_bps s;
     performance_fee_bps := performance_fee_bps s;
     min_investment := min_investment s; tvl := tvl s;
     subscriber_count := subscriber_count s;
     total_returns_bps := v; created_at := created_at s;
     updated_at := updated_at s; status := status s; verified := verified s;
     bump := bump s |}.

Definition set_current_value (s : StrategySubscription) (v : Z)
  : StrategySubscription :=
  {| strategy := strategy s; subscriber := subscriber s;
     investment_amount := investment_amount s; current_value := v;
     subscribed_at := subscribed_at s;
     last_fee_collection := last_fee_collection s;
     high_water_mark := high_water_mark s; sub_bump := sub_bump s |}.

Definition set_high_water_mark (s : StrategySubscription) (v : Z)
  : StrategySubscription :=
  {| strategy := strategy s; subscriber := subscriber s;
     investment_amount := investment_amount s; current_value := current_value s;
     subscribed_at := subscribed_at s;
     last_fee_collection := last_fee_collection s;
     high_water_mark := v; sub_bump := sub_bump s |}.

Definition set_last_fee_collection (s : StrategySubscription) (v : Z)
  : StrategySubscription :=
  {| strategy := strategy s; subscriber := subscriber s;
     investment_amount := investment_amount s; current_value := current_value s;
     subscribed_at := subscribed_at s;
     last_fee_collection := v;
     high_water_mark := high_water_mark s; sub_bump := sub_bump s |}.

(** ** [subscribe_to_strategy] with its [SubscribeToStrategy] accounts

    [subscription_exists]: the PDA [subscription] is already allocated (its
    [init] then fails); [transfer_ok]: outcome of [token::transfer];
    [now]: [Clock::get()?.unix_timestamp]. *)
Record SubscribeCtx := mkSubscribeCtx {
  sc_subscriber : Pubkey;
  sc_strategy_key : Pubkey;
  sc_strategy : AIStrategy;
  sc_subscription_exists : bool;
  sc_subscription_bump : Z;
  sc_now : Z;
  sc_transfer_ok : bool
}.

Definition subscribe_to_strategy (ctx : SubscribeCtx) (investment_amount : Z)
  : result (AIStrategy * StrategySubscription) Error :=
  (* account validation: [init] of [subscription], then
     [constraint = strategy.status == 0 @ StrategyNotActive] *)
  let* _ := require (negb (sc_subscription_exists ctx)) AccountAlreadyInUse in
  let strategy := sc_strategy ctx in
  let* _ := require (status strategy =? 0) StrategyNotActive in
  (* handler *)
  let* _ := require (min_investment strategy <=? investment_amount)
                    BelowMinimumInvestment in
  let subscription :=
    {| strategy := sc_strategy_key ctx;
       subscriber := sc_subscriber ctx;
       investment_amount := investment_amount;
       current_value := investment_amount;
       subscribed_at := sc_now ctx;
       last_fee_collection := sc_now ctx;
       high_water_mark := investment_amount;
       sub_bump := sc_subscription_bump ctx |} in
  let* tvl' := unwrap (checked_add_u64 (tvl strategy) investment_amount) Panic in
  let strategy := set_tvl strategy tvl' in
  let* cnt' := unwrap (checked_add_u64 (subscriber_count strategy) 1) Panic in
  let strategy := set_subscriber_count strategy cnt' in
  let* _ := require (sc_transfer_ok ctx) TransferFailed in
  Ok (strategy, subscription).

(** ** [unsubscribe_from_strategy] with its [UnsubscribeFromStrategy] accounts

    The [subscription] account must exist and satisfy
    [constraint = subscriber.key() == subscription.subscriber]; it is closed
    by [close = subscriber] when the instruction succeeds.

    The [strategy] account of [UnsubscribeFromStrategy] is not marked
    [#[account(mut)]]: the handler lowers [tvl] and [subscriber_count] on
    its deserialised copy, but Anchor's exit writes back only [mut]
    accounts, so that copy is dropped. The result is the strategy account
    as it is after the instruction. *)
Record UnsubscribeCtx := mkUnsubscribeCtx {
  uc_subscriber : Pubkey;
  uc_strategy : AIStrategy;
  uc_subscription : option StrategySubscription;
  uc_transfer_ok : bool
}.

Definition unsubscribe_from_strategy (ctx : UnsubscribeCtx)
  : result AIStrategy Error :=
  let* subscription := unwrap (uc_subscription ctx) AccountNotInitialized in
  let* _ := require (uc_subscriber ctx =? subscriber subscription) Unauthorized in
  let strategy := uc_strategy ctx in
  let current_value := current_value subscription in
  let strategy := set_tvl strategy
                    (unwrap_or (checked_sub_u64 (tvl strategy) current_value) 0) in
  let strategy := set_subscriber_count strategy
                    (unwrap_or (checked_sub_u64 (subscriber_count strategy) 1) 0) in
  let* _ := require (uc_transfer_ok ctx) TransferFailed in
  (* exit: [strategy] is not [mut], the modified copy is not serialised *)
  let _ := strategy in
  Ok (uc_strategy ctx).

(** ** The [UpdateStrategyValue] accounts, shared by [update_strategy_value],
    [collect_management_fees] and [collect_performance_fees]:
    [constraint = authority.key() == registry.authority @ Unauthorized]. *)
Record UpdateCtx := mkUpdateCtx {
  vc_authority : Pubkey;
  vc_registry_authority : Pubkey;
  vc_strategy : AIStrategy;
  vc_subscription : StrategySubscription
}.

(** [update_strategy_value]; the notification it may emit never fails and
    does not touch the accounts. *)
Definition update_strategy_value (ctx : UpdateCtx) (new_value returns_bps : Z)
  : result (AIStrategy * StrategySubscription) Error :=
  let* _ := require (vc_authority ctx =? vc_registry_authority ctx) Unauthorized in
  let strategy := vc_strategy ctx in
  let subscription := vc_subscription ctx in
  let old_value := current_value subscription in
  let subscription := set_current_value subscription new_value in
  let subscription :=
    if high_water_mark subscription <? new_value
    then set_high_water_mark subscription new_value else subscription in
  let strategy := set_tvl strategy
                    (unwrap_or (checked_sub_u64 (tvl strategy) old_value) 0) in
  let* tvl' := unwrap (checked_add_u64 (tvl strategy) new_value) Panic in
  let strategy := set_tvl strategy tvl' in
  (* [((a as i64 + b as i64) / 2) as i32]: Rust's [/] truncates towards
     zero, and the mean of two i32 values is an i32 *)
  let strategy := set_total_returns_bps strategy
                    (Z.quot (total_returns_bps strategy + returns_bps) 2) in
  Ok (strategy, subscription).

(** [collect_management_fees]; [now] is [Clock::get()?.unix_timestamp].
    The strategy is only read ([let strategy = &ctx.accounts.strategy]). *)
Definition collect_management_fees (ctx : UpdateCtx) (now : Z)
  : result (AIStrategy * StrategySubscription) Error :=
  let* _ := require (vc_authority ctx =? vc_registry_authority ctx) Unauthorized in
  let strategy := vc_strategy ctx in
  let subscription := vc_subscription ctx in
  let* seconds_elapsed :=
    unwrap (checked_sub_i64 now (last_fee_collection subscription)) Panic in
  if seconds_elapsed <? 86400 then Ok (strategy, subscription) else
  let fee_ratio := F64.div (F64.of_int (management_fee_bps strategy))
                           (F64.of_int 10000) in
  let time_ratio := F64.div (F64.of_int seconds_elapsed)
                            (F64.mul (F64.of_int 365) (F64.of_int 86400)) in
  let fee_amount :=
    F64.to_u64 (F64.mul (F64.mul (F64.of_int (current_value subscription))
                                 fee_ratio) time_ratio) in
  let subscription := set_current_value subscription
        (unwrap_or (checked_sub_u64 (current_value subscription) fee_amount)
                   (current_value subscription)) in
  let subscription := set_last_fee_collection subscription now in
  Ok (strategy, subscription).

(** [collect_performance_fees]; the strategy is only read. *)
Definition collect_performance_fees (ctx : UpdateCtx)
  : result (AIStrategy * StrategySubscription) Error :=
  let* _ := require (vc_authority ctx =? vc_registry_authority ctx) Unauthorized in
  let strategy := vc_strategy ctx in
  let subscription := vc_subscription ctx in
  if current_value subscription <=? high_water_mark subscription
  then Ok (strategy, subscription) else
  let profit := current_value subscription - high_water_mark subscription in
  let fee_ratio := F64.div (F64.of_int (performance_fee_bps strategy))
                           (F64.of_int 10000) in
  let fee_amount := F64.to_u64 (F64.mul (F64.of_int profit) fee_ratio) in
  let subscription := set_current_value subscription
        (unwrap_or (checked_sub_u64 (current_value subscription) fee_amount)
                   (current_value subscription)) in
  let subscription := set_high_water_mark subscription
                        (current_value subscription) in
  Ok (strategy, subscription).

(** ** One strategy and its live subscriptions, keyed by subscriber

    The subscription PDA is derived from (strategy, subscriber), so there is
    at most one live subscription per subscriber. *)
Record Ledger := mkLedger {
  l_strategy_key : Pubkey;
  l_strategy : AIStrategy;
  l_subscriptions : list (Pubkey * StrategySubscription)
}.

Fixpoint lookup (k : Pubkey) (l : list (Pubkey * StrategySubscription))
  : option StrategySubscription :=
  match l with
  | [] => None
  | (k', s) :: l' => if k =? k' then Some s else lookup k l'
  end.

Definition remove (k : Pubkey) (l : list (Pubkey * StrategySubscription))
  : list (Pubkey * StrategySubscription) :=
  filter (fun p => negb (k =? fst p)) l.

Inductive Op :=
| OpSubscribe (who : Pubkey) (amount now bump : Z) (transfer_ok : bool)
| OpUnsubscribe (who : Pubkey) (transfer_ok : bool).

(** One transaction: on [Err] every account keeps its pre-state. *)
Definition step (L : Ledger) (op : Op) : Ledger :=
  match op with
  | OpSubscribe who amount now b ok =>
      let ctx := {| sc_subscriber := who; sc_strategy_key := l_strategy_key L;
                    sc_strategy := l_strategy L;
                    sc_subscription_exists :=
                      match lookup who (l_subscriptions L) with
                      | Some _ => true | None => false end;
                    sc_subscription_bump := b; sc_now := now;
                    sc_transfer_ok := ok |} in
      match subscribe_to_strategy ctx amount with
      | Ok (st, sub) => {| l_strategy_key := l_strategy_key L; l_strategy := st;
                           l_subscriptions := (who, sub) :: l_subscriptions L |}
      | Err _ => L
      end
  | OpUnsubscribe who ok =>
      let ctx := {| uc_subscriber := who; uc_strategy := l_strategy L;
                    uc_subscription := lookup who (l_subscriptions L);
                    uc_transfer_ok := ok |} in
      match unsubscribe_from_strategy ctx with
      | Ok st => {| l_strategy_key := l_strategy_key L; l_strategy := st;
                    l_subscriptions := remove who (l_subscriptions L) |}
      | Err _ => L
      end
  end.

Definition run (L : Ledger) (ops : list Op) : Ledger := fold_left step ops L.

Definition sum_current_value (l : list (Pubkey * StrategySubscription)) : Z :=
  fold_right (fun p acc => current_value (snd p) + acc) 0 l.

End StrategyManager.

(** * [ai_trading.rs] *)

Module AiTrading.

(** [#[account] pub struct TradingState] *)
Record TradingState := mkTradingState {
  authority : Pubkey;
  initialized : bool;
  paused : bool;
  max_position_size : Z;   (* u64 *)
  risk_level : Z;          (* u8 *)
  total_trades : Z;        (* u64 *)
  successful_trades : Z;   (* u64 *)
  total_profit_loss : Z    (* i64 *)
}.

(** [pub enum TradeSide] *)
Inductive TradeSide := Buy | Sell.

(** [#[account] pub struct TradeRecord] *)
Record TradeRecord := mkTradeRecord {
  tr_authority : Pubkey;
  timestamp : Z;           (* i64 *)
  amount : Z;              (* u64 *)
  side : TradeSide;
  price : Z;               (* i64 *)
  confidence : Z;          (* u8 *)
  strategy_id : Z;         (* u8 *)
  successful : bool;
  profit_loss : Z          (* i64 *)
}.

(** [pub enum ErrorCode], and the failures of the runtime around it. *)
Inductive Error :=
| TradingPaused
| Unauthorized
| InsufficientConfidence
| PositionTooLarge
| InvalidRiskLevel
| InvalidTradeRecord
| AccountAlreadyInUse     (* [init] of [trade_record] on an existing account *)
| PriceFeedError          (* [get_price_no_older_than] failed (stale, feed) *)
| TransferFailed          (* the SPL token transfer CPI failed *)
| Panic.                  (* arithmetic overflow *)

(** What [get_price_no_older_than] returns. *)
Record PriceInfo := mkPriceInfo {
  pi_price : Z;            (* i64 *)
  pi_conf : Z;             (* u64 *)
  pi_exponent : Z          (* i32 *)
}.

Definition checked_add_u64' (a b : Z) : result Z Error :=
  unwrap (checked_add_u64 a b) Panic.

Definition checked_add_i64' (a b : Z) : result Z Error :=
  unwrap (checked_add_i64 a b) Panic.

(** [match trading_state.risk_level { 1..=3 => 80, 4..=7 => 65, _ => 50 }] *)
Definition min_confidence (risk_level : Z) : Z :=
  if (1 <=? risk_level) && (risk_level <=? 3) then 80
  else if (4 <=? risk_level) && (risk_level <=? 7) then 65
  else 50.

(** The [ExecuteTrade] accounts and the external inputs of [execute_trade]:
    [et_price] is the result of the Pyth call ([None]: it returned an
    error, e.g. a price older than 30 s); [et_transfer_ok] the outcome of the
    token transfer CPI. *)
Record ExecuteCtx := mkExecuteCtx {
  et_trading_state : TradingState;
  et_authority : Pubkey;
  et_trade_record_exists : bool;
  et_price : option PriceInfo;
  et_now : Z;
  et_transfer_ok : bool
}.

(** A freshly [init]-ed account is zero-filled. *)
Definition zero_trade_record : TradeRecord :=
  {| tr_authority := 0; timestamp := 0; amount := 0; side := Buy; price := 0;
     confidence := 0; strategy_id := 0; successful := false;
     profit_loss := 0 |}.

Definition set_total_trades (s : TradingState) (v : Z) : TradingState :=
  {| authority := authority s; initialized := initialized s;
     paused := paused s; max_position_size := max_position_size s;
     risk_level := risk_level s; total_trades := v;
     successful_trades := successful_trades s;
     total_profit_loss := total_profit_loss s |}.

Definition set_successful_trades (s : TradingState) (v : Z) : TradingState :=
  {| authority := authority s; initialized := initialized s;
     paused := paused s; max_position_size := max_position_size s;
     risk_level := risk_level s; total_trades := total_trades s;
     successful_trades := v;
     total_profit_loss := total_profit_loss s |}.

Definition set_total_profit_loss (s : TradingState) (v : Z) : TradingState :=
  {| authority := authority s; initialized := initialized s;
     paused := paused s; max_position_size := max_position_size s;
     risk_level := risk_level s; total_trades := total_trades s;
     successful_trades := successful_trades s;
     total_profit_loss := v |}.

(** [execute_trade] *)
Definition execute_trade (ctx : ExecuteCtx) (amount' : Z) (side' : TradeSide)
    (confidence' strategy_id' : Z) : result (TradingState * TradeRecord) Error :=
  let* _ := require (negb (et_trade_record_exists ctx)) AccountAlreadyInUse in
  let trading_state := et_trading_state ctx in
  let* _ := require (negb (paused trading_state)) TradingPaused in
  let* _ := require (et_authority ctx =? authority trading_state) Unauthorized in
  let* price_info := unwrap (et_price ctx) PriceFeedError in
  let min_conf := min_confidence (risk_level trading_state) in
  let* _ := require (min_conf <=? confidence') InsufficientConfidence in
  let* _ := require (amount' <=? max_position_size trading_state)
                    PositionTooLarge in
  let* tt' := checked_add_u64' (total_trades trading_state) 1 in
  let trading_state := set_total_trades trading_state tt' in
  (* [TradeSide::Buy] / [TradeSide::Sell]: one token transfer either way *)
  let* _ := require (et_transfer_ok ctx) TransferFailed in
  let trade_record :=
    {| tr_authority := et_authority ctx; timestamp := et_now ctx;
       amount := amount'; side := side'; price := pi_price price_info;
       confidence := confidence'; strategy_id := strategy_id';
       successful := successful zero_trade_record;
       profit_loss := profit_loss zero_trade_record |} in
  Ok (trading_state, trade_record).

(** The [UpdateTradeOutcome] accounts; [uo_trade_record_key] is
    [trade_record.key()]. *)
Record OutcomeCtx := mkOutcomeCtx {
  uo_trading_state : TradingState;
  uo_trade_record : TradeRecord;
  uo_trade_record_key : Pubkey;
  uo_authority : Pubkey
}.

(** [update_trade_outcome] *)
Definition update_trade_outcome (ctx : OutcomeCtx) (trade_id : Pubkey)
    (successful' : bool) (profit_loss' : Z)
  : result (TradingState * TradeRecord) Error :=
  let trading_state := uo_trading_state ctx in
  let trade_record := uo_trade_record ctx in
  let* _ := require (uo_authority ctx =? authority trading_state) Unauthorized in
  let* _ := require (uo_trade_record_key ctx =? trade_id) InvalidTradeRecord in
  let trade_record :=
    {| tr_authority := tr_authority trade_record;
       timestamp := timestamp trade_record; amount := amount trade_record;
       side := side trade_record; price := price trade_record;
       confidence := confidence trade_record;
       strategy_id := strategy_id trade_record;
       successful := successful'; profit_loss := profit_loss' |} in
  let* trading_state :=
    if successful'
    then let* v := checked_add_u64' (successful_trades trading_state) 1 in
         Ok (set_successful_trades trading_state v)
    else Ok trading_state in
  let* pl := checked_add_i64' (total_profit_loss trading_state) profit_loss' in
  let trading_state := set_total_profit_loss trading_state pl in
  Ok (trading_state, trade_record).

(** [initialize] with its [Initialize] accounts: [trading_state] is [init]
    (a fresh keypair account), so it fails on an existing account; every
    field of the new state is then written.  The [authority] recorded is the
    instruction argument, not the payer. *)
Definition initialize (trading_state_exists : bool) (authority' : Pubkey)
    (max_position_size' risk_level' : Z) : result TradingState Error :=
  let* _ := require (negb trading_state_exists) AccountAlreadyInUse in
  Ok {| authority := authority'; max_position_size := max_position_size';
        risk_level := risk_level'; initialized := true; paused := false;
        total_trades := 0; successful_trades := 0; total_profit_loss := 0 |}.

Definition set_max_position_size (s : TradingState) (v : Z) : TradingState :=
  {| authority := authority s; initialized := initialized s;
     paused := paused s; max_position_size := v;
     risk_level := risk_level s; total_trades := total_trades s;
     successful_trades := successful_trades s;
     total_profit_loss := total_profit_loss s |}.

Definition set_risk_level (s : TradingState) (v : Z) : TradingState :=
  {| authority := authority s; initialized := initialized s;
     paused := paused s; max_position_size := max_position_size s;
     risk_level := v; total_trades := total_trades s;
     successful_trades := successful_trades s;
     total_profit_loss := total_profit_loss s |}.

Definition set_paused (s : TradingState) (v : bool) : TradingState :=
  {| authority := authority s; initialized := initialized s;
     paused := v; max_position_size := max_position_size s;
     risk_level := risk_level s; total_trades := total_trades s;
     successful_trades := successful_trades s;
     total_profit_loss := total_profit_loss s |}.

(** The [UpdateParameters] accounts. *)
Record ParamsCtx := mkParamsCtx {
  pc_trading_state : TradingState;
  pc_authority : Pubkey
}.

(** [update_parameters] *)
Definition update_parameters (ctx : ParamsCtx) (max_position_size' : option Z)
    (risk_level' : option Z) (paused' : option bool)
  : result TradingState Error :=
  let trading_state := pc_trading_state ctx in
  let* _ := require (pc_authority ctx =? authority trading_state) Unauthorized in
  let trading_state :=
    match max_position_size' with
    | Some size => set_max_position_size trading_state size
    | None => trading_state
    end in
  let* trading_state :=
    match risk_level' with
    | Some level =>
        let* _ := require (level <=? 10) InvalidRiskLevel in
        Ok (set_risk_level trading_state level)
    | None => Ok trading_state
    end in
  let trading_state :=
    match paused' with
    | Some pause_state => set_paused trading_state pause_state
    | None => trading_state
    end in
  Ok trading_state.

End AiTrading.

(** * [defi_strategy.rs] (native Solana program) *)

Module DefiStrategy.

Inductive RiskLevel := Conservative | Moderate | Aggressive | Experimental.

Inductive ProtocolType :=
| Lending | LiquidityProviding | YieldFarming | Staking | Options.

Record TokenAllocation := mkTokenAllocation {
  ta_mint : Pubkey;
  ta_symbol : list Z;        (* [u8; 10] *)
  ta_allocation : Z          (* u8 *)
}.

Record ProtocolAllocation := mkProtocolAllocation {
  pa_name : list Z;          (* [u8; 20] *)
  pa_allocation : Z          (* u8 *)
}.

(** [pub struct Strategy] *)
Record Strategy := mkStrategy {
  version : Z;               (* u8 *)
  creator : Pubkey;
  name : list Z;             (* [u8; 32] *)
  description : list Z;      (* [u8; 200] *)
  risk_level : RiskLevel;
  protocol_type : ProtocolType;
  estimated_apy : Z;         (* u32 *)
  tags : list Z;             (* [u8; 5] *)
  tvl : Z;                   (* u64 *)
  user_count : Z;            (* u32 *)
  lockup_period : Z;         (* u16, in days *)
  min_investment : Z;        (* u64 *)
  fee_percentage : Z;        (* u16 *)
  token_count : Z;           (* u8 *)
  tokens : list TokenAllocation;        (* [_; 10] *)
  protocol_count : Z;        (* u8 *)
  protocols : list ProtocolAllocation;  (* [_; 10] *)
  verified : bool;
  ai_model_version : Z;      (* u8 *)
  reserved : list Z          (* [u8; 64] *)
}.

Record TokenInvestment := mkTokenInvestment {
  ti_mint : Pubkey;
  initial_amount : Z;        (* u64 *)
  current_amount : Z         (* u64 *)
}.

(** [pub struct UserPosition] *)
Record UserPosition := mkUserPosition {
  up_version : Z;            (* u8 *)
  owner : Pubkey;
  up_strategy : Pubkey;
  initial_investment : Z;    (* u64 *)
  current_value : Z;         (* u64 *)
  subscription_time : Z;     (* i64 *)
  last_harvest_time : Z;     (* i64 *)
  performance_fee_rate : Z;  (* u16 *)
  up_token_count : Z;        (* u8 *)
  token_investments : list TokenInvestment;  (* [_; 10] *)
  up_reserved : list Z       (* [u8; 64] *)
}.

(** The [ProgramError]s this processor returns. *)
Inductive ProgramError :=
| NotEnoughAccountKeys
| MissingRequiredSignature
| IncorrectProgramId
| InvalidAccountData
| InvalidArgument
| InvalidInstructionData
| BorshIoError            (* [try_from_slice] could not decode the data *)
| Custom (code : Z)       (* [ProgramError::Custom(u32)]: a program's own code *)
| Panic.                  (* arithmetic overflow *)

(** The data of an account, by what it decodes to. *)
Inductive AccountData :=
| DStrategy (s : Strategy)
| DPosition (p : UserPosition)
| DOther.

Record AccountInfo := mkAccountInfo {
  key : Pubkey;
  is_signer : bool;
  account_owner : Pubkey;
  data : AccountData
}.

Definition strategy_try_from_slice (d : AccountData) : result Strategy ProgramError :=
  match d with DStrategy s => Ok s | _ => Err BorshIoError end.

Definition position_try_from_slice (d : AccountData)
  : result UserPosition ProgramError :=
  match d with DPosition p => Ok p | _ => Err BorshIoError end.

Definition set_tvl (s : Strategy) (v : Z) : Strategy :=
  {| version := version s; creator := creator s; name := name s;
     description := description s; risk_level := risk_level s;
     protocol_type := protocol_type s; estimated_apy := estimated_apy s;
     tags := tags s; tvl := v; user_count := user_count s;
     lockup_period := lockup_period s; min_investment := min_investment s;
     fee_percentage := fee_percentage s; token_count := token_count s;
     tokens := tokens s; protocol_count := protocol_count s;
     protocols := protocols s; verified := verified s;
     ai_model_version := ai_model_version s; reserved := reserved s |}.

Definition set_user_count (s : Strategy) (v : Z) : Strategy :=
  {| version := version s; creator := creator s; name := name s;
     description := description s; risk_level := risk_level s;
     protocol_type := protocol_type s; estimated_apy := estimated_apy s;
     tags := tags s; tvl := tvl s; user_count := v;
     lockup_period := lockup_period s; min_investment := min_investment s;
     fee_percentage := fee_percentage s; token_count := token_count s;
     tokens := tokens s; protocol_count := protocol_count s;
     protocols := protocols s; verified := verified s;
     ai_model_version := ai_model_version s; reserved := reserved s |}.

(** The lockup deadline [subscription_time + lockup_period as i64 * 24*60*60] *)
Definition lockup_time_secs (strategy : Strategy) (position : UserPosition)
  : result Z ProgramError :=
  unwrap (checked_add_i64 (subscription_time position)
                          (lockup_period strategy * 24 * 60 * 60)) Panic.

(** [process_unsubscribe_from_strategy]; [now] is the clock's
    [unix_timestamp].  The source leaves the serialisation of the updated
    strategy commented out, so the instruction writes no account: it only
    succeeds or fails. *)
Definition process_unsubscribe_from_strategy (program_id : Pubkey)
    (accounts : list AccountInfo) (now : Z) : result unit ProgramError :=
  match accounts with
  | subscriber_account :: strategy_account :: position_account :: _ =>
      let* _ := require (is_signer subscriber_account) MissingRequiredSignature in
      let* _ := require ((account_owner strategy_account =? program_id)
                         && (account_owner position_account =? program_id))
                        IncorrectProgramId in
      let* position := position_try_from_slice (data position_account) in
      let* _ := require (owner position =? key subscriber_account)
                        InvalidAccountData in
      let* _ := require (up_strategy position =? key strategy_account)
                        InvalidAccountData in
      let* strategy := strategy_try_from_slice (data strategy_account) in
      let* lockup := lockup_time_secs strategy position in
      let* _ := require (lockup <=? now) InvalidArgument in
      let strategy :=
        if current_value position <=? tvl strategy
        then set_tvl strategy (tvl strategy - current_value position)
        else set_tvl strategy 0 in
      let strategy :=
        if 0 <? user_count strategy
        then set_user_count strategy (user_count strategy - 1)
        else strategy in
      (* [strategy.serialize(..)] is commented out in the source *)
      let _ := strategy in
      Ok tt
  | _ => Err NotEnoughAccountKeys
  end.

(** ** The other instruction processors *)

Definition U32_MAX : Z := 2 ^ 32 - 1.

(** [f64] addition, as [F64.mul] and [F64.div] *)
Definition f64_add (x y : F64.f64) : F64.f64 := SFadd F64.prec F64.emax x y.

Definition set_estimated_apy (s : Strategy) (v : Z) : Strategy :=
  {| version := version s; creator := creator s; name := name s;
     description := description s; risk_level := risk_level s;
     protocol_type := protocol_type s; estimated_apy := v; tags := tags s;
     tvl := tvl s; user_count := user_count s;
     lockup_period := lockup_period s; min_investment := min_investment s;
     fee_percentage := fee_percentage s; token_count := token_count s;
     tokens := tokens s; protocol_count := protocol_count s;
     protocols := protocols s; verified := verified s;
     ai_model_version := ai_model_version s; reserved := reserved s |}.

Definition set_description (s : Strategy) (v : list Z) : Strategy :=
  {| version := version s; creator := creator s; name := name s;
     description := v; risk_level := risk_level s;
     protocol_type := protocol_type s; estimated_apy := estimated_apy s;
     tags := tags s; tvl := tvl s; user_count := user_count s;
     lockup_period := lockup_period s; min_investment := min_investment s;
     fee_percentage := fee_percentage s; token_count := token_count s;
     tokens := tokens s; protocol_count := protocol_count s;
     protocols := protocols s; verified := verified s;
     ai_model_version := ai_model_version s; reserved := reserved s |}.

Definition set_verified (s : Strategy) (v : bool) : Strategy :=
  {| version := version s; creator := creator s; name := name s;
     description := description s; risk_level := risk_level s;
     protocol_type := protocol_type s; estimated_apy := estimated_apy s;
     tags := tags s; tvl := tvl s; user_count := user_count s;
     lockup_period := lockup_period s; min_investment := min_investment s;
     fee_percentage := fee_percentage s; token_count := token_count s;
     tokens := tokens s; protocol_count := protocol_count s;
     protocols := protocols s; verified := v;
     ai_model_version := ai_model_version s; reserved := reserved s |}.

(** Bytes of the Borsh encoding of a [Strategy]: fixed-size arrays, one-byte
    enum tags. *)
Definition STRATEGY_LEN : Z :=
  1 + 32 + 32 + 200 + 1 + 1 + 4 + 5 + 8 + 4 + 2 + 8 + 2 + 1
  + 10 * (32 + 10 + 1) + 1 + 10 * (20 + 1) + 1 + 1 + 64.

(** [arr[..l.len()].copy_from_slice(l)] (or the element-wise copy loop) into
    an array of [n] default elements. *)
Definition pad {A} (n : nat) (zero : A) (l : list A) : list A :=
  l ++ repeat zero (n - List.length l).

Definition default_token_allocation : TokenAllocation :=
  {| ta_mint := 0; ta_symbol := repeat 0 10; ta_allocation := 0 |}.

Definition default_protocol_allocation : ProtocolAllocation :=
  {| pa_name := repeat 0 20; pa_allocation := 0 |}.

Definition default_token_investment : TokenInvestment :=
  {| ti_mint := 0; initial_amount := 0; current_amount := 0 |}.

(** [strategy.serialize(&mut &mut account.data.borrow_mut()[..])] on data of
    [data_len] bytes: the write fails when the data are too short; longer
    data keep their trailing bytes, which [Strategy::try_from_slice] then
    refuses (not all bytes read). *)
Definition serialize_strategy (s : Strategy) (data_len : Z)
  : result AccountData ProgramError :=
  if data_len <? STRATEGY_LEN then Err BorshIoError
  else if data_len =? STRATEGY_LEN then Ok (DStrategy s)
  else Ok DOther.

(** [process_create_strategy]: the result is the new data of the strategy
    account, whose length is [strategy_data_len].  [Rent::get()] does not
    fail, and its result is not used. *)
Definition process_create_strategy (program_id : Pubkey)
    (accounts : list AccountInfo) (strategy_data_len : Z)
    (name' description' : list Z) (risk_level' : RiskLevel)
    (protocol_type' : ProtocolType) (estimated_apy' : Z) (tags' : list Z)
    (lockup_period' min_investment' fee_percentage' : Z)
    (tokens' : list TokenAllocation) (protocols' : list ProtocolAllocation)
  : result AccountData ProgramError :=
  match accounts with
  | creator_account :: strategy_account :: _system_program :: _ =>
      let* _ := require (is_signer creator_account) MissingRequiredSignature in
      let* _ := require (account_owner strategy_account =? program_id)
                        IncorrectProgramId in
      let* _ := require (negb (Nat.ltb 32 (List.length name')))
                        InvalidInstructionData in
      let* _ := require (negb (Nat.ltb 200 (List.length description')))
                        InvalidInstructionData in
      let* _ := require (negb (Nat.ltb 10 (List.length tokens')
                               || Nat.eqb (List.length tokens') 0))
                        InvalidInstructionData in
      let* _ := require (negb (Nat.ltb 10 (List.length protocols')
                               || Nat.eqb (List.length protocols') 0))
                        InvalidInstructionData in
      let* _ := require (negb (Nat.ltb 5 (List.length tags')))
                        InvalidInstructionData in
      let strategy_data :=
        {| version := 1; creator := key creator_account;
           name := pad 32 0 name'; description := pad 200 0 description';
           risk_level := risk_level'; protocol_type := protocol_type';
           estimated_apy := estimated_apy'; tags := pad 5 0 tags';
           tvl := 0; user_count := 0; lockup_period := lockup_period';
           min_investment := min_investment';
           fee_percentage := fee_percentage';
           token_count := Z.of_nat (List.length tokens');
           tokens := pad 10 default_token_allocation tokens';
           protocol_count := Z.of_nat (List.length protocols');
           protocols := pad 10 default_protocol_allocation protocols';
           verified := false; ai_model_version := 1;
           reserved := repeat 0 64 |} in
      serialize_strategy strategy_data strategy_data_len
  | _ => Err NotEnoughAccountKeys
  end.

(** [iter().map(|inv| inv.initial_amount).sum::<u64>()]: [Sum] for [u64]
    adds from the left and panics on overflow in a build with overflow
    checks. *)
Fixpoint sum_u64 (acc : Z) (l : list Z) : result Z ProgramError :=
  match l with
  | [] => Ok acc
  | x :: l' =>
      let* acc' := unwrap (checked_add_u64 acc x) Panic in
      sum_u64 acc' l'
  end.

(** [process_subscribe_to_strategy]; [now] is the clock's [unix_timestamp].
    Both serialisations (of the position and of the strategy) are commented
    out in the source, so the instruction writes no account. *)
Definition process_subscribe_to_strategy (program_id : Pubkey)
    (accounts : list AccountInfo) (now : Z)
    (investment_amounts : list TokenInvestment) : result unit ProgramError :=
  match accounts with
  | subscriber_account :: strategy_account :: position_account
      :: _system_program :: _ =>
      let* _ := require (is_signer subscriber_account) MissingRequiredSignature in
      let* _ := require (account_owner strategy_account =? program_id)
                        IncorrectProgramId in
      let* strategy := strategy_try_from_slice (data strategy_account) in
      let* _ := require (negb (Nat.eqb (List.length investment_amounts) 0
                               || Nat.ltb 10 (List.length investment_amounts)))
                        InvalidInstructionData in
      let* total_investment :=
        sum_u64 0 (map initial_amount investment_amounts) in
      let* _ := require (min_investment strategy <=? total_investment)
                        InvalidArgument in
      let user_position :=
        {| up_version := 1; owner := key subscriber_account;
           up_strategy := key strategy_account;
           initial_investment := total_investment;
           current_value := total_investment;
           subscription_time := now; last_harvest_time := now;
           performance_fee_rate := fee_percentage strategy;
           up_token_count := Z.of_nat (List.length investment_amounts);
           token_investments := repeat default_token_investment 10;
           up_reserved := repeat 0 64 |} in
      let _ := (user_position, position_account) in
      let* tvl' := unwrap (checked_add_u64 (tvl strategy) total_investment)
                          Panic in
      let strategy := set_tvl strategy tvl' in
      let* user_count' :=
        unwrap (if user_count strategy + 1 <=? U32_MAX
                then Some (user_count strategy + 1) else None) Panic in
      let strategy := set_user_count strategy user_count' in
      let _ := strategy in
      Ok tt
  | _ => Err NotEnoughAccountKeys
  end.

(** [process_harvest_rewards]; [now] is the clock's [unix_timestamp].  The
    serialisation of the updated position is commented out in the source, so
    the instruction writes no account. *)
Definition process_harvest_rewards (program_id : Pubkey)
    (accounts : list AccountInfo) (now : Z) : result unit ProgramError :=
  match accounts with
  | subscriber_account :: strategy_account :: position_account
      :: _fee_recipient_account :: _ =>
      let* _ := require (is_signer subscriber_account) MissingRequiredSignature in
      let* _ := require ((account_owner strategy_account =? program_id)
                         && (account_owner position_account =? program_id))
                        IncorrectProgramId in
      let* position := position_try_from_slice (data position_account) in
      let* _ := require (owner position =? key subscriber_account)
                        InvalidAccountData in
      let* _ := require (up_strategy position =? key strategy_account)
                        InvalidAccountData in
      let* strategy := strategy_try_from_slice (data strategy_account) in
      let last := last_harvest_time position in
      let* elapsed := unwrap (checked_sub_i64 now last) Panic in
      (* [i64] division truncates towards zero *)
      let time_diff_days := Z.quot elapsed (24 * 60 * 60) in
      let* _ := require (0 <? time_diff_days) InvalidArgument in
      let apy_decimal := F64.div (F64.of_int (estimated_apy strategy))
                                 (F64.of_int 10000) in
      let daily_rate := F64.div apy_decimal (F64.of_int 365) in
      let reward_multiplier :=
        f64_add (F64.of_int 1)
                (F64.mul daily_rate (F64.of_int time_diff_days)) in
      let initial_value := initial_investment position in
      let new_value :=
        F64.to_u64 (F64.mul (F64.of_int initial_value) reward_multiplier) in
      let* rewards := unwrap (checked_sub_u64 new_value (current_value position))
                             Panic in
      let fee_amount :=
        F64.to_u64 (F64.mul (F64.of_int rewards)
                            (F64.div (F64.of_int (performance_fee_rate position))
                                     (F64.of_int 10000))) in
      let* user_reward := unwrap (checked_sub_u64 rewards fee_amount) Panic in
      let* current_value' :=
        unwrap (checked_add_u64 (current_value position) user_reward) Panic in
      (* [position.current_value], [position.last_harvest_time]: not written *)
      let _ := (current_value', now) in
      Ok tt
  | _ => Err NotEnoughAccountKeys
  end.

(** [process_update_strategy]: the serialisation of the updated strategy is
    commented out in the source, so the instruction writes no account. *)
Definition process_update_strategy (program_id : Pubkey)
    (accounts : list AccountInfo) (estimated_apy' : Z) (description' : list Z)
  : result unit ProgramError :=
  match accounts with
  | creator_account :: strategy_account :: _ =>
      let* _ := require (is_signer creator_account) MissingRequiredSignature in
      let* _ := require (account_owner strategy_account =? program_id)
                        IncorrectProgramId in
      let* strategy := strategy_try_from_slice (data strategy_account) in
      let* _ := require (creator strategy =? key creator_account)
                        InvalidAccountData in
      let strategy := set_estimated_apy strategy estimated_apy' in
      let* strategy :=
        if negb (Nat.eqb (List.length description') 0) then
          let* _ := require (negb (Nat.ltb 200 (List.length description')))
                            InvalidInstructionData in
          Ok (set_description strategy (pad 200 0 description'))
        else Ok strategy in
      let _ := strategy in
      Ok tt
  | _ => Err NotEnoughAccountKeys
  end.

(** [Pubkey::new_from_array]: a key is the big-endian number of its bytes. *)
Definition pubkey_new_from_array (bytes : list Z) : Pubkey :=
  fold_left (fun acc b => acc * 256 + b) bytes 0.

(** [Pubkey::new_from_array([1; 32])] *)
Definition expected_admin : Pubkey := pubkey_new_from_array (repeat 1 32).

(** [process_verify_strategy]: the serialisation of the updated strategy is
    commented out in the source, so the instruction writes no account. *)
Definition process_verify_strategy (program_id : Pubkey)
    (accounts : list AccountInfo) (verified' : bool) : result unit ProgramError :=
  match accounts with
  | admin_account :: strategy_account :: _ =>
      let* _ := require (is_signer admin_account) MissingRequiredSignature in
      let* _ := require (account_owner strategy_account =? program_id)
                        IncorrectProgramId in
      let* _ := require (key admin_account =? expected_admin)
                        InvalidAccountData in
      let* strategy := strategy_try_from_slice (data strategy_account) in
      let strategy := set_verified strategy verified' in
      let _ := strategy in
      Ok tt
  | _ => Err NotEnoughAccountKeys
  end.

End DefiStrategy.

(** * [strategy_manager.rs]: registry and strategy administration *)

Module StrategyAdmin.
Import StrategyManager.

(** [#[account] #[derive(Default)] pub struct StrategyRegistry] *)
Record StrategyRegistry := mkStrategyRegistry {
  reg_authority : Pubkey;
  strategy_count : Z;        (* u64 *)
  protocol_fee_bps : Z;      (* u16 *)
  fee_recipient : Pubkey;
  reg_bump : Z               (* u8 *)
}.

(** [StrategyRegistry::default()]: what an [init]-ed account reads as, its
    data being zero-filled. *)
Definition default_registry : StrategyRegistry :=
  {| reg_authority := 0; strategy_count := 0; protocol_fee_bps := 0;
     fee_recipient := 0; reg_bump := 0 |}.

Definition set_strategy_count (r : StrategyRegistry) (v : Z) : StrategyRegistry :=
  {| reg_authority := reg_authority r; strategy_count := v;
     protocol_fee_bps := protocol_fee_bps r; fee_recipient := fee_recipient r;
     reg_bump := reg_bump r |}.

(** The errors of these instructions: [ErrorCode], and the Anchor and
    runtime errors of their account constraints and of writing the accounts
    back. *)
Inductive Error :=
| Unauthorized
| InvalidParameter
| AccountAlreadyInUse      (* [init] on an account that already exists *)
| ConstraintSeeds          (* a [seeds] constraint: the account is not that PDA *)
| AccountDidNotSerialize   (* on exit the account does not fit its [space] *)
| Panic.                   (* arithmetic overflow; no bump in [find_program_address] *)

Definition set_creator (s : AIStrategy) (v : Pubkey) : AIStrategy :=
  {| id := id s; creator := v; name := name s;
     description_hash := description_hash s; risk_level := risk_level s;
     time_horizon := time_horizon s; ai_models := ai_models s;
     token_support := token_support s;
     management_fee_bps := management_fee_bps s;
     performance_fee_bps := performance_fee_bps s;
     min_investment := min_investment s; tvl := tvl s;
     subscriber_count := subscriber_count s;
     total_returns_bps := total_returns_bps s; created_at := created_at s;
     updated_at := updated_at s; status := status s; verified := verified s;
     bump := bump s |}.

Definition set_name (s : AIStrategy) (v : string) : AIStrategy :=
  {| id := id s; creator := creator s; name := v;
     description_hash := description_hash s; risk_level := risk_level s;
     time_horizon := time_horizon s; ai_models := ai_models s;
     token_support := token_support s;
     management_fee_bps := management_fee_bps s;
     performance_fee_bps := performance_fee_bps s;
     min_investment := min_investment s; tvl := tvl s;
     subscriber_count := subscriber_count s;
     total_returns_bps := total_returns_bps s; created_at := created_at s;
     updated_at := updated_at s; status := status s; verified := verified s;
     bump := bump s |}.

Definition set_description_hash (s : AIStrategy) (v : string) : AIStrategy :=
  {| id := id s; creator := creator s; name := name s; description_hash := v;
     risk_level := risk_level s; time_horizon := time_horizon s;
     ai_models := ai_models s; token_support := token_support s;
     management_fee_bps := management_fee_bps s;
     performance_fee_bps := performance_fee_bps s;
     min_investment := min_investment s; tvl := tvl s;
     subscriber_count := subscriber_count s;
     total_returns_bps := total_returns_bps s; created_at := created_at s;
     updated_at := updated_at s; status := status s; verified := verified s;
     bump := bump s |}.

Definition set_risk_level (s : AIStrategy) (v : Z) : AIStrategy :=
  {| id := id s; creator := creator s; name := name s;
     description_hash := description_hash s; risk_level := v;
     time_horizon := time_horizon s; ai_models := ai_models s;
     token_support := token_support s;
     management_fee_bps := management_fee_bps s;
     performance_fee_bps := performance_fee_bps s;
     min_investment := min_investment s; tvl := tvl s;
     subscriber_count := subscriber_count s;
     total_returns_bps := total_returns_bps s; created_at := created_at s;
     updated_at := updated_at s; status := status s; verified := verified s;
     bump := bump s |}.

Definition set_time_horizon (s : AIStrategy) (v : Z) : AIStrategy :=
  {| id := id s; creator := creator s; name := name s;
     description_hash := description_hash s; risk_level := risk_level s;
     time_horizon := v; ai_models := ai_models s;
     token_support := token_support s;
     management_fee_bps := management_fee_bps s;
     performance_fee_bps := performance_fee_bps s;
     min_investment := min_investment s; tvl := tvl s;
     subscriber_count := subscriber_count s;
     total_returns_bps := total_returns_bps s; created_at := created_at s;
     updated_at := updated_at s; status := status s; verified := verified s;
     bump := bump s |}.

Definition set_ai_models (s : AIStrategy) (v : Z) : AIStrategy :=
  {| id := id s; creator := creator s; name := name s;
     description_hash := description_hash s; risk_level := risk_level s;
     time_horizon := time_horizon s; ai_models := v;
     token_support := token_support s;
     management_fee_bps := management_fee_bps s;
     performance_fee_bps := performance_fee_bps s;
     min_investment := min_investment s; tvl := tvl s;
     subscriber_count := subscriber_count s;
     total_returns_bps := total_returns_bps s; created_at := created_at s;
     updated_at := updated_at s; status := status s; verified := verified s;
     bump := bump s |}.

Definition set_token_support (s : AIStrategy) (v : Z) : AIStrategy :=
  {| id := id s; creator := creator s; name := name s;
     description_hash := description_hash s; risk_level := risk_level s;
     time_horizon := time_horizon s; ai_models := ai_models s;
     token_support := v; management_fee_bps := management_fee_bps s;
     performance_fee_bps := performance_fee_bps s;
     min_investment := min_investment s; tvl := tvl s;
     subscriber_count := subscriber_count s;
     total_returns_bps := total_returns_bps s; created_at := created_at s;
     updated_at := updated_at s; status := status s; verified := verified s;
     bump := bump s |}.

Definition set_management_fee_bps (s : AIStrategy) (v : Z) : AIStrategy :=
  {| id := id s; creator := creator s; name := name s;
     description_hash := description_hash s; risk_level := risk_level s;
     time_horizon := time_horizon s; ai_models := ai_models s;
     token_support := token_support s; management_fee_bps := v;
     performance_fee_bps := performance_fee_bps s;
     min_investment := min_investment s; tvl := tvl s;
     subscriber_count := subscriber_count s;
     total_returns_bps := total_returns_bps s; created_at := created_at s;
     updated_at := updated_at s; status := status s; verified := verified s;
     bump := bump s |}.

Definition set_performance_fee_bps (s : AIStrategy) (v : Z) : AIStrategy :=
  {| id := id s; creator := creator s; name := name s;
     description_hash := description_hash s; risk_level := risk_level s;
     time_horizon := time_horizon s; ai_models := ai_models s;
     token_support := token_support s;
     management_fee_bps := management_fee_bps s; performance_fee_bps := v;
     min_investment := min_investment s; tvl := tvl s;
     subscriber_count := subscriber_count s;
     total_returns_bps := total_returns_bps s; created_at := created_at s;
     updated_at := updated_at s; status := status s; verified := verified s;
     bump := bump s |}.

Definition set_min_investment (s : AIStrategy) (v : Z) : AIStrategy :=
  {| id := id s; creator := creator s; name := name s;
     description_hash := description_hash s; risk_level := risk_level s;
     time_horizon := time_horizon s; ai_models := ai_models s;
     token_support := token_support s;
     management_fee_bps := management_fee_bps s;
     performance_fee_bps := performance_fee_bps s; min_investment := v;
     tvl := tvl s; subscriber_count := subscriber_count s;
     total_returns_bps := total_returns_bps s; created_at := created_at s;
     updated_at := updated_at s; status := status s; verified := verified s;
     bump := bump s |}.

Definition set_updated_at (s : AIStrategy) (v : Z) : AIStrategy :=
  {| id := id s; creator := creator s; name := name s;
     description_hash := description_hash s; risk_level := risk_level s;
     time_horizon := time_horizon s; ai_models := ai_models s;
     token_support := token_support s;
     management_fee_bps := management_fee_bps s;
     performance_fee_bps := performance_fee_bps s;
     min_investment := min_investment s; tvl := tvl s;
     subscriber_count := subscriber_count s;
     total_returns_bps := total_returns_bps s; created_at := created_at s;
     updated_at := v; status := status s; verified := verified s;
     bump := bump s |}.

Definition set_status (s : AIStrategy) (v : Z) : AIStrategy :=
  {| id := id s; creator := creator s; name := name s;
     description_hash := description_hash s; risk_level := risk_level s;
     time_horizon := time_horizon s; ai_models := ai_models s;
     token_support := token_support s;
     management_fee_bps := management_fee_bps s;
     performance_fee_bps := performance_fee_bps s;
     min_investment := min_investment s; tvl := tvl s;
     subscriber_count := subscriber_count s;
     total_returns_bps := total_returns_bps s; created_at := created_at s;
     updated_at := updated_at s; status := v; verified := verified s;
     bump := bump s |}.

Definition set_verified (s : AIStrategy) (v : bool) : AIStrategy :=
  {| id := id s; creator := creator s; name := name s;
     description_hash := description_hash s; risk_level := risk_level s;
     time_horizon := time_horizon s; ai_models := ai_models s;
     token_support := token_support s;
     management_fee_bps := management_fee_bps s;
     performance_fee_bps := performance_fee_bps s;
     min_investment := min_investment s; tvl := tvl s;
     subscriber_count := subscriber_count s;
     total_returns_bps := total_returns_bps s; created_at := created_at s;
     updated_at := updated_at s; status := status s; verified := v;
     bump := bump s |}.

(** ** Seeds

    A [Pubkey] is the big-endian number of its 32 bytes; a [String] is
    modelled by the sequence of its UTF-8 bytes, one [ascii] per byte. *)

Fixpoint be_bytes (n : nat) (x : Z) : list Z :=
  match n with
  | O => []
  | S n' => be_bytes n' (x / 256) ++ [x mod 256]
  end.

(** [key.as_ref()] *)
Definition pubkey_bytes (k : Pubkey) : list Z := be_bytes 32 k.

Fixpoint le_bytes (n : nat) (x : Z) : list Z :=
  match n with
  | O => []
  | S n' => x mod 256 :: le_bytes n' (x / 256)
  end.

(** [u64::to_le_bytes] *)
Definition u64_to_le_bytes (x : Z) : list Z := le_bytes 8 x.

(** [String::as_bytes] *)
Definition string_bytes (s : string) : list Z :=
  map (fun c => Z.of_nat (Ascii.nat_of_ascii c)) (list_ascii_of_string s).

(** [[b"strategy", creator.as_ref(), tail]] *)
Definition strategy_seeds (creator_key : Pubkey) (tail : list Z) : list (list Z) :=
  [string_bytes "strategy"; pubkey_bytes creator_key; tail].

(** Bytes of an [AIStrategy] as Anchor writes it back: the 8-byte
    discriminator, then Borsh ([String]: a [u32] List.length and the bytes). *)
Definition strategy_serialized_len (s : AIStrategy) : Z :=
  8 + (4 + Z.of_nat (String.length (id s))) + 32
  + (4 + Z.of_nat (String.length (name s)))
  + (4 + Z.of_nat (String.length (description_hash s)))
  + 1 + 1 + 4 + 1 + 2 + 2 + 8 + 8 + 8 + 4 + 8 + 8 + 1 + 1 + 1.

(** The [space] of [CreateStrategy]'s [init], the size of every strategy
    account. *)
Definition STRATEGY_SPACE : Z :=
  8 + 64 + 32 + 64 + 64 + 1 + 1 + 4 + 1 + 2 + 2 + 8 + 8 + 8 + 4 + 8 + 8
  + 1 + 1 + 1.

(** Writing the strategy back on exit ([AccountDidNotSerialize] if it does
    not fit). *)
Definition exit_strategy (s : AIStrategy) : result unit Error :=
  require (strategy_serialized_len s <=? STRATEGY_SPACE) AccountDidNotSerialize.

(** [valid]: the bounds [create_strategy] and [update_strategy] check. *)
Definition strategy_valid (s : AIStrategy) : bool :=
  (risk_level s <=? 3) && (time_horizon s <=? 2) && (token_support s <=? 3)
  && (management_fee_bps s <=? 500) && (performance_fee_bps s <=? 3000)
  && (status s <=? 2).

(** ** Accounts and instructions *)

(** The [InitializeRegistry] accounts, which [update_protocol_fees] also
    takes: [registry] is [init] at the PDA of [b"strategy-registry"];
    [ir_registry] is its content when the account already exists, [ir_bump]
    the bump Anchor found for it. *)
Record InitializeRegistryCtx := mkInitializeRegistryCtx {
  ir_authority : Pubkey;
  ir_registry : option StrategyRegistry;
  ir_bump : Z
}.

(** The [init] of [registry]: it fails on an existing account; a fresh one
    reads as [default()]. *)
Definition init_registry (ctx : InitializeRegistryCtx)
  : result StrategyRegistry Error :=
  match ir_registry ctx with
  | Some _ => Err AccountAlreadyInUse
  | None => Ok default_registry
  end.

(** [initialize_registry] *)
Definition initialize_registry (ctx : InitializeRegistryCtx)
    (protocol_fee_bps' : Z) (fee_recipient' : Pubkey)
  : result StrategyRegistry Error :=
  let* registry := init_registry ctx in
  let* _ := require (protocol_fee_bps' <=? 1000) InvalidParameter in
  Ok {| reg_authority := ir_authority ctx; strategy_count := 0;
        protocol_fee_bps := protocol_fee_bps'; fee_recipient := fee_recipient';
        reg_bump := ir_bump ctx |}.

(** [update_protocol_fees], on the same [InitializeRegistry] accounts *)
Definition update_protocol_fees (ctx : InitializeRegistryCtx)
    (protocol_fee_bps' : Z) (fee_recipient' : option Pubkey)
  : result StrategyRegistry Error :=
  let* registry := init_registry ctx in
  let* _ := require (ir_authority ctx =? reg_authority registry) Unauthorized in
  let* _ := require (protocol_fee_bps' <=? 1000) InvalidParameter in
  Ok {| reg_authority := reg_authority registry;
        strategy_count := strategy_count registry;
        protocol_fee_bps := protocol_fee_bps';
        fee_recipient := match fee_recipient' with
                         | Some recipient => recipient
                         | None => fee_recipient registry
                         end;
        reg_bump := reg_bump registry |}.

(** The [CreateStrategy] accounts: [registry] is the registry PDA;
    [strategy] is [init] at [cs_strategy_key], [cs_strategy_exists] telling
    whether that account already exists; [cs_now] is the clock. *)
Record CreateStrategyCtx := mkCreateStrategyCtx {
  cs_creator : Pubkey;
  cs_registry : StrategyRegistry;
  cs_strategy_key : Pubkey;
  cs_strategy_exists : bool;
  cs_now : Z
}.

(** The [UpdateStrategy] accounts, which [transfer_strategy_ownership] also
    takes: the signer [creator] and the strategy at [us_strategy_key]. *)
Record UpdateStrategyCtx := mkUpdateStrategyCtx {
  us_creator : Pubkey;
  us_strategy_key : Pubkey;
  us_strategy : AIStrategy;
  us_now : Z
}.

(** The [VerifyStrategy] accounts: [registry] is the registry PDA. *)
Record VerifyStrategyCtx := mkVerifyStrategyCtx {
  vs_authority : Pubkey;
  vs_registry : StrategyRegistry;
  vs_strategy : AIStrategy;
  vs_now : Z
}.

(** [if let Some(v) = arg { require!(ok(v), InvalidParameter); set(v) }] *)
Definition update_field {A} (arg : option A) (ok : A -> bool)
    (set : AIStrategy -> A -> AIStrategy) (s : AIStrategy)
  : result AIStrategy Error :=
  match arg with
  | Some v => let* _ := require (ok v) InvalidParameter in Ok (set s v)
  | None => Ok s
  end.

(** [verify_strategy] *)
Definition verify_strategy (ctx : VerifyStrategyCtx) (verified' : bool)
  : result AIStrategy Error :=
  (* [constraint = authority.key() == registry.authority @ Unauthorized] *)
  let* _ := require (vs_authority ctx =? reg_authority (vs_registry ctx))
                    Unauthorized in
  let strategy := set_verified (vs_strategy ctx) verified' in
  let strategy := set_updated_at strategy (vs_now ctx) in
  let* _ := exit_strategy strategy in
  Ok strategy.

Section Pda.

(** The address [sha256(bytes || program_id || "ProgramDerivedAddress")] of
    this program for the hashed [bytes], [None] when it lies on the ed25519
    curve. *)
Variable pda_hash : list Z -> option Pubkey.

(** [Pubkey::create_program_address(&[seeds.., &[bump]], program_id)]: a seed
    is at most 32 bytes. *)
Definition create_program_address (seeds : list (list Z)) (bump' : Z)
  : option Pubkey :=
  if forallb (fun s => Nat.leb (List.length s) 32) seeds
  then pda_hash (List.concat seeds ++ [bump']) else None.

(** Bumps [n], [n - 1], ..., [1] *)
Fixpoint find_bump (seeds : list (list Z)) (n : nat) : option (Pubkey * Z) :=
  match n with
  | O => None
  | S n' =>
      match create_program_address seeds (Z.of_nat n) with
      | Some k => Some (k, Z.of_nat n)
      | None => find_bump seeds n'
      end
  end.

(** [Pubkey::find_program_address]: the first off-curve bump from 255 down;
    it panics when there is none. *)
Definition find_program_address (seeds : list (list Z))
  : option (Pubkey * Z) :=
  find_bump seeds 255.

(** [create_strategy] *)
Definition create_strategy (ctx : CreateStrategyCtx)
    (id' name' description_hash' : string)
    (risk_level' time_horizon' ai_models' token_support' management_fee_bps'
     performance_fee_bps' min_investment' : Z)
  : result (StrategyRegistry * AIStrategy) Error :=
  let registry := cs_registry ctx in
  (* [init, seeds = [b"strategy", creator.key().as_ref(),
     registry.strategy_count.to_le_bytes().as_ref()], bump] *)
  let* found := unwrap (find_program_address
                          (strategy_seeds (cs_creator ctx)
                             (u64_to_le_bytes (strategy_count registry))))
                       Panic in
  let* _ := require (cs_strategy_key ctx =? fst found) ConstraintSeeds in
  let* _ := require (negb (cs_strategy_exists ctx)) AccountAlreadyInUse in
  (* handler *)
  let* _ := require (risk_level' <=? 3) InvalidParameter in
  let* _ := require (time_horizon' <=? 2) InvalidParameter in
  let* _ := require (token_support' <=? 3) InvalidParameter in
  let* _ := require (management_fee_bps' <=? 500) InvalidParameter in
  let* _ := require (performance_fee_bps' <=? 3000) InvalidParameter in
  let strategy :=
    {| id := id'; creator := cs_creator ctx; name := name';
       description_hash := description_hash'; risk_level := risk_level';
       time_horizon := time_horizon'; ai_models := ai_models';
       token_support := token_support';
       management_fee_bps := management_fee_bps';
       performance_fee_bps := performance_fee_bps';
       min_investment := min_investment'; tvl := 0; subscriber_count := 0;
       total_returns_bps := 0; created_at := cs_now ctx;
       updated_at := cs_now ctx; status := 0; verified := false;
       bump := snd found |} in
  let* count' := unwrap (checked_add_u64 (strategy_count registry) 1) Panic in
  let registry := set_strategy_count registry count' in
  (* exit: [registry] always fits, [strategy] must fit its [space] *)
  let* _ := exit_strategy strategy in
  Ok (registry, strategy).

(** The constraints of the [UpdateStrategy] accounts:
    [seeds = [b"strategy", creator.key().as_ref(), strategy.id.as_bytes()],
    bump = strategy.bump], then
    [constraint = creator.key() == strategy.creator @ Unauthorized]. *)
Definition update_strategy_accounts (ctx : UpdateStrategyCtx)
  : result unit Error :=
  let strategy := us_strategy ctx in
  let* _ := require
              (match create_program_address
                       (strategy_seeds (us_creator ctx) (string_bytes (id strategy)))
                       (bump strategy) with
               | Some k => k =? us_strategy_key ctx
               | None => false
               end) ConstraintSeeds in
  require (us_creator ctx =? creator strategy) Unauthorized.

(** [update_strategy] *)
Definition update_strategy (ctx : UpdateStrategyCtx)
    (name' description_hash' : option string)
    (risk_level' time_horizon' ai_models' token_support' management_fee_bps'
     performance_fee_bps' min_investment' status' : option Z)
  : result AIStrategy Error :=
  let* _ := update_strategy_accounts ctx in
  let strategy := us_strategy ctx in
  let* strategy := update_field risk_level' (fun risk => risk <=? 3)
                                set_risk_level strategy in
  let* strategy := update_field time_horizon' (fun horizon => horizon <=? 2)
                                set_time_horizon strategy in
  let* strategy := update_field ai_models' (fun _ => true)
                                set_ai_models strategy in
  let* strategy := update_field token_support' (fun support => support <=? 3)
                                set_token_support strategy in
  let* strategy := update_field management_fee_bps' (fun fee => fee <=? 500)
                                set_management_fee_bps strategy in
  let* strategy := update_field performance_fee_bps' (fun fee => fee <=? 3000)
                                set_performance_fee_bps strategy in
  let* strategy := update_field min_investment' (fun _ => true)
                                set_min_investment strategy in
  let* strategy := update_field status' (fun new_status => new_status <=? 2)
                                set_status strategy in
  let* strategy := update_field name' (fun _ => true) set_name strategy in
  let* strategy := update_field description_hash' (fun _ => true)
                                set_description_hash strategy in
  let strategy := set_updated_at strategy (us_now ctx) in
  let* _ := exit_strategy strategy in
  Ok strategy.

(** [transfer_strategy_ownership] *)
Definition transfer_strategy_ownership (ctx : UpdateStrategyCtx)
    (new_owner : Pubkey) : result AIStrategy Error :=
  let* _ := update_strategy_accounts ctx in
  let strategy := us_strategy ctx in
  let* _ := require (us_creator ctx =? creator strategy) Unauthorized in
  let strategy := set_creator strategy new_owner in
  let* _ := exit_strategy strategy in
  Ok strategy.

End Pda.

End StrategyAdmin.

(** * Concrete accounts used by the examples below *)

Module Fixtures.
Import StrategyManager.

(** A strategy with a 20% performance fee and 1000 lamports locked. *)
Definition scenario_c_strategy : AIStrategy :=
  {| id := "1"; creator := 11; name := "alpha"; description_hash := "cid";
     risk_level := 1; time_horizon := 0; ai_models := 1; token_support := 0;
     management_fee_bps := 150; performance_fee_bps := 2000;
     min_investment := 500; tvl := 1000; subscriber_count := 1;
     total_returns_bps := 0; created_at := 0; updated_at := 0; status := 0;
     verified := false; bump := 255 |}.

(** A subscription with [current_value = high_water_mark = 1000]. *)
Definition scenario_c_subscription : StrategySubscription :=
  {| strategy := 21; subscriber := 31; investment_amount := 1000;
     current_value := 1000; subscribed_at := 0; last_fee_collection := 0;
     high_water_mark := 1000; sub_bump := 254 |}.

Definition registry_authority : Pubkey := 41.

Definition scenario_c_ctx : UpdateCtx :=
  {| vc_authority := registry_authority;
     vc_registry_authority := registry_authority;
     vc_strategy := scenario_c_strategy;
     vc_subscription := scenario_c_subscription |}.

(** The accounts after [update_strategy_value(new_value = 1200, returns_bps = 0)]. *)
Definition scenario_c_strategy_after : AIStrategy :=
  {| id := "1"; creator := 11; name := "alpha"; description_hash := "cid";
     risk_level := 1; time_horizon := 0; ai_models := 1; token_support := 0;
     management_fee_bps := 150; performance_fee_bps := 2000;
     min_investment := 500; tvl := 1200; subscriber_count := 1;
     total_returns_bps := 0; created_at := 0; updated_at := 0; status := 0;
     verified := false; bump := 255 |}.

Definition scenario_c_subscription_after : StrategySubscription :=
  {| strategy := 21; subscriber := 31; investment_amount := 1000;
     current_value := 1200; subscribed_at := 0; last_fee_collection := 0;
     high_water_mark := 1200; sub_bump := 254 |}.

End Fixtures.

(** ** Concrete accounts for the registry instructions

    [point_hash L addr] stands for a PDA hash of which only the preimage [L]
    is known: it maps [L] to [addr] and has no other address. *)
Module AdminFixtures.
Import StrategyManager StrategyAdmin.

Definition point_hash (L : list Z) (addr : Pubkey) (l : list Z) : option Pubkey :=
  if list_eq_dec Z.eq_dec l L then Some addr else None.

Definition demo_registry : StrategyRegistry := mkStrategyRegistry 5 0 100 9 254.

Definition demo_create_ctx : CreateStrategyCtx :=
  mkCreateStrategyCtx 11 demo_registry 77 false 1000.

(** The strategy PDA of creator 11 and registry index 0 is 77, with bump 255. *)
Definition demo_create_hash : list Z -> option Pubkey :=
  point_hash (List.concat (strategy_seeds 11 (u64_to_le_bytes 0)) ++ [255]) 77.

Definition demo_strategy : AIStrategy :=
  {| id := "7"; creator := 11; name := "n"; description_hash := "d";
     risk_level := 1; time_horizon := 1; ai_models := 0; token_support := 1;
     management_fee_bps := 100; performance_fee_bps := 1000;
     min_investment := 10; tvl := 0; subscriber_count := 0;
     total_returns_bps := 0; created_at := 1000; updated_at := 1000;
     status := 0; verified := false; bump := 255 |}.

(** The PDA of creator 11 and the id of [demo_strategy] is 77, with bump 255. *)
Definition demo_update_hash : list Z -> option Pubkey :=
  point_hash (List.concat (strategy_seeds 11 (string_bytes "7")) ++ [255]) 77.

Definition demo_update_ctx : UpdateStrategyCtx :=
  mkUpdateStrategyCtx 11 77 demo_strategy 2000.

Definition demo_paused_strategy : AIStrategy :=
  set_updated_at (set_status demo_strategy 1) 2000.

Definition demo_subscribe_ctx : SubscribeCtx :=
  mkSubscribeCtx 20 77 demo_paused_strategy false 3 2500 true.

End AdminFixtures.

(** ** Concrete accounts for the trading instructions *)
Module TradingFixtures.
Import AiTrading.

Definition demo_trading_state : TradingState :=
  {| authority := 7; initialized := true; paused := false;
     max_position_size := 1000; risk_level := 5; total_trades := 3;
     successful_trades := 1; total_profit_loss := -20 |}.

Definition demo_execute_ctx (st : TradingState) : ExecuteCtx :=
  {| et_trading_state := st; et_authority := 7; et_trade_record_exists := false;
     et_price := Some {| pi_price := 150; pi_conf := 1; pi_exponent := -2 |};
     et_now := 100; et_transfer_ok := true |}.

(** The record of a sell of 10 at confidence 70 with strategy 2. *)
Definition demo_trade_record : TradeRecord :=
  {| tr_authority := 7; timestamp := 100; amount := 10; side := Sell;
     price := 150; confidence := 70; strategy_id := 2; successful := false;
     profit_loss := 0 |}.

End TradingFixtures.

(** ** Concrete accounts for the native strategy program (program id 9) *)
Module DefiFixtures.
Import DefiStrategy.

Definition demo_defi_strategy : Strategy :=
  {| version := 1; creator := 3; name := repeat 0 32; description := repeat 0 200;
     risk_level := Moderate; protocol_type := Lending; estimated_apy := 3650;
     tags := repeat 0 5; tvl := 0; user_count := 0; lockup_period := 0;
     min_investment := 100; fee_percentage := 0; token_count := 1;
     tokens := repeat default_token_allocation 10; protocol_count := 1;
     protocols := repeat default_protocol_allocation 10; verified := false;
     ai_model_version := 1; reserved := repeat 0 64 |}.

Definition demo_position : UserPosition :=
  {| up_version := 1; owner := 3; up_strategy := 4; initial_investment := 1000;
     current_value := 1000; subscription_time := 0; last_harvest_time := 0;
     performance_fee_rate := 0; up_token_count := 1;
     token_investments := repeat default_token_investment 10;
     up_reserved := repeat 0 64 |}.

(** Signer 3, the strategy account 4, the position account 5 and a fourth
    account 6. *)
Definition demo_accounts : list AccountInfo :=
  [mkAccountInfo 3 true 0 DOther;
   mkAccountInfo 4 false 9 (DStrategy demo_defi_strategy);
   mkAccountInfo 5 false 9 (DPosition demo_position);
   mkAccountInfo 6 false 0 DOther].

Definition demo_token : TokenAllocation :=
  {| ta_mint := 1; ta_symbol := repeat 0 10; ta_allocation := 100 |}.

Definition demo_protocol : ProtocolAllocation :=
  {| pa_name := repeat 0 20; pa_allocation := 100 |}.

Definition demo_investment (amount : Z) : TokenInvestment :=
  {| ti_mint := 1; initial_amount := amount; current_amount := amount |}.

End DefiFixtures.

(** * Error bounds for the [f64] fee arithmetic *)

Module F64Facts.
Import F64.

Lemma digits2_pos_size (p : positive) : digits2_pos p = Pos.size p.
Proof. induction p; simpl; congruence. Qed.

Lemma digits2_bounds (p : positive) :
  2 ^ (Zdigits2 (Zpos p) - 1) <= Zpos p < 2 ^ Zdigits2 (Zpos p).
Proof.
  simpl Zdigits2. rewrite digits2_pos_size.
  pose proof (Pos.size_gt p) as Hgt. pose proof (Pos.size_le p) as Hle.
  apply Pos2Z.pos_lt_pos in Hgt. apply Pos2Z.pos_le_pos in Hle.
  rewrite (Pos2Z.inj_xO p) in Hle.
  rewrite Pos2Z.inj_pow in Hgt, Hle.
  set (s := Zpos (Pos.size p)) in *.
  assert (E : 2 ^ s = 2 * 2 ^ (s - 1)).
  { replace s with ((s - 1) + 1) at 1 by lia.
    rewrite Z.pow_add_r, Z.pow_1_r by lia. ring. }
  lia.
Qed.

Lemma shr_1_m (mrs : shr_record) :
  0 <= shr_m mrs -> shr_m (shr_1 mrs) = shr_m mrs / 2.
Proof.
  destruct mrs as [m r s]; simpl; intros H.
  destruct m as [|p|p]; [reflexivity| |lia].
  destruct p as [p|p|]; simpl.
  - apply Z.div_unique with 1; lia.
  - apply Z.div_unique with 0; lia.
  - reflexivity.
Qed.

Lemma iter_shr_1_m (p : positive) : forall mrs, 0 <= shr_m mrs ->
  0 <= shr_m (SpecFloat.iter_pos shr_1 p mrs) /\
  shr_m (SpecFloat.iter_pos shr_1 p mrs) = shr_m mrs / 2 ^ Zpos p.
Proof.
  induction p as [p IH|p IH|]; intros mrs H; cbn [SpecFloat.iter_pos].
  - pose proof (shr_1_m mrs H) as H1.
    assert (H1' : 0 <= shr_m (shr_1 mrs)) by (rewrite H1; apply Z.div_pos; lia).
    destruct (IH _ H1') as [Ha Hb].
    destruct (IH _ Ha) as [Hc Hd].
    split; [exact Hc|].
    rewrite Hd, Hb, H1, !Z.div_div by (try apply Z.pow_pos_nonneg; lia).
    assert (E : 2 ^ Zpos p~1 = 2 * 2 ^ Zpos p * 2 ^ Zpos p).
    { rewrite Pos2Z.inj_xI.
      replace (2 * Zpos p + 1) with (Zpos p + Zpos p + 1) by lia.
      rewrite !Z.pow_add_r, Z.pow_1_r by lia. ring. }
    rewrite E. f_equal. ring.
  - destruct (IH _ H) as [Ha Hb].
    destruct (IH _ Ha) as [Hc Hd].
    split; [exact Hc|].
    rewrite Hd, Hb, !Z.div_div by (try apply Z.pow_pos_nonneg; lia).
    assert (E : 2 ^ Zpos p~0 = 2 ^ Zpos p * 2 ^ Zpos p).
    { rewrite (Pos2Z.inj_xO p).
      replace (2 * Zpos p) with (Zpos p + Zpos p) by lia.
      rewrite !Z.pow_add_r by lia. reflexivity. }
    rewrite E. reflexivity.
  - rewrite shr_1_m by exact H. split; [apply Z.div_pos; lia | reflexivity].
Qed.

Lemma shr_fexp_exact (m ex : Z) : 0 <= m ->
  let '(mrs, e') := shr_fexp prec emax m ex loc_Exact in
  0 <= shr_m mrs /\ ex <= e' /\ shr_m mrs = m / 2 ^ (e' - ex) /\
  ((e' = ex /\ loc_of_shr_record mrs = loc_Exact) \/
   (ex < e' /\ e' = fexp prec emax (Zdigits2 m + ex))).
Proof.
  intros Hm. unfold shr_fexp, shr.
  destruct (fexp prec emax (Zdigits2 m + ex) - ex) as [|p|p] eqn:E; simpl.
  - rewrite Z.sub_diag, Z.pow_0_r, Z.div_1_r. intuition lia.
  - destruct (iter_shr_1_m p {| shr_m := m; shr_r := false; shr_s := false |} Hm)
      as [H1 H2]; simpl in H2.
    replace (ex + Zpos p - ex) with (Zpos p) by lia.
    intuition lia.
  - rewrite Z.sub_diag, Z.pow_0_r, Z.div_1_r. intuition lia.
Qed.

Lemma round_nearest_even_bounds (m : Z) (l : location) :
  m <= round_nearest_even m l <= m + 1 /\
  (l = loc_Exact -> round_nearest_even m l = m).
Proof.
  destruct l as [|[]]; simpl; try (split; [lia | discriminate]).
  - split; [lia | reflexivity].
  - destruct (Z.even m); split; (lia || discriminate).
Qed.

(** Rounding a positive exact value [mx * 2^ex] gives [m2 * 2^e2] with
    [e2 >= ex], and [m2 * 2^(e2 - ex)] exceeds [mx] by at most one unit in
    the last place of the first shift. *)
Lemma round_aux_shape (mx ex : Z) : 0 <= mx ->
  exists m2 e2, 0 <= m2 /\ ex <= e2 /\
    m2 * 2 ^ (e2 - ex)
      <= mx + (if ex <? fexp prec emax (Zdigits2 mx + ex)
               then 2 ^ (fexp prec emax (Zdigits2 mx + ex) - ex) else 0) /\
    binary_round_aux prec emax false mx ex loc_Exact =
      match m2 with
      | Z0 => S754_zero false
      | Zpos m => if e2 <=? emax - prec then S754_finite false m e2
                  else S754_infinity false
      | Zneg _ => S754_nan
      end.
Proof.
  intros Hmx. unfold binary_round_aux.
  pose proof (shr_fexp_exact mx ex Hmx) as H1.
  destruct (shr_fexp prec emax mx ex loc_Exact) as [mrs e'] eqn:E1.
  destruct H1 as (Hm1 & Hex & Hq & Hcase).
  set (m1 := round_nearest_even (shr_m mrs) (loc_of_shr_record mrs)).
  pose proof (round_nearest_even_bounds (shr_m mrs) (loc_of_shr_record mrs))
    as [Hr Hrx]; fold m1 in Hr, Hrx.
  pose proof (shr_fexp_exact m1 e' ltac:(lia)) as H2.
  destruct (shr_fexp prec emax m1 e' loc_Exact) as [mrs2 e2] eqn:E2.
  destruct H2 as (Hm2 & He2 & Hq2 & _).
  exists (shr_m mrs2), e2.
  split; [exact Hm2|]. split; [lia|]. split; [|reflexivity].
  assert (Hk2 : 0 < 2 ^ (e2 - e')) by (apply Z.pow_pos_nonneg; lia).
  assert (Hstep : shr_m mrs2 * 2 ^ (e2 - ex)
                  <= m1 * 2 ^ (e' - ex)).
  { replace (e2 - ex) with ((e2 - e') + (e' - ex)) by lia.
    rewrite Z.pow_add_r by lia.
    rewrite Z.mul_assoc. apply Z.mul_le_mono_nonneg_r;
      [apply Z.pow_nonneg; lia|].
    rewrite Hq2. rewrite Z.mul_comm. apply Z.mul_div_le. exact Hk2. }
  destruct Hcase as [[He Hloc] | [Hlt HF]].
  - rewrite Hrx in Hstep by exact Hloc.
    subst e'. rewrite Z.sub_diag, Z.pow_0_r, Z.div_1_r in Hq.
    rewrite Z.sub_diag, Z.pow_0_r, Z.mul_1_r, Hq in Hstep.
    destruct (ex <? _); [pose proof (Z.pow_nonneg 2 (fexp prec emax (Zdigits2 mx + ex) - ex)) |]; lia.
  - rewrite <- HF. replace (ex <? e') with true by (symmetry; apply Z.ltb_lt; lia).
    set (K := 2 ^ (e' - ex)) in *.
    assert (HK : 0 < K) by (apply Z.pow_pos_nonneg; lia).
    pose proof (Z.mul_div_le mx K HK) as Hd.
    rewrite Hq in Hr. set (q := mx / K) in *.
    nia.
Qed.

(** The fee ratios [bps / 10000.0] for [bps] in [0..=3000]: each is zero or
    a positive binary64 value of at most 0.31. *)
Definition ratio_ok (r : spec_float) : bool :=
  match r with
  | S754_zero false => true
  | S754_finite false m e => (e <? 0) && (100 * Zpos m <=? 31 * 2 ^ (- e))
  | _ => false
  end.

Lemma ratio_ok_all :
  forallb (fun n => ratio_ok (div (of_int (Z.of_nat n)) (of_int 10000)))
          (seq 0 3001) = true.
Proof. vm_compute. reflexivity. Qed.

Lemma ratio_ok_range (bps : Z) : 0 <= bps <= 3000 ->
  ratio_ok (div (of_int bps) (of_int 10000)) = true.
Proof.
  intros Hb. pose proof ratio_ok_all as A.
  rewrite forallb_forall in A. specialize (A (Z.to_nat bps)).
  rewrite Z2Nat.id in A by lia. apply A. apply in_seq. lia.
Qed.

Lemma iter_xO (p d : positive) :
  Zpos (Pos.iter xO p d) = Zpos p * 2 ^ Zpos d.
Proof.
  induction d as [|d IH] using Pos.peano_ind.
  - simpl. lia.
  - rewrite Pos.iter_succ, (Pos2Z.inj_xO (Pos.iter xO p d)), IH,
      Pos2Z.inj_succ, Z.pow_succ_r by lia. ring.
Qed.

Lemma to_u64_le_max (x : f64) : to_u64 x <= U64_MAX.
Proof.
  destruct x as [[]|[]| |[] m e]; simpl; unfold U64_MAX; lia.
Qed.

(** ** Real-valued error bounds *)

Local Open Scope R_scope.

Definition valR (m e : Z) : R := IZR m * powerRZ 2 e.

(** the relative error of one rounding, [2^-52], and the smallest
    subnormal, [2^emin] *)
Definition eps : R := powerRZ 2 (-52).
Definition eta : R := powerRZ 2 (emin prec emax).

(** [fle r B]: [r] is a non-negative float whose value is at most [B]; an
    infinity is only reached from a value of at least [2^(emax - prec)]. *)
Definition fle (r : spec_float) (B : R) : Prop :=
  match r with
  | S754_zero false => True
  | S754_finite false m e => valR (Zpos m) e <= B
  | S754_infinity false => powerRZ 2 (emax - prec) <= B
  | _ => False
  end.

Lemma powerRZ2_pos (z : Z) : 0 < powerRZ 2 z.
Proof. apply powerRZ_lt. lra. Qed.

Lemma IZR_pow2 (k : Z) : (0 <= k)%Z -> IZR (2 ^ k) = powerRZ 2 k.
Proof.
  intros Hk. rewrite <- (Z2Nat.id k Hk).
  rewrite <- pow_powerRZ, pow_IZR. reflexivity.
Qed.

Lemma valR_shift (m e k : Z) : (0 <= k)%Z ->
  valR (m * 2 ^ k) e = valR m (e + k).
Proof.
  intros Hk. unfold valR.
  rewrite mult_IZR, IZR_pow2 by exact Hk.
  rewrite powerRZ_add by lra. ring.
Qed.

Lemma valR_add (a b e : Z) : valR (a + b) e = valR a e + valR b e.
Proof. unfold valR. rewrite plus_IZR. ring. Qed.

Lemma valR_le (a b e : Z) : (a <= b)%Z -> valR a e <= valR b e.
Proof.
  intros H. unfold valR. apply Rmult_le_compat_r.
  - left. apply powerRZ2_pos.
  - apply IZR_le. exact H.
Qed.

Lemma valR_nonneg (a e : Z) : (0 <= a)%Z -> 0 <= valR a e.
Proof.
  intros H. unfold valR. apply Rmult_le_pos.
  - apply IZR_le. exact H.
  - left. apply powerRZ2_pos.
Qed.

Lemma pow2_neg_small (k : Z) : (10 <= k)%Z -> powerRZ 2 (- k) <= / 1000.
Proof.
  intros Hk. rewrite powerRZ_neg', <- IZR_pow2 by lia.
  apply Rinv_le_contravar; [lra|].
  apply IZR_le.
  assert (2 ^ 10 <= 2 ^ k)%Z by (apply Z.pow_le_mono_r; lia).
  change (2 ^ 10)%Z with 1024%Z in *. lia.
Qed.

Lemma eps_small : eps <= / 1000.
Proof. unfold eps. apply (pow2_neg_small 52). lia. Qed.

Lemma eta_small : eta <= / 1000.
Proof.
  unfold eta. replace (emin prec emax) with (- 1074)%Z by reflexivity.
  apply (pow2_neg_small 1074). lia.
Qed.

Lemma eta_pos : 0 < eta.
Proof. apply powerRZ2_pos. Qed.

Lemma eps_pos : 0 < eps.
Proof. apply powerRZ2_pos. Qed.

(** One rounding of a positive exact value [mx * 2^ex] (the last step of
    [binary_normalize] and [SFmul]) is at most that value times [1 + 2^-52],
    plus the smallest subnormal. *)
Lemma round_aux_fle (mx : positive) (ex : Z) :
  fle (binary_round_aux prec emax false (Zpos mx) ex loc_Exact)
      (valR (Zpos mx) ex * (1 + eps) + eta).
Proof.
  destruct (round_aux_shape (Zpos mx) ex ltac:(lia))
    as (m2 & e2 & Hm2 & He2 & Hb & ->).
  set (F := fexp prec emax (Zdigits2 (Zpos mx) + ex)) in Hb.
  assert (Hextra :
    valR (if (ex <? F)%Z then (2 ^ (F - ex))%Z else 0%Z) ex
      <= valR (Zpos mx) ex * eps + eta).
  { pose proof eta_pos. pose proof eps_pos.
    pose proof (valR_nonneg (Zpos mx) ex ltac:(lia)).
    destruct (Z.ltb_spec ex F) as [Hlt|Hge].
    - rewrite <- (Z.mul_1_l (2 ^ (F - ex))), valR_shift by lia.
      replace (ex + (F - ex))%Z with F by lia.
      unfold valR at 1. rewrite Rmult_1_l.
      unfold F, fexp.
      destruct (Z.max_spec (Zdigits2 (Zpos mx) + ex - prec) (emin prec emax))
        as [[_ HM]|[_ HM]]; rewrite HM.
      + fold eta. nra.
      + pose proof (digits2_bounds mx) as [Hd _].
        set (d := Zdigits2 (Zpos mx)) in *.
        assert (Hd1 : (1 <= d)%Z) by (unfold d; simpl; lia).
        replace (d + ex - prec)%Z with ((d - 1) + ex + (-52))%Z
          by (unfold prec; lia).
        rewrite !powerRZ_add by lra.
        rewrite <- IZR_pow2 by lia.
        apply IZR_le in Hd.
        unfold valR, eps.
        pose proof (powerRZ2_pos ex). pose proof (powerRZ2_pos (-52)).
        assert (IZR (2 ^ (d - 1)) * powerRZ 2 ex * powerRZ 2 (-52)
                <= IZR (Zpos mx) * powerRZ 2 ex * powerRZ 2 (-52)).
        { apply Rmult_le_compat_r; [lra|].
          apply Rmult_le_compat_r; [lra|]. exact Hd. }
        lra.
    - unfold valR at 1. rewrite Rmult_0_l. nra. }
  assert (Hval : valR m2 e2 <= valR (Zpos mx) ex * (1 + eps) + eta).
  { replace (valR m2 e2) with (valR (m2 * 2 ^ (e2 - ex)) ex)
      by (rewrite valR_shift by lia; f_equal; lia).
    apply valR_le with (e := ex) in Hb.
    rewrite valR_add in Hb.
    lra. }
  destruct m2 as [|m|m]; [exact I | | lia].
  destruct (Z.leb_spec e2 (emax - prec)) as [Hle|Hgt]; [exact Hval|].
  cbn [fle]. eapply Rle_trans; [|exact Hval].
  unfold valR.
  replace e2 with ((emax - prec) + (e2 - (emax - prec)))%Z by lia.
  rewrite powerRZ_add by lra. rewrite <- (IZR_pow2 (e2 - (emax - prec))) by lia.
  pose proof (powerRZ2_pos (emax - prec)).
  assert (1 <= IZR (Zpos m)) by (apply IZR_le; lia).
  assert (1 <= IZR (2 ^ (e2 - (emax - prec)))).
  { apply IZR_le. assert (0 < 2 ^ (e2 - (emax - prec)))%Z
      by (apply Z.pow_pos_nonneg; lia). lia. }
  set (Q := IZR (2 ^ (e2 - (emax - prec)))) in *.
  assert (1 <= IZR (Zpos m) * Q) by nra.
  replace (IZR (Zpos m) * (powerRZ 2 (emax - prec) * Q))
    with (powerRZ 2 (emax - prec) * (IZR (Zpos m) * Q)) by ring.
  rewrite <- (Rmult_1_r (powerRZ 2 (emax - prec))) at 1.
  apply Rmult_le_compat_l; lra.
Qed.

Lemma of_int_fle (p : positive) :
  fle (of_int (Zpos p)) (IZR (Zpos p) * (1 + eps) + eta).
Proof.
  unfold of_int, binary_normalize, binary_round, shl_align.
  destruct (fexp prec emax (Zpos (digits2_pos p) + 0) - 0)%Z as [|d|d] eqn:E;
    cbv beta iota.
  - replace (IZR (Zpos p)) with (valR (Zpos p) 0)
      by (unfold valR; simpl; ring).
    apply round_aux_fle.
  - replace (IZR (Zpos p)) with (valR (Zpos p) 0)
      by (unfold valR; simpl; ring).
    apply round_aux_fle.
  - replace (fexp prec emax (Zpos (digits2_pos p) + 0)) with (- Zpos d)%Z
      by lia.
    replace (IZR (Zpos p)) with (valR (Zpos (Pos.iter xO p d)) (- Zpos d)).
    + apply round_aux_fle.
    + rewrite iter_xO, valR_shift by lia.
      replace (- Zpos d + Zpos d)%Z with 0%Z by lia.
      unfold valR; simpl; ring.
Qed.

Lemma mul_fle (mx my : positive) (ex ey : Z) :
  fle (mul (S754_finite false mx ex) (S754_finite false my ey))
      (valR (Zpos mx) ex * valR (Zpos my) ey * (1 + eps) + eta).
Proof.
  unfold mul, SFmul. cbv beta iota. change (xorb false false) with false.
  replace (valR (Zpos mx) ex * valR (Zpos my) ey)
    with (valR (Zpos (mx * my)) (ex + ey)).
  - apply round_aux_fle.
  - unfold valR. rewrite Pos2Z.inj_mul, mult_IZR, powerRZ_add by lra. ring.
Qed.

Lemma IZR_shiftl_le (a e : Z) : (0 <= a)%Z -> IZR (Z.shiftl a e) <= valR a e.
Proof.
  intros Ha. unfold valR.
  destruct (Z.le_ge_cases 0 e) as [He|He].
  - rewrite Z.shiftl_mul_pow2, mult_IZR, IZR_pow2 by lia. lra.
  - replace e with (- (- e))%Z by lia.
    rewrite Z.shiftl_opp_r, Z.shiftr_div_pow2, powerRZ_neg' by lia.
    set (k := (- e)%Z).
    assert (Hk : (0 < 2 ^ k)%Z) by (apply Z.pow_pos_nonneg; unfold k; lia).
    pose proof (Z.mul_div_le a (2 ^ k) Hk) as H.
    apply IZR_le in H. rewrite mult_IZR, IZR_pow2 in H by (unfold k; lia).
    pose proof (powerRZ2_pos k).
    apply Rmult_le_reg_l with (powerRZ 2 k); [lra|].
    replace (powerRZ 2 k * (IZR a * / powerRZ 2 k)) with (IZR a)
      by (field; lra).
    exact H.
Qed.

Lemma to_u64_fle (r : spec_float) (B : R) :
  fle r B -> 0 <= B -> B < powerRZ 2 (emax - prec) -> IZR (to_u64 r) <= B.
Proof.
  intros H H0 H1.
  destruct r as [[]|[]| |[] m e]; cbn [fle to_u64] in *; try contradiction.
  - lra.
  - lra.
  - apply Rle_trans with (IZR (Z.shiftl (Zpos m) e)).
    + apply IZR_le, Z.le_min_r.
    + eapply Rle_trans; [apply IZR_shiftl_le; lia | exact H].
Qed.

Local Close Scope R_scope.

(** The performance fee [(profit as f64 * (bps as f64 / 10000.0)) as u64]
    is below the profit for every fee rate up to 30%. *)
Lemma performance_fee_lt_profit (profit bps : Z) :
  0 < profit -> 0 <= bps <= 3000 ->
  to_u64 (mul (of_int profit) (div (of_int bps) (of_int 10000))) < profit.
Proof.
  intros Hp Hb.
  destruct (Z_lt_le_dec U64_MAX profit) as [Hbig|Hsmall].
  { pose proof (to_u64_le_max (mul (of_int profit) (div (of_int bps) (of_int 10000)))).
    lia. }
  pose proof (ratio_ok_range bps Hb) as Hr.
  destruct (div (of_int bps) (of_int 10000)) as [[]|[]| |[] mr er] eqn:Er;
    cbv beta iota delta [ratio_ok] in Hr; try discriminate.
  - destruct (of_int profit) as [[]|[]| |[] ? ?]; simpl; lia.
  - destruct profit as [|p|p]; try lia.
    apply andb_prop in Hr as [Her Hmr].
    apply Z.ltb_lt in Her. apply Z.leb_le in Hmr.
    pose proof (of_int_fle p) as Hx.
    pose proof eps_small. pose proof eta_small.
    pose proof eps_pos. pose proof eta_pos.
    assert (Hp1 : (1 <= IZR (Zpos p))%R) by (apply IZR_le; lia).
    assert (Hpmax : (IZR (Zpos p) <= IZR U64_MAX)%R) by (apply IZR_le; lia).
    assert (Htop : (2 * IZR U64_MAX < powerRZ 2 (emax - prec))%R).
    { rewrite <- IZR_pow2 by (unfold emax, prec; lia).
      rewrite <- mult_IZR. apply IZR_lt. reflexivity. }
    destruct (of_int (Zpos p)) as [[]|[]| |[] mx ex] eqn:Ex;
      cbn [fle] in Hx; try contradiction.
    + simpl. lia.
    + exfalso. nra.
    + (* the ratio: at most 0.31 *)
      assert (Hvr : (valR (Zpos mr) er <= 31 / 100)%R).
      { unfold valR.
        replace er with (- (- er))%Z by lia. rewrite powerRZ_neg'.
        rewrite <- IZR_pow2 by lia.
        assert (HQ : (0 < 2 ^ (- er))%Z) by (apply Z.pow_pos_nonneg; lia).
        apply IZR_le in Hmr. apply IZR_lt in HQ.
        rewrite !mult_IZR in Hmr.
        apply Rmult_le_reg_r with (IZR (2 ^ (- er))); [lra|].
        rewrite Rmult_assoc, Rinv_l, Rmult_1_r by lra. lra. }
      pose proof (valR_nonneg (Zpos mr) er ltac:(lia)) as Hvr0.
      pose proof (valR_nonneg (Zpos mx) ex ltac:(lia)) as Hvx0.
      set (vx := valR (Zpos mx) ex) in *.
      set (vr := valR (Zpos mr) er) in *.
      pose proof (mul_fle mx mr ex er) as Hm. fold vx vr in Hm.
      assert (Hprod : (vx * vr <= (IZR (Zpos p) * (1 + eps) + eta) * (31 / 100))%R).
      { apply Rmult_le_compat; lra. }
      set (P := IZR (Zpos p)) in *.
      assert (Hpe : (P * eps <= P * / 1000)%R)
        by (apply Rmult_le_compat_l; lra).
      assert (HY : ((P * (1 + eps) + eta) * (31 / 100) <= 32 / 100 * P)%R)
        by lra.
      set (X := (vx * vr)%R) in *.
      assert (HX0 : (0 <= X)%R) by (unfold X; nra).
      assert (HXe : (X * eps <= X * / 1000)%R)
        by (apply Rmult_le_compat_l; lra).
      assert (HB : (X * (1 + eps) + eta < P)%R) by lra.
      assert (HB0 : (0 <= X * (1 + eps) + eta)%R) by nra.
      pose proof (to_u64_fle _ _ Hm HB0 ltac:(lra)) as Hfee.
      apply lt_IZR. fold P. lra.
Qed.

End F64Facts.

(** * Properties of [strategy_manager.rs] *)

Module StrategyManagerFacts.
Import StrategyManager Fixtures.

(** The accounts after a transaction: the instruction's result when it
    succeeds, the pre-state when it fails (the runtime reverts). *)
Definition post_state (ctx : UpdateCtx)
    (r : result (AIStrategy * StrategySubscription) Error)
  : AIStrategy * StrategySubscription :=
  match r with
  | Ok p => p
  | Err _ => (vc_strategy ctx, vc_subscription ctx)
  end.

Lemma to_u64_nonneg (x : F64.f64) : 0 <= F64.to_u64 x.
Proof.
  destruct x as [s|s| |s m e]; simpl; try lia; try (destruct s; unfold U64_MAX; lia).
  destruct s; [lia|].
  apply Z.min_glb; [unfold U64_MAX; lia|].
  apply Z.shiftl_nonneg; lia.
Qed.

Lemma unwrap_or_sub_le (v f : Z) :
  0 <= f -> unwrap_or (checked_sub_u64 v f) v <= v.
Proof.
  intros Hf; unfold unwrap_or, checked_sub_u64.
  destruct (f <=? v); lia.
Qed.

(** C1 (the defect behind it): once [update_strategy_value] has succeeded,
    the subscription's [high_water_mark] is at least its [current_value], so
    a following [collect_performance_fees] charges nothing and changes no
    account. *)
Theorem update_then_performance_fee_is_noop
    (ctx : UpdateCtx) (new_value returns_bps : Z)
    (st : AIStrategy) (sub : StrategySubscription)
    (Hupd : update_strategy_value ctx new_value returns_bps = Ok (st, sub)) :
  collect_performance_fees
    {| vc_authority := vc_authority ctx;
       vc_registry_authority := vc_registry_authority ctx;
       vc_strategy := st; vc_subscription := sub |} = Ok (st, sub).
Proof.
  unfold update_strategy_value, bind, require, unwrap in Hupd.
  destruct (vc_authority ctx =? vc_registry_authority ctx) eqn:Ea; [|discriminate].
  destruct (checked_add_u64 _ new_value) as [t|] eqn:Et; [|discriminate].
  injection Hupd as <- <-.
  unfold collect_performance_fees, bind, require; simpl; rewrite Ea.
  destruct (high_water_mark (vc_subscription ctx) <? new_value) eqn:Eh; simpl.
  - rewrite Z.leb_refl; reflexivity.
  - apply Z.ltb_ge in Eh. apply Z.leb_le in Eh. rewrite Eh. reflexivity.
Qed.

(** C1 at Scenario C: [current_value = high_water_mark = 1000], a 20%
    performance fee, [update_strategy_value(1200)] and then
    [collect_performance_fees]: no fee is taken, and the subscription ends
    with [current_value = high_water_mark = 1200] (not 1160). *)
Lemma scenario_c_witness :
  update_strategy_value scenario_c_ctx 1200 0
    = Ok (scenario_c_strategy_after, scenario_c_subscription_after) /\
  collect_performance_fees
    {| vc_authority := registry_authority;
       vc_registry_authority := registry_authority;
       vc_strategy := scenario_c_strategy_after;
       vc_subscription := scenario_c_subscription_after |}
    = Ok (scenario_c_strategy_after, scenario_c_subscription_after) /\
  current_value scenario_c_subscription_after = 1200 /\
  high_water_mark scenario_c_subscription_after = 1200.
Proof.
  assert (H : update_strategy_value scenario_c_ctx 1200 0
              = Ok (scenario_c_strategy_after, scenario_c_subscription_after))
    by (vm_compute; reflexivity).
  split; [exact H|].
  split; [exact (update_then_performance_fee_is_noop scenario_c_ctx 1200 0 _ _ H)|].
  split; reflexivity.
Defined.

(** C6: neither fee sweep ever increases [current_value]; the management
    sweep changes nothing when less than 86400 s passed since
    [last_fee_collection], the performance sweep changes nothing when
    [current_value <= high_water_mark]. *)
Theorem fee_sweeps_monotone_and_gated (ctx : UpdateCtx) (now : Z) :
  current_value (snd (post_state ctx (collect_management_fees ctx now)))
    <= current_value (vc_subscription ctx) /\
  current_value (snd (post_state ctx (collect_performance_fees ctx)))
    <= current_value (vc_subscription ctx) /\
  (now - last_fee_collection (vc_subscription ctx) < 86400 ->
   post_state ctx (collect_management_fees ctx now)
     = (vc_strategy ctx, vc_subscription ctx)) /\
  (current_value (vc_subscription ctx) <= high_water_mark (vc_subscription ctx) ->
   post_state ctx (collect_performance_fees ctx)
     = (vc_strategy ctx, vc_subscription ctx)).
Proof.
  unfold collect_management_fees, collect_performance_fees, bind, require, unwrap.
  destruct (vc_authority ctx =? vc_registry_authority ctx); simpl;
    [|repeat split; intros; try reflexivity; lia].
  destruct (checked_sub_i64 now (last_fee_collection (vc_subscription ctx)))
    as [el|] eqn:Eel; simpl.
  2:{ split; [lia|]. split.
      - destruct (current_value _ <=? high_water_mark _); simpl; [lia|].
        apply unwrap_or_sub_le, to_u64_nonneg.
      - split; [reflexivity|]. intros H; apply Z.leb_le in H; rewrite H; reflexivity. }
  unfold checked_sub_i64 in Eel.
  destruct (in_i64 (now - last_fee_collection (vc_subscription ctx))); [|discriminate].
  injection Eel as <-.
  split; [|split; [|split]].
  - destruct (now - _ <? 86400); simpl; [lia|].
    apply unwrap_or_sub_le, to_u64_nonneg.
  - destruct (current_value _ <=? high_water_mark _); simpl; [lia|].
    apply unwrap_or_sub_le, to_u64_nonneg.
  - intros H; apply Z.ltb_lt in H; rewrite H; reflexivity.
  - intros H; apply Z.leb_le in H; rewrite H; reflexivity.
Qed.

(** C10: neither fee sweep writes any field of the strategy, so its [tvl]
    stays as it was while the subscription's [current_value] drops: after a
    sweep the strategy's [tvl] can exceed the sum of the live subscriptions'
    [current_value] (here one subscription of 1000 that pays 15 of
    management fee after a year). *)
Theorem fee_sweeps_leave_strategy_untouched :
  (forall ctx now,
     fst (post_state ctx (collect_management_fees ctx now)) = vc_strategy ctx) /\
  (forall ctx,
     fst (post_state ctx (collect_performance_fees ctx)) = vc_strategy ctx) /\
  (exists ctx now,
     tvl (vc_strategy ctx) = current_value (vc_subscription ctx) /\
     current_value (snd (post_state ctx (collect_management_fees ctx now)))
       < tvl (fst (post_state ctx (collect_management_fees ctx now)))).
Proof.
  split; [|split].
  - intros ctx now.
    unfold collect_management_fees, bind, require, unwrap.
    destruct (vc_authority ctx =? vc_registry_authority ctx); simpl; [|reflexivity].
    destruct (checked_sub_i64 _ _) as [el|]; simpl; [|reflexivity].
    destruct (el <? 86400); reflexivity.
  - intros ctx.
    unfold collect_performance_fees, bind, require.
    destruct (vc_authority ctx =? vc_registry_authority ctx); simpl; [|reflexivity].
    destruct (current_value _ <=? high_water_mark _); reflexivity.
  - exists scenario_c_ctx, (365 * 86400).
    split; [reflexivity|].
    vm_compute; reflexivity.
Qed.

(** C5: on a fresh subscription account, [subscribe_to_strategy] succeeds
    only on an Active strategy ([status = 0]) with
    [investment_amount >= min_investment]; it then creates the subscription
    with [current_value = investment_amount = high_water_mark = amount] and
    both timestamps [now], adds [amount] to [tvl] and 1 to
    [subscriber_count] (overflow-checked: an overflow panics), and changes no
    other field.  A non-Active strategy fails with [StrategyNotActive] (the
    account constraint is checked before the handler), an Active one with
    an amount below the minimum fails with [BelowMinimumInvestment]; a failed
    instruction leaves every account as it was. *)
Theorem subscribe_to_strategy_spec (ctx : SubscribeCtx) (amount : Z)
    (Hfresh : sc_subscription_exists ctx = false) :
  let s := sc_strategy ctx in
  (forall st sub, subscribe_to_strategy ctx amount = Ok (st, sub) ->
     status s = 0 /\ min_investment s <= amount /\
     tvl s + amount <= U64_MAX /\ subscriber_count s + 1 <= U64_MAX /\
     st = set_subscriber_count (set_tvl s (tvl s + amount))
                               (subscriber_count s + 1) /\
     sub = {| strategy := sc_strategy_key ctx; subscriber := sc_subscriber ctx;
              investment_amount := amount; current_value := amount;
              subscribed_at := sc_now ctx; last_fee_collection := sc_now ctx;
              high_water_mark := amount;
              sub_bump := sc_subscription_bump ctx |}) /\
  (status s <> 0 -> subscribe_to_strategy ctx amount = Err StrategyNotActive) /\
  (status s = 0 -> amount < min_investment s ->
   subscribe_to_strategy ctx amount = Err BelowMinimumInvestment) /\
  (status s = 0 -> min_investment s <= amount ->
   U64_MAX < tvl s + amount \/ U64_MAX < subscriber_count s + 1 ->
   subscribe_to_strategy ctx amount = Err Panic) /\
  (status s = 0 -> min_investment s <= amount ->
   tvl s + amount <= U64_MAX -> subscriber_count s + 1 <= U64_MAX ->
   sc_transfer_ok ctx = true ->
   exists st sub, subscribe_to_strategy ctx amount = Ok (st, sub)).
Proof.
  intros s; subst s.
  unfold subscribe_to_strategy, bind, require, unwrap, checked_add_u64.
  rewrite Hfresh; simpl.
  split; [|split; [|split; [|split]]].
  - intros st sub H.
    destruct (status (sc_strategy ctx) =? 0) eqn:E1; [|discriminate].
    destruct (min_investment (sc_strategy ctx) <=? amount) eqn:E2; [|discriminate].
    destruct (tvl (sc_strategy ctx) + amount <=? U64_MAX) eqn:E3; [|discriminate].
    simpl in H.
    destruct (subscriber_count (sc_strategy ctx) + 1 <=? U64_MAX) eqn:E4;
      [|discriminate].
    destruct (sc_transfer_ok ctx); [|discriminate].
    injection H as <- <-.
    apply Z.eqb_eq in E1; apply Z.leb_le in E2, E3, E4.
    repeat split; auto.
  - intros H; apply Z.eqb_neq in H; rewrite H; reflexivity.
  - intros H1 H2; apply Z.eqb_eq in H1; rewrite H1.
    apply Z.leb_gt in H2; rewrite H2; reflexivity.
  - intros H1 H2 H3; apply Z.eqb_eq in H1; apply Z.leb_le in H2.
    rewrite H1, H2.
    destruct (tvl (sc_strategy ctx) + amount <=? U64_MAX) eqn:E3; [|reflexivity].
    simpl. apply Z.leb_le in E3.
    destruct (subscriber_count (sc_strategy ctx) + 1 <=? U64_MAX) eqn:E4;
      [apply Z.leb_le in E4; lia | reflexivity].
  - intros H1 H2 H3 H4 H5; apply Z.eqb_eq in H1; apply Z.leb_le in H2, H3, H4.
    rewrite H1, H2, H3; simpl; rewrite H4, H5.
    eexists; eexists; reflexivity.
Qed.

(** C5 at Scenario B: 100 units on an Active strategy whose
    [min_investment] is 500 fail with [BelowMinimumInvestment]. *)
Lemma subscribe_below_minimum_witness :
  let ctx := {| sc_subscriber := 31; sc_strategy_key := 21;
                sc_strategy := scenario_c_strategy;
                sc_subscription_exists := false; sc_subscription_bump := 254;
                sc_now := 0; sc_transfer_ok := true |} in
  subscribe_to_strategy ctx 100 = Err BelowMinimumInvestment.
Proof.
  intros ctx.
  destruct (subscribe_to_strategy_spec ctx 100 eq_refl) as (_ & _ & H & _).
  apply H; vm_compute; [reflexivity | reflexivity].
Defined.

(** ** [tvl] over subscribe / unsubscribe *)

Lemma lookup_none_not_in (k : Pubkey) (l : list (Pubkey * StrategySubscription)) :
  lookup k l = None -> ~ In k (map fst l).
Proof.
  induction l as [|[k' s] l IH]; simpl; [tauto|].
  destruct (k =? k') eqn:E; [discriminate|].
  apply Z.eqb_neq in E. intros Hl [->|Hin]; [congruence|]. exact (IH Hl Hin).
Qed.

Lemma remove_not_in (k : Pubkey) (l : list (Pubkey * StrategySubscription)) :
  ~ In k (map fst l) -> remove k l = l.
Proof.
  induction l as [|[k' s] l IH]; simpl; [reflexivity|].
  intros Hn. destruct (k =? k') eqn:E.
  - apply Z.eqb_eq in E; subst; tauto.
  - simpl. f_equal. apply IH. tauto.
Qed.

Lemma lookup_remove (k : Pubkey) (l : list (Pubkey * StrategySubscription)) :
  lookup k (remove k l) = None.
Proof.
  induction l as [|[k' s] l IH]; simpl; [reflexivity|].
  change (remove k ((k', s) :: l))
    with (if negb (k =? k') then (k', s) :: remove k l else remove k l).
  destruct (k =? k') eqn:E; simpl; [exact IH|].
  rewrite E. exact IH.
Qed.

Lemma sum_remove (k : Pubkey) (s : StrategySubscription)
    (l : list (Pubkey * StrategySubscription)) :
  NoDup (map fst l) -> lookup k l = Some s ->
  sum_current_value (remove k l) = sum_current_value l - current_value s.
Proof.
  induction l as [|[k' s'] l IH]; simpl; [discriminate|].
  intros Hnd Hl. inversion Hnd as [|? ? Hnin Hnd']; subst.
  change (remove k ((k', s') :: l))
    with (if negb (k =? k') then (k', s') :: remove k l else remove k l).
  destruct (k =? k') eqn:E; simpl.
  - injection Hl as <-. apply Z.eqb_eq in E; subst.
    rewrite (remove_not_in k' l Hnin). unfold sum_current_value; simpl; lia.
  - rewrite (IH Hnd' Hl). unfold sum_current_value; simpl; lia.
Qed.

Lemma filter_NoDup_keys (f : Pubkey * StrategySubscription -> bool)
    (l : list (Pubkey * StrategySubscription)) :
  NoDup (map fst l) -> NoDup (map fst (filter f l)).
Proof.
  induction l as [|[k' s] l IH]; simpl; [auto|].
  intros Hnd; inversion Hnd as [|? ? Hnin Hnd']; subst.
  destruct (f (k', s)); simpl; [|exact (IH Hnd')].
  constructor; [|exact (IH Hnd')].
  intros Hin. apply Hnin.
  apply in_map_iff in Hin. destruct Hin as [[x y] [Hx Hin]]. simpl in Hx; subst x.
  apply filter_In in Hin. destruct Hin as [Hin _].
  apply in_map_iff. exists (k', y); auto.
Qed.

Lemma remove_NoDup (k : Pubkey) (l : list (Pubkey * StrategySubscription)) :
  NoDup (map fst l) -> NoDup (map fst (remove k l)).
Proof. apply filter_NoDup_keys. Qed.

Lemma remove_Forall (P : Pubkey * StrategySubscription -> Prop) (k : Pubkey)
    (l : list (Pubkey * StrategySubscription)) :
  Forall P l -> Forall P (remove k l).
Proof.
  intros H. apply Forall_forall. intros x Hx.
  apply filter_In in Hx as [Hx _]. exact (proj1 (Forall_forall P l) H x Hx).
Qed.

Lemma lookup_In (k : Pubkey) (s : StrategySubscription)
    (l : list (Pubkey * StrategySubscription)) :
  lookup k l = Some s -> In (k, s) l.
Proof.
  induction l as [|[k' s'] l IH]; simpl; [discriminate|].
  destruct (k =? k') eqn:E; [|auto].
  intros H; injection H as <-. apply Z.eqb_eq in E; subst; auto.
Qed.

Lemma sum_nonneg (l : list (Pubkey * StrategySubscription)) :
  Forall (fun p => 0 <= current_value (snd p)) l -> 0 <= sum_current_value l.
Proof.
  induction 1; unfold sum_current_value in *; simpl; lia.
Qed.

(** C2 (code bug): the strategy's [tvl] does not follow the live
    subscriptions. When a live subscription is withdrawn by its subscriber
    and the withdrawal succeeds, [step] closes the subscription but leaves
    the strategy account unchanged, because [UnsubscribeFromStrategy] does
    not mark [strategy] as [mut]. So if [tvl] equalled the sum of the live
    [current_value]s before, it exceeds that sum by the withdrawn
    [current_value] after. *)
Theorem unsubscribe_breaks_tvl_conservation (L : Ledger) (who : Pubkey)
    (s : StrategySubscription)
    (Hnd : NoDup (map fst (l_subscriptions L)))
    (Hl : lookup who (l_subscriptions L) = Some s)
    (Hsub : subscriber s = who)
    (Htvl : tvl (l_strategy L) = sum_current_value (l_subscriptions L)) :
  let L' := step L (OpUnsubscribe who true) in
  l_strategy L' = l_strategy L /\
  lookup who (l_subscriptions L') = None /\
  tvl (l_strategy L') = sum_current_value (l_subscriptions L') + current_value s.
Proof.
  assert (Hstep : step L (OpUnsubscribe who true)
                  = {| l_strategy_key := l_strategy_key L; l_strategy := l_strategy L;
                       l_subscriptions := remove who (l_subscriptions L) |}).
  { unfold step, unsubscribe_from_strategy, bind, require, unwrap.
    rewrite Hl; cbv beta iota zeta delta [uc_subscription uc_subscriber uc_transfer_ok uc_strategy]. rewrite Hsub, Z.eqb_refl. reflexivity. }
  cbv zeta. rewrite Hstep; simpl.
  split; [reflexivity|]. split; [apply lookup_remove|].
  rewrite (sum_remove who s _ Hnd Hl). lia.
Qed.

(** C2 from a strategy's creation state: subscriber 31 subscribes 1000,
    then withdraws; no subscription is left but [tvl] stays 1000. *)
Lemma unsubscribe_breaks_tvl_conservation_witness :
  let L := run (mkLedger 21 (set_tvl scenario_c_strategy 0) [])
             [OpSubscribe 31 1000 0 254 true] in
  l_subscriptions (step L (OpUnsubscribe 31 true)) = [] /\
  tvl (l_strategy (step L (OpUnsubscribe 31 true))) = 1000.
Proof.
  intros L.
  destruct (lookup 31 (l_subscriptions L)) as [s|] eqn:Hl;
    [|vm_compute in Hl; discriminate].
  assert (Hs := Hl). vm_compute in Hs. injection Hs as Hs. subst s.
  pose proof (unsubscribe_breaks_tvl_conservation L 31 _
                ltac:(vm_compute; repeat constructor; simpl; tauto)
                Hl ltac:(vm_compute; reflexivity) ltac:(vm_compute; reflexivity))
    as H.
  cbv zeta in H. destruct H as (_ & _ & H).
  split; [vm_compute; reflexivity|].
  rewrite H. vm_compute. reflexivity.
Defined.

(** ** The management fee *)

Definition fee_strategy (bps : Z) : AIStrategy :=
  {| id := "2"; creator := 11; name := "beta"; description_hash := "cid";
     risk_level := 0; time_horizon := 2; ai_models := 1; token_support := 0;
     management_fee_bps := bps; performance_fee_bps := 2000;
     min_investment := 0; tvl := 0; subscriber_count := 0;
     total_returns_bps := 0; created_at := 0; updated_at := 0; status := 0;
     verified := false; bump := 255 |}.

Definition fee_subscription (v : Z) : StrategySubscription :=
  {| strategy := 22; subscriber := 32; investment_amount := v;
     current_value := v; subscribed_at := 0; last_fee_collection := 0;
     high_water_mark := v; sub_bump := 254 |}.

Definition fee_ctx (bps v : Z) : UpdateCtx :=
  {| vc_authority := registry_authority;
     vc_registry_authority := registry_authority;
     vc_strategy := fee_strategy bps; vc_subscription := fee_subscription v |}.

(** C3 (as the claim states it, refuted), at [last_fee_collection = 0]:
    - 500 bps over 21 years on 1000: the exact fee is 1050, so the claim's
      [current_value - min(fee, current_value)] is 0, but the code's
      [checked_sub(fee).unwrap_or(current_value)] leaves 1000;
    - 180 bps over one year on 1500: the exact floor is 27 (giving 1473),
      but the [f64] product truncates to 26 and the code leaves 1474. *)
Lemma management_fee_counterexample :
  (1000 * 500 * (21 * 31536000)) / (10000 * (365 * 86400)) = 1050 /\
  current_value (snd (post_state (fee_ctx 500 1000)
     (collect_management_fees (fee_ctx 500 1000) (21 * 31536000)))) = 1000 /\
  1000 <> 1000 - Z.min 1050 1000 /\
  (1500 * 180 * 31536000) / (10000 * (365 * 86400)) = 27 /\
  current_value (snd (post_state (fee_ctx 180 1500)
     (collect_management_fees (fee_ctx 180 1500) 31536000))) = 1474 /\
  1474 <> 1500 - Z.min 27 1500.
Proof.
  split; [reflexivity|]. split; [vm_compute; reflexivity|].
  split; [discriminate|]. split; [reflexivity|].
  split; [vm_compute; reflexivity|]. discriminate.
Qed.

(** C3 (amended): for the registry authority, with [now - last_fee_collection]
    within [i64], [collect_management_fees] changes nothing when less than
    86400 s have passed; otherwise the fee is the [f64] product
    [current_value * (management_fee_bps / 10000.0) * (elapsed / (365.0 * 86400.0))]
    truncated to [u64]; [current_value] drops by the fee when
    [fee <= current_value] and is left as it was otherwise (never negative),
    [last_fee_collection] becomes [now], and nothing else changes. *)
Theorem collect_management_fees_spec (ctx : UpdateCtx) (now : Z)
    (Hauth : vc_authority ctx = vc_registry_authority ctx)
    (Hrange : in_i64 (now - last_fee_collection (vc_subscription ctx)) = true)
    (Hcv : 0 <= current_value (vc_subscription ctx)) :
  let sub := vc_subscription ctx in
  let elapsed := now - last_fee_collection sub in
  let v := current_value sub in
  (elapsed < 86400 ->
   collect_management_fees ctx now = Ok (vc_strategy ctx, sub)) /\
  (86400 <= elapsed ->
   let fee := F64.to_u64
        (F64.mul (F64.mul (F64.of_int v)
                          (F64.div (F64.of_int (management_fee_bps (vc_strategy ctx)))
                                   (F64.of_int 10000)))
                 (F64.div (F64.of_int elapsed)
                          (F64.mul (F64.of_int 365) (F64.of_int 86400)))) in
   let v' := if fee <=? v then v - fee else v in
   collect_management_fees ctx now
     = Ok (vc_strategy ctx,
           set_last_fee_collection (set_current_value sub v') now) /\
   0 <= v' <= v).
Proof.
  intros sub elapsed v. cbv zeta. subst v. fold sub in Hcv.
  assert (Hel : checked_sub_i64 now (last_fee_collection sub) = Some elapsed).
  { unfold checked_sub_i64. subst sub elapsed. rewrite Hrange. reflexivity. }
  unfold collect_management_fees, bind, require, unwrap.
  rewrite Hauth, Z.eqb_refl. fold sub. rewrite Hel.
  split.
  - intros H. apply Z.ltb_lt in H. rewrite H. reflexivity.
  - intros H. apply Z.ltb_ge in H. rewrite H.
    match goal with |- context [F64.to_u64 ?x] => pose proof (to_u64_nonneg x);
      set (fee := F64.to_u64 x) in * end.
    split.
    + unfold unwrap_or, checked_sub_u64.
      destruct (fee <=? current_value sub); reflexivity.
    + destruct (fee <=? current_value sub) eqn:E; [apply Z.leb_le in E|]; lia.
Qed.

(** C3 on one year at 180 bps on 1500: the fee is 26. *)
Lemma collect_management_fees_witness :
  collect_management_fees (fee_ctx 180 1500) 31536000
    = Ok (fee_strategy 180,
          set_last_fee_collection (set_current_value (fee_subscription 1500) 1474)
                                  31536000).
Proof.
  destruct (collect_management_fees_spec (fee_ctx 180 1500) 31536000
              eq_refl eq_refl ltac:(vm_compute; discriminate)) as [_ H].
  rewrite (proj1 (H ltac:(vm_compute; discriminate))).
  vm_compute. reflexivity.
Defined.

(** A subscription in profit: [current_value = 1200] above
    [high_water_mark = 1000], on the 20% performance-fee strategy. *)
Definition profit_subscription : StrategySubscription :=
  {| strategy := 21; subscriber := 31; investment_amount := 1000;
     current_value := 1200; subscribed_at := 0; last_fee_collection := 0;
     high_water_mark := 1000; sub_bump := 254 |}.

Definition profit_ctx : UpdateCtx :=
  {| vc_authority := registry_authority;
     vc_registry_authority := registry_authority;
     vc_strategy := scenario_c_strategy;
     vc_subscription := profit_subscription |}.

(** C7: when [performance_fee_bps <= 3000], neither [update_strategy_value]
    nor [collect_performance_fees] lowers the subscription's
    [high_water_mark], whatever the arguments and whether the call succeeds
    or fails. The performance fee computed in [f64] stays below the profit,
    so the new mark [current_value - fee] is above the old one. *)
Theorem high_water_mark_never_decreases
    (ctx : UpdateCtx) (new_value returns_bps : Z)
    (Hcap : 0 <= performance_fee_bps (vc_strategy ctx) <= 3000) :
  high_water_mark (vc_subscription ctx)
    <= high_water_mark
         (snd (post_state ctx (update_strategy_value ctx new_value returns_bps))) /\
  high_water_mark (vc_subscription ctx)
    <= high_water_mark (snd (post_state ctx (collect_performance_fees ctx))).
Proof.
  split.
  - unfold update_strategy_value, bind, require, unwrap.
    destruct (vc_authority ctx =? vc_registry_authority ctx); [|simpl; lia].
    destruct (checked_add_u64 _ new_value); [|simpl; lia].
    simpl.
    destruct (high_water_mark (vc_subscription ctx) <? new_value) eqn:E;
      simpl; [apply Z.ltb_lt in E; lia | lia].
  - set (cv := current_value (vc_subscription ctx)).
    set (hwm := high_water_mark (vc_subscription ctx)).
    set (bps := performance_fee_bps (vc_strategy ctx)) in Hcap.
    unfold collect_performance_fees, bind, require.
    fold cv hwm bps.
    destruct (vc_authority ctx =? vc_registry_authority ctx); [|simpl; lia].
    destruct (cv <=? hwm) eqn:E; [simpl; lia|].
    apply Z.leb_gt in E.
    pose proof (F64Facts.performance_fee_lt_profit (cv - hwm) bps
                  ltac:(lia) Hcap) as Hfee.
    set (fee := F64.to_u64 (F64.mul (F64.of_int (cv - hwm))
                  (F64.div (F64.of_int bps) (F64.of_int 10000)))) in *.
    cbn [post_state snd high_water_mark set_high_water_mark
         current_value set_current_value].
    unfold unwrap_or, checked_sub_u64.
    destruct (fee <=? cv) eqn:E2; [apply Z.leb_le in E2; lia | lia].
Qed.

(** C7 on a subscription in profit (1200 over a mark of 1000, 20% fee):
    the sweep takes 40 and moves the mark up to 1160. *)
Lemma high_water_mark_witness :
  (0 <= performance_fee_bps (vc_strategy profit_ctx) <= 3000 /\
   high_water_mark (vc_subscription profit_ctx)
     <= high_water_mark (snd (post_state profit_ctx (collect_performance_fees profit_ctx)))) /\
  high_water_mark (snd (post_state profit_ctx (collect_performance_fees profit_ctx))) = 1160.
Proof.
  assert (Hcap : 0 <= performance_fee_bps (vc_strategy profit_ctx) <= 3000)
    by (simpl; lia).
  split; [split; [exact Hcap | exact (proj2 (high_water_mark_never_decreases profit_ctx 0 0 Hcap))] |].
  vm_compute. reflexivity.
Defined.

End StrategyManagerFacts.

(** * Properties of [ai_trading.rs] *)

Module AiTradingFacts.
Import AiTrading.

(** A trading state with risk level 2 (so [min_confidence = 80]). *)
Definition low_risk_state (is_paused : bool) : TradingState :=
  {| authority := 7; initialized := true; paused := is_paused;
     max_position_size := 1000; risk_level := 2; total_trades := 0;
     successful_trades := 0; total_profit_loss := 0 |}.

Definition trade_ctx (is_paused : bool) : ExecuteCtx :=
  {| et_trading_state := low_risk_state is_paused; et_authority := 7;
     et_trade_record_exists := false;
     et_price := Some {| pi_price := 150; pi_conf := 1; pi_exponent := -2 |};
     et_now := 100; et_transfer_ok := true |}.

(** C4: the threshold is 80 for risk levels 1..=3, 65 for
    4..=7 and 50 for every other level (0, and 8 and above); on a fresh
    trade-record account, when trading is not paused, the caller is the
    recorded authority and the price feed returned a fresh price,
    [execute_trade] fails with [InsufficientConfidence] exactly when the
    supplied confidence is below the threshold. *)
Theorem execute_trade_confidence_gate (ctx : ExecuteCtx) (amount' : Z)
    (side' : TradeSide) (confidence' strategy_id' : Z)
    (Hfresh : et_trade_record_exists ctx = false)
    (Hrun : paused (et_trading_state ctx) = false)
    (Hauth : et_authority ctx = authority (et_trading_state ctx))
    (Hprice : et_price ctx <> None) :
  (forall r, 1 <= r <= 3 -> min_confidence r = 80) /\
  (forall r, 4 <= r <= 7 -> min_confidence r = 65) /\
  (forall r, r = 0 \/ 8 <= r -> min_confidence r = 50) /\
  (execute_trade ctx amount' side' confidence' strategy_id' = Err InsufficientConfidence
   <-> confidence' < min_confidence (risk_level (et_trading_state ctx))).
Proof.
  split; [|split; [|split]].
  - intros r Hr; unfold min_confidence.
    replace ((1 <=? r) && (r <=? 3)) with true; [reflexivity|].
    symmetry; apply andb_true_iff; split; apply Z.leb_le; lia.
  - intros r Hr; unfold min_confidence.
    replace ((1 <=? r) && (r <=? 3)) with false.
    2:{ symmetry; apply andb_false_iff; right; apply Z.leb_gt; lia. }
    replace ((4 <=? r) && (r <=? 7)) with true; [reflexivity|].
    symmetry; apply andb_true_iff; split; apply Z.leb_le; lia.
  - intros r Hr; unfold min_confidence.
    replace ((1 <=? r) && (r <=? 3)) with false.
    2:{ symmetry; apply andb_false_iff; destruct Hr as [->|Hr];
        [left; reflexivity | right; apply Z.leb_gt; lia]. }
    replace ((4 <=? r) && (r <=? 7)) with false; [reflexivity|].
    symmetry; apply andb_false_iff; destruct Hr as [->|Hr];
      [left; reflexivity | right; apply Z.leb_gt; lia].
  - unfold execute_trade, bind, require, unwrap.
    rewrite Hfresh, Hrun, Hauth, Z.eqb_refl; simpl.
    destruct (et_price ctx) as [p|]; [|congruence].
    destruct (min_confidence (risk_level (et_trading_state ctx)) <=? confidence')
      eqn:E.
    + apply Z.leb_le in E. split; [|lia]. intros H.
      destruct (amount' <=? max_position_size (et_trading_state ctx));
        [|discriminate].
      unfold checked_add_u64', unwrap in H; simpl in H.
      destruct (checked_add_u64 (total_trades (et_trading_state ctx)) 1);
        [|discriminate].
      simpl in H. destruct (et_transfer_ok ctx); discriminate.
    + apply Z.leb_gt in E. split; [lia|reflexivity].
Qed.

(** C4 at Scenario E: risk level 2, confidence 70 on a running trading
    state: rejected with [InsufficientConfidence]. *)
Lemma scenario_e_witness :
  execute_trade (trade_ctx false) 10 Buy 70 0 = Err InsufficientConfidence.
Proof.
  apply (execute_trade_confidence_gate (trade_ctx false) 10 Buy 70 0
           eq_refl eq_refl eq_refl ltac:(discriminate)).
  vm_compute; reflexivity.
Defined.

(** A trade record (account key 55) that executed a buy. *)
Definition executed_record : TradeRecord :=
  {| tr_authority := 7; timestamp := 100; amount := 10; side := Buy;
     price := 150; confidence := 90; strategy_id := 0; successful := false;
     profit_loss := 0 |}.

Definition outcome_ctx (st : TradingState) (rec : TradeRecord) : OutcomeCtx :=
  {| uo_trading_state := st; uo_trade_record := rec;
     uo_trade_record_key := 55; uo_authority := 7 |}.

(** C8 (as the claim states it, refuted): reconciling the same successful
    outcome (profit 25) of trade record 55 twice counts it twice: one call
    leaves [successful_trades = 1] and [total_profit_loss = 25], two calls
    leave 2 and 50. *)
Lemma trade_outcome_not_idempotent :
  match update_trade_outcome (outcome_ctx (low_risk_state false) executed_record)
          55 true 25 with
  | Ok (st1, rec1) =>
      successful_trades st1 = 1 /\ total_profit_loss st1 = 25 /\
      match update_trade_outcome (outcome_ctx st1 rec1) 55 true 25 with
      | Ok (st2, rec2) =>
          rec2 = rec1 /\ successful_trades st2 = 2 /\ total_profit_loss st2 = 50
      | Err _ => False
      end
  | Err _ => False
  end.
Proof. vm_compute. repeat split. Qed.

(** C8 (amended): a call from the recorded authority whose [trade_id] is
    not the trade record's key fails with [InvalidTradeRecord] (nothing is
    written); one whose [trade_id] is the key overwrites the record's
    [successful] and [profit_loss] (a second identical call leaves the record
    the same) and adds 1 to [successful_trades] when [successful] and
    [profit_loss] to [total_profit_loss], on every call: the counters are
    not idempotent. *)
Theorem update_trade_outcome_spec (ctx : OutcomeCtx) (trade_id : Pubkey)
    (successful' : bool) (profit_loss' : Z)
    (Hauth : uo_authority ctx = authority (uo_trading_state ctx)) :
  (trade_id <> uo_trade_record_key ctx ->
   update_trade_outcome ctx trade_id successful' profit_loss'
     = Err InvalidTradeRecord) /\
  (forall st rec,
   update_trade_outcome ctx trade_id successful' profit_loss' = Ok (st, rec) ->
   trade_id = uo_trade_record_key ctx /\
   successful rec = successful' /\ profit_loss rec = profit_loss' /\
   successful_trades st
     = successful_trades (uo_trading_state ctx) + (if successful' then 1 else 0) /\
   total_profit_loss st = total_profit_loss (uo_trading_state ctx) + profit_loss' /\
   total_trades st = total_trades (uo_trading_state ctx) /\
   authority st = authority (uo_trading_state ctx) /\
   (forall st' rec',
    update_trade_outcome
      {| uo_trading_state := st; uo_trade_record := rec;
         uo_trade_record_key := uo_trade_record_key ctx;
         uo_authority := uo_authority ctx |}
      trade_id successful' profit_loss' = Ok (st', rec') ->
    rec' = rec /\
    successful_trades st'
      = successful_trades st + (if successful' then 1 else 0) /\
    total_profit_loss st' = total_profit_loss st + profit_loss')).
Proof.
  assert (Hone : forall c st rec,
    uo_authority c = authority (uo_trading_state c) ->
    update_trade_outcome c trade_id successful' profit_loss' = Ok (st, rec) ->
    trade_id = uo_trade_record_key c /\
    rec = {| tr_authority := tr_authority (uo_trade_record c);
             timestamp := timestamp (uo_trade_record c);
             amount := amount (uo_trade_record c);
             side := side (uo_trade_record c); price := price (uo_trade_record c);
             confidence := confidence (uo_trade_record c);
             strategy_id := strategy_id (uo_trade_record c);
             successful := successful'; profit_loss := profit_loss' |} /\
    successful_trades st
      = successful_trades (uo_trading_state c) + (if successful' then 1 else 0) /\
    total_profit_loss st = total_profit_loss (uo_trading_state c) + profit_loss' /\
    total_trades st = total_trades (uo_trading_state c) /\
    authority st = authority (uo_trading_state c)).
  { intros c st rec Ha H.
    unfold update_trade_outcome, bind, require, checked_add_u64', checked_add_i64',
      unwrap in H.
    rewrite Ha, Z.eqb_refl in H; simpl in H.
    destruct (uo_trade_record_key c =? trade_id) eqn:Ek; [|discriminate].
    apply Z.eqb_eq in Ek. simpl in H.
    destruct successful'.
    - unfold checked_add_u64 in H.
      destruct (successful_trades (uo_trading_state c) + 1 <=? U64_MAX);
        [|discriminate]. simpl in H.
      unfold checked_add_i64 in H.
      destruct (in_i64 _); [|discriminate].
      injection H as <- <-. simpl. repeat split; auto.
    - simpl in H. unfold checked_add_i64 in H.
      destruct (in_i64 _); [|discriminate].
      injection H as <- <-. simpl. repeat split; auto; lia. }
  split.
  - intros Hne. unfold update_trade_outcome, bind, require.
    rewrite Hauth, Z.eqb_refl; simpl.
    destruct (uo_trade_record_key ctx =? trade_id) eqn:Ek; [|reflexivity].
    apply Z.eqb_eq in Ek; congruence.
  - intros st rec H.
    destruct (Hone ctx st rec Hauth H) as (Hk & Hrec & H1 & H2 & H3 & H4).
    split; [exact Hk|]. rewrite Hrec; simpl.
    split; [reflexivity|]. split; [reflexivity|].
    split; [exact H1|]. split; [exact H2|]. split; [exact H3|].
    split; [exact H4|].
    intros st' rec' H'.
    destruct (Hone {| uo_trading_state := st; uo_trade_record := rec;
                      uo_trade_record_key := uo_trade_record_key ctx;
                      uo_authority := uo_authority ctx |}
                   st' rec' (eq_trans Hauth (eq_sym H4)) ltac:(rewrite Hrec; exact H'))
      as (_ & Hrec' & H1' & H2' & _).
    simpl in Hrec', H1', H2'. rewrite Hrec', Hrec. simpl.
    split; [reflexivity|]. split; assumption.
Qed.

(** C8 on a concrete call: trade record 55 reconciled by its authority. *)
Lemma update_trade_outcome_witness :
  update_trade_outcome (outcome_ctx (low_risk_state false) executed_record)
    54 true 25 = Err InvalidTradeRecord.
Proof.
  apply (update_trade_outcome_spec
           (outcome_ctx (low_risk_state false) executed_record) 54 true 25
           eq_refl).
  discriminate.
Defined.

End AiTradingFacts.

(** * Properties of [defi_strategy.rs] *)

Module DefiStrategyFacts.
Import DefiStrategy.

(** A strategy with a 7-day lockup and a position opened at time 0. *)
Definition locked_strategy : Strategy :=
  {| version := 1; creator := 3; name := repeat 0 32; description := repeat 0 200;
     risk_level := Moderate; protocol_type := Lending; estimated_apy := 1500;
     tags := repeat 0 5; tvl := 5000; user_count := 2; lockup_period := 7;
     min_investment := 100; fee_percentage := 30; token_count := 0;
     tokens := []; protocol_count := 0; protocols := []; verified := false;
     ai_model_version := 1; reserved := repeat 0 64 |}.

Definition program : Pubkey := 99.

Definition locked_position : UserPosition :=
  {| up_version := 1; owner := 5; up_strategy := 6; initial_investment := 1000;
     current_value := 1000; subscription_time := 0; last_harvest_time := 0;
     performance_fee_rate := 30; up_token_count := 0; token_investments := [];
     up_reserved := repeat 0 64 |}.

Definition unsubscribe_accounts : list AccountInfo :=
  [ {| key := 5; is_signer := true; account_owner := 0; data := DOther |};
    {| key := 6; is_signer := false; account_owner := program;
         data := DStrategy locked_strategy |};
    {| key := 8; is_signer := false; account_owner := program;
         data := DPosition locked_position |} ].

(** C9 (as the claim states it, refuted): one day into a 7-day lockup the
    unsubscribe is rejected, but with the generic
    [ProgramError::InvalidArgument]: the program defines no [LockupActive]
    error, nor any error code of its own. *)
Lemma lockup_error_counterexample :
  process_unsubscribe_from_strategy program unsubscribe_accounts 86400
    = Err InvalidArgument /\
  (forall code, process_unsubscribe_from_strategy program unsubscribe_accounts 86400
                  <> Err (Custom code)).
Proof.
  split; [vm_compute; reflexivity|].
  intros code; vm_compute; discriminate.
Qed.

(** C9 (amended): for a well-formed call (signed by the position's owner,
    both accounts owned by the program and decoding, the position on this
    strategy, the deadline within [i64]), an unsubscribe at [now] strictly
    before [subscription_time + lockup_period * 86400] fails with
    [InvalidArgument], and one at or after it passes the lockup check and
    succeeds.  Neither writes an account: on failure the runtime reverts,
    and on success the processor leaves the serialisation commented out. *)
Theorem unsubscribe_lockup_gate (program_id now : Pubkey)
    (subscriber_account strategy_account position_account : AccountInfo)
    (rest : list AccountInfo) (s : Strategy) (p : UserPosition)
    (Hsig : is_signer subscriber_account = true)
    (Hown_s : account_owner strategy_account = program_id)
    (Hown_p : account_owner position_account = program_id)
    (Hs : data strategy_account = DStrategy s)
    (Hp : data position_account = DPosition p)
    (Howner : owner p = key subscriber_account)
    (Hstrat : up_strategy p = key strategy_account)
    (Hrange : in_i64 (subscription_time p + lockup_period s * 24 * 60 * 60) = true) :
  let accounts := subscriber_account :: strategy_account :: position_account :: rest in
  (now < subscription_time p + lockup_period s * 24 * 60 * 60 ->
   process_unsubscribe_from_strategy program_id accounts now = Err InvalidArgument) /\
  (subscription_time p + lockup_period s * 24 * 60 * 60 <= now ->
   process_unsubscribe_from_strategy program_id accounts now = Ok tt).
Proof.
  intros accounts; subst accounts.
  unfold process_unsubscribe_from_strategy, bind, require, lockup_time_secs, unwrap,
    checked_add_i64.
  rewrite Hsig, Hown_s, Hown_p, Z.eqb_refl; simpl.
  rewrite Hp; simpl. rewrite Howner, Z.eqb_refl; simpl.
  rewrite Hstrat, Z.eqb_refl; simpl. rewrite Hs; simpl.
  rewrite Hrange; simpl.
  split.
  - intros H. apply Z.leb_gt in H. rewrite H. reflexivity.
  - intros H. apply Z.leb_le in H. rewrite H. reflexivity.
Qed.

(** C9 on the accounts above: rejected one day in, accepted after 7 days. *)
Lemma unsubscribe_lockup_witness :
  process_unsubscribe_from_strategy program unsubscribe_accounts 86400
    = Err InvalidArgument /\
  process_unsubscribe_from_strategy program unsubscribe_accounts (7 * 86400)
    = Ok tt.
Proof.
  destruct (unsubscribe_lockup_gate program 86400
              (nth 0 unsubscribe_accounts (mkAccountInfo 0 false 0 DOther))
              (nth 1 unsubscribe_accounts (mkAccountInfo 0 false 0 DOther))
              (nth 2 unsubscribe_accounts (mkAccountInfo 0 false 0 DOther))
              [] locked_strategy locked_position
              eq_refl eq_refl eq_refl eq_refl eq_refl eq_refl eq_refl eq_refl)
    as [H1 _].
  destruct (unsubscribe_lockup_gate program (7 * 86400)
              (nth 0 unsubscribe_accounts (mkAccountInfo 0 false 0 DOther))
              (nth 1 unsubscribe_accounts (mkAccountInfo 0 false 0 DOther))
              (nth 2 unsubscribe_accounts (mkAccountInfo 0 false 0 DOther))
              [] locked_strategy locked_position
              eq_refl eq_refl eq_refl eq_refl eq_refl eq_refl eq_refl eq_refl)
    as [_ H2].
  split; [apply H1 | apply H2]; vm_compute; first [reflexivity | discriminate].
Defined.

End DefiStrategyFacts.

(** * Registry, strategy administration and trading instructions *)

Module ResultFacts.

Ltac bool_facts := repeat match goal with
  | E : (_ =? _) = true |- _ => apply Z.eqb_eq in E
  | E : (_ =? _) = false |- _ => apply Z.eqb_neq in E
  | E : (_ <=? _) = true |- _ => apply Z.leb_le in E
  | E : (_ <=? _) = false |- _ => apply Z.leb_gt in E
  | E : (_ <? _) = true |- _ => apply Z.ltb_lt in E
  | E : (_ <? _) = false |- _ => apply Z.ltb_ge in E
  | E : negb _ = true |- _ => apply negb_true_iff in E
  | E : negb _ = false |- _ => apply negb_false_iff in E
  end.

Lemma bind_ok {A B E} (m : result A E) (k : A -> result B E) (b : B) :
  bind m k = Ok b <-> exists a, m = Ok a /\ k a = Ok b.
Proof.
  destruct m as [a|e]; simpl; split.
  - intros H; exists a; auto.
  - intros [a' [H1 H2]]; inversion H1; subst; auto.
  - discriminate.
  - intros [a' [H1 _]]; discriminate.
Qed.

Lemma require_ok {E} (b : bool) (e : E) (u : unit) :
  require b e = Ok u <-> b = true.
Proof. destruct b, u; simpl; split; congruence. Qed.

Lemma unwrap_ok {A E} (o : option A) (e : E) (a : A) :
  unwrap o e = Ok a <-> o = Some a.
Proof. destruct o; simpl; split; congruence. Qed.

Ltac solve_bool :=
  first [ reflexivity
        | apply Z.leb_le; lia | apply Z.eqb_eq; lia | apply Z.ltb_lt; lia
        | apply negb_true_iff; assumption
        | apply Nat.leb_le; lia | apply Nat.eqb_eq; lia | apply Nat.ltb_lt; lia ].

End ResultFacts.

Module StrategyAdminFacts.
Import ResultFacts StrategyManager StrategyAdmin.




Lemma update_field_ok {A} (arg : option A) ok set s s' :
  update_field arg ok set s = Ok s' <->
  (forall v, arg = Some v -> ok v = true) /\
  s' = match arg with Some v => set s v | None => s end.
Proof.
  destruct arg as [v|]; simpl.
  - destruct (ok v) eqn:E; simpl; split.
    + intros H; inversion H; split; congruence.
    + intros [_ H]; congruence.
    + discriminate.
    + intros [H _]; specialize (H v eq_refl); congruence.
  - split; [intros H; inversion H; split; congruence | intros [_ H]; congruence].
Qed.

(** X1: [update_protocol_fees] takes the [InitializeRegistry] accounts, whose
    registry is [init]: on an existing registry it fails with
    [AccountAlreadyInUse]; on a fresh one the zero-filled registry's
    authority is 0, so any signer other than the all-zero key fails with
    [Unauthorized].  The instruction never succeeds for a nonzero signer. *)
Theorem update_protocol_fees_unusable (ctx : InitializeRegistryCtx) (fee : Z)
    (recipient : option Pubkey) (Hkey : ir_authority ctx <> 0) :
  update_protocol_fees ctx fee recipient =
  Err (match ir_registry ctx with
       | Some _ => AccountAlreadyInUse
       | None => Unauthorized
       end).
Proof.
  unfold update_protocol_fees, init_registry.
  destruct (ir_registry ctx); simpl; [reflexivity|].
  destruct (ir_authority ctx =? 0) eqn:E; bool_facts; [contradiction|reflexivity].
Qed.

Lemma update_protocol_fees_witness :
  update_protocol_fees {| ir_authority := 41; ir_registry := None; ir_bump := 254 |}
    50 (Some 7) = Err Unauthorized.
Proof. apply (update_protocol_fees_unusable (mkInitializeRegistryCtx 41 None 254) 50 (Some 7)); simpl; lia. Defined.


Lemma exit_strategy_ok (s : AIStrategy) (u : unit) :
  exit_strategy s = Ok u <->
  (String.length (id s) + String.length (name s)
   + String.length (description_hash s) <= 180)%nat.
Proof.
  unfold exit_strategy, strategy_serialized_len, STRATEGY_SPACE.
  rewrite require_ok, Z.leb_le; lia.
Qed.

Ltac decomp H :=
  repeat match type of H with
  | bind _ _ = Ok _ =>
      apply bind_ok in H;
      let a := fresh "a" in let Ha := fresh "Ha" in destruct H as [a [Ha H]]
  end;
  repeat match goal with
  | Ha : require _ _ = Ok _ |- _ => apply require_ok in Ha
  | Ha : unwrap _ _ = Ok _ |- _ => apply unwrap_ok in Ha
  | Ha : exit_strategy _ = Ok _ |- _ => apply exit_strategy_ok in Ha
  end; bool_facts.


Ltac run_ok :=
  unfold bind, require, unwrap;
  repeat (cbn [fst snd]; match goal with
          | |- context [if ?b then _ else _] =>
              replace b with true by (symmetry; solve_bool)
          end; cbv beta iota).

(** X2: [create_strategy] succeeds exactly when the strategy key is the PDA
    found for ("strategy", creator, registry count as u64 little-endian
    bytes), the account does not exist yet, risk <= 3, horizon <= 2, token
    support <= 3, management fee <= 500, performance fee <= 3000, the
    registry count + 1 fits in u64, and id, name and description hash
    together take at most 180 bytes, so the account fits its 290 bytes. *)
Theorem create_strategy_succeeds_iff (pda_hash : list Z -> option Pubkey)
    (ctx : CreateStrategyCtx) (id' name' description_hash' : string)
    (risk horizon models support mgmt perf min : Z) :
  (exists r s, create_strategy pda_hash ctx id' name' description_hash'
                 risk horizon models support mgmt perf min = Ok (r, s)) <->
  (exists b, find_program_address pda_hash
               (strategy_seeds (cs_creator ctx)
                  (u64_to_le_bytes (strategy_count (cs_registry ctx))))
             = Some (cs_strategy_key ctx, b)) /\
  cs_strategy_exists ctx = false /\
  risk <= 3 /\ horizon <= 2 /\ support <= 3 /\ mgmt <= 500 /\ perf <= 3000 /\
  strategy_count (cs_registry ctx) + 1 <= U64_MAX /\
  (String.length id' + String.length name' + String.length description_hash'
   <= 180)%nat.
Proof.
  split.
  - intros (r & s & H). unfold create_strategy in H; cbv zeta in H. decomp H.
    unfold checked_add_u64 in *.
    destruct (strategy_count (cs_registry ctx) + 1 <=? U64_MAX) eqn:Ec;
      [|discriminate]. bool_facts.
    destruct a as [k b]; simpl in *. subst.
    repeat split; try lia; eauto.
  - intros ((b & Hb) & Hex & H1 & H2 & H3 & H4 & H5 & H6 & H7).
    unfold create_strategy; cbv zeta. rewrite Hb.
    rewrite Hex. unfold checked_add_u64. run_ok.
    match goal with |- context [exit_strategy ?s] =>
      rewrite (proj2 (exit_strategy_ok s tt)) by (cbn [id name description_hash]; lia)
    end.
    cbv beta iota. do 2 eexists; reflexivity.
Qed.


(** X3: after a successful [create_strategy] the registry count has grown by
    one (its other fields kept) and the new strategy has the given id, the
    signer as creator, tvl, subscriber count, total returns and status 0,
    is not verified, and was created and updated at the current time. *)
Theorem create_strategy_initial_state (pda_hash : list Z -> option Pubkey)
    (ctx : CreateStrategyCtx) (id' name' description_hash' : string)
    (risk horizon models support mgmt perf min : Z)
    (r : StrategyRegistry) (s : AIStrategy)
    (H : create_strategy pda_hash ctx id' name' description_hash'
           risk horizon models support mgmt perf min = Ok (r, s)) :
  strategy_count r = strategy_count (cs_registry ctx) + 1 /\
  reg_authority r = reg_authority (cs_registry ctx) /\
  protocol_fee_bps r = protocol_fee_bps (cs_registry ctx) /\
  fee_recipient r = fee_recipient (cs_registry ctx) /\
  id s = id' /\ creator s = cs_creator ctx /\
  tvl s = 0 /\ subscriber_count s = 0 /\ total_returns_bps s = 0 /\
  status s = 0 /\ verified s = false /\
  created_at s = cs_now ctx /\ updated_at s = cs_now ctx.
Proof.
  unfold create_strategy in H; cbv zeta in H. decomp H.
  unfold checked_add_u64 in *.
  destruct (strategy_count (cs_registry ctx) + 1 <=? U64_MAX); [|discriminate].
  match goal with Hs : Some _ = Some _ |- _ => injection Hs as <- end.
  injection H as <- <-. repeat split.
Qed.

(** the bytes of a key determine it *)
Lemma be_bytes_length (n : nat) (x : Z) : List.length (be_bytes n x) = n.
Proof.
  revert x; induction n; intros x; simpl; [reflexivity|].
  rewrite length_app, IHn; simpl; lia.
Qed.

Lemma be_bytes_inj (n : nat) (x y : Z) :
  0 <= x < 256 ^ Z.of_nat n -> 0 <= y < 256 ^ Z.of_nat n ->
  be_bytes n x = be_bytes n y -> x = y.
Proof.
  revert x y; induction n; intros x y Hx Hy H.
  - simpl in *; lia.
  - simpl in H. apply app_inj_tail in H as [H1 H2].
    rewrite Nat2Z.inj_succ, Z.pow_succ_r in Hx, Hy by lia.
    assert (x / 256 = y / 256).
    { apply IHn; auto.
      - split; [apply Z.div_pos; lia | apply Z.div_lt_upper_bound; lia].
      - split; [apply Z.div_pos; lia | apply Z.div_lt_upper_bound; lia]. }
    rewrite (Z.div_mod x 256), (Z.div_mod y 256) by lia. congruence.
Qed.

Lemma app_inv_length {A} (l1 l2 l3 l4 : list A) :
  l1 ++ l2 = l3 ++ l4 -> List.length l1 = List.length l3 -> l1 = l3 /\ l2 = l4.
Proof.
  revert l3; induction l1 as [|x l1 IH]; intros [|y l3] H Hl; simpl in *;
    try discriminate; auto.
  injection H as -> H. injection Hl as Hl.
  destruct (IH l3 H Hl) as [-> ->]; auto.
Qed.

Lemma find_bump_spec (pda_hash : list Z -> option Pubkey) seeds n k b :
  find_bump pda_hash seeds n = Some (k, b) ->
  create_program_address pda_hash seeds b = Some k.
Proof.
  induction n; simpl; [discriminate|].
  destruct (create_program_address pda_hash seeds (Z.pos (Pos.of_succ_nat n)))
    eqn:E; [intros H; injection H as <- <-; exact E | exact IHn].
Qed.

Lemma create_program_address_hash (pda_hash : list Z -> option Pubkey) seeds b k :
  create_program_address pda_hash seeds b = Some k ->
  pda_hash (List.concat seeds ++ [b]) = Some k.
Proof.
  unfold create_program_address.
  destruct (forallb _ seeds); [auto | discriminate].
Qed.

Lemma accounts_ok (pda_hash : list Z -> option Pubkey) (ctx : UpdateStrategyCtx) (u : unit) :
  update_strategy_accounts pda_hash ctx = Ok u <->
  create_program_address pda_hash
    (strategy_seeds (us_creator ctx) (string_bytes (id (us_strategy ctx))))
    (bump (us_strategy ctx)) = Some (us_strategy_key ctx) /\
  us_creator ctx = creator (us_strategy ctx).
Proof.
  unfold update_strategy_accounts; cbv zeta.
  destruct (create_program_address _ _ _) as [k|] eqn:E.
  - destruct (k =? us_strategy_key ctx) eqn:Ek; bool_facts; subst; cbn [bind require].
    + rewrite require_ok, Z.eqb_eq. destruct u; tauto.
    + split; [discriminate | intros [H _]; congruence].
  - cbn [bind require]; split; [discriminate | intros [H _]; discriminate].
Qed.

Lemma update_field_total {A} (arg : option A) ok set s :
  (forall v, arg = Some v -> ok v = true) ->
  exists s', update_field arg ok set s = Ok s'.
Proof.
  intros H; destruct arg as [v|]; simpl; [|eauto].
  rewrite (H v eq_refl); simpl; eauto.
Qed.

Lemma update_field_proj {A B} (arg : option A) ok set s s' (f : AIStrategy -> B) :
  update_field arg ok set s = Ok s' -> (forall v, f (set s v) = f s) -> f s' = f s.
Proof.
  intros H Hf; apply update_field_ok in H as [_ ->]. destruct arg; auto.
Qed.

Lemma update_field_set {A} (arg : option A) ok set s s' (f : AIStrategy -> A) :
  update_field arg ok set s = Ok s' -> (forall v, f (set s v) = v) ->
  f s' = match arg with Some v => v | None => f s end.
Proof.
  intros H Hf; apply update_field_ok in H as [_ ->]. destruct arg; auto.
Qed.

Lemma update_field_cond {A} (arg : option A) ok set s s' :
  update_field arg ok set s = Ok s' -> forall v, arg = Some v -> ok v = true.
Proof. intros H; apply update_field_ok in H as [H _]; exact H. Qed.

Ltac chase :=
  repeat match goal with
  | Ha : update_field _ _ _ _ = Ok ?x |- context [?f ?x] =>
      first [ rewrite (update_field_proj _ _ _ _ _ f Ha) by (intros; reflexivity)
            | rewrite (update_field_set _ _ _ _ _ f Ha) by (intros; reflexivity) ]
  end.

(** The shape of a successful [update_strategy]. *)
Lemma update_strategy_ok_inv (pda_hash : list Z -> option Pubkey)
    (ctx : UpdateStrategyCtx) (n d : option string)
    (r h m t mg pf mi st : option Z) (s' : AIStrategy) :
  update_strategy pda_hash ctx n d r h m t mg pf mi st = Ok s' ->
  let s := us_strategy ctx in
  update_strategy_accounts pda_hash ctx = Ok tt /\
  (String.length (id s') + String.length (name s')
   + String.length (description_hash s') <= 180)%nat /\
  (forall v, r = Some v -> v <= 3) /\ (forall v, h = Some v -> v <= 2) /\
  (forall v, t = Some v -> v <= 3) /\ (forall v, mg = Some v -> v <= 500) /\
  (forall v, pf = Some v -> v <= 3000) /\ (forall v, st = Some v -> v <= 2) /\
  id s' = id s /\ creator s' = creator s /\
  name s' = match n with Some v => v | None => name s end /\
  description_hash s' = match d with Some v => v | None => description_hash s end /\
  risk_level s' = match r with Some v => v | None => risk_level s end /\
  time_horizon s' = match h with Some v => v | None => time_horizon s end /\
  ai_models s' = match m with Some v => v | None => ai_models s end /\
  token_support s' = match t with Some v => v | None => token_support s end /\
  management_fee_bps s' =
    match mg with Some v => v | None => management_fee_bps s end /\
  performance_fee_bps s' =
    match pf with Some v => v | None => performance_fee_bps s end /\
  min_investment s' = match mi with Some v => v | None => min_investment s end /\
  tvl s' = tvl s /\ subscriber_count s' = subscriber_count s /\
  total_returns_bps s' = total_returns_bps s /\
  created_at s' = created_at s /\ updated_at s' = us_now ctx /\
  status s' = match st with Some v => v | None => status s end /\
  verified s' = verified s /\ bump s' = bump s.
Proof.
  intros H s. unfold update_strategy in H; cbv zeta in H.
  apply bind_ok in H as [u [Hacc H]]. destruct u.
  do 10 (apply bind_ok in H; let a := fresh "a" in let Ha := fresh "Ha" in
         destruct H as [a [Ha H]]).
  apply bind_ok in H as [u [Hex H]]. injection H as <-.
  apply exit_strategy_ok in Hex.
  split; [exact Hacc|]. split; [exact Hex|].
  repeat split;
    try (intros v Hv;
         match goal with
         | Ha : update_field _ _ _ _ = Ok _ |- _ =>
             apply Z.leb_le; exact (update_field_cond _ _ _ _ _ Ha v Hv)
         end);
    cbn [id creator name description_hash risk_level time_horizon ai_models
         token_support management_fee_bps performance_fee_bps min_investment
         tvl subscriber_count total_returns_bps created_at updated_at status
         verified bump set_updated_at];
    chase; reflexivity.
Qed.

(** X4: [update_strategy] succeeds exactly when the strategy account is the
    PDA of ("strategy", signer, id bytes) with the stored bump, the signer
    is the stored creator, each supplied value is within its cap (risk <= 3,
    horizon <= 2, support <= 3, management fee <= 500, performance fee <=
    3000, status <= 2), and id, new name and new description hash together
    take at most 180 bytes. *)
Theorem update_strategy_succeeds_iff (pda_hash : list Z -> option Pubkey)
    (ctx : UpdateStrategyCtx) (n d : option string)
    (r h m t mg pf mi st : option Z) :
  let s := us_strategy ctx in
  (exists s', update_strategy pda_hash ctx n d r h m t mg pf mi st = Ok s') <->
  create_program_address pda_hash
    (strategy_seeds (us_creator ctx) (string_bytes (id s))) (bump s)
    = Some (us_strategy_key ctx) /\
  us_creator ctx = creator s /\
  (forall v, r = Some v -> v <= 3) /\ (forall v, h = Some v -> v <= 2) /\
  (forall v, t = Some v -> v <= 3) /\ (forall v, mg = Some v -> v <= 500) /\
  (forall v, pf = Some v -> v <= 3000) /\ (forall v, st = Some v -> v <= 2) /\
  (String.length (id s)
   + String.length (match n with Some v => v | None => name s end)
   + String.length (match d with Some v => v | None => description_hash s end)
   <= 180)%nat.
Proof.
  intros s; split.
  - intros [s' H]. apply update_strategy_ok_inv in H.
    cbv zeta in H.
    destruct H as (Hacc & Hlen & H1 & H2 & H3 & H4 & H5 & H6 & Hid & _ & Hn & Hd & _).
    apply accounts_ok in Hacc as [Hseed Hcr].
    rewrite Hid, Hn, Hd in Hlen. repeat split; auto.
  - intros (Hseed & Hcr & H1 & H2 & H3 & H4 & H5 & H6 & Hlen).
    unfold update_strategy; cbv zeta.
    rewrite (proj2 (accounts_ok pda_hash ctx tt) (conj Hseed Hcr)). cbn [bind].
    do 10 (match goal with
           | |- context [update_field ?arg ?ok ?set ?s0] =>
               let a := fresh "a" in let Ha := fresh "Ha" in
               assert (Hx : exists a, update_field arg ok set s0 = Ok a)
                 by (apply update_field_total; intros v Hv; cbv beta;
                     first [reflexivity | apply Z.leb_le; eauto]);
               destruct Hx as [a Ha]; rewrite Ha; cbn [bind]
           end).
    match goal with |- context [exit_strategy ?x] =>
      assert (Hex : exit_strategy x = Ok tt)
    end.
    { apply exit_strategy_ok.
      cbn [id name description_hash set_updated_at]. chase. exact Hlen. }
    rewrite Hex; cbn [bind]; eauto.
Qed.

(** X5: a successful [update_strategy] sets each supplied field, keeps each
    omitted one, sets [updated_at] to the current time, and leaves id,
    creator, tvl, subscriber count, total returns, creation time, the
    verified flag and the bump unchanged. *)
Theorem update_strategy_effect (pda_hash : list Z -> option Pubkey)
    (ctx : UpdateStrategyCtx) (n d : option string)
    (r h m t mg pf mi st : option Z) (s' : AIStrategy)
    (H : update_strategy pda_hash ctx n d r h m t mg pf mi st = Ok s') :
  let s := us_strategy ctx in
  name s' = match n with Some v => v | None => name s end /\
  description_hash s' = match d with Some v => v | None => description_hash s end /\
  risk_level s' = match r with Some v => v | None => risk_level s end /\
  time_horizon s' = match h with Some v => v | None => time_horizon s end /\
  ai_models s' = match m with Some v => v | None => ai_models s end /\
  token_support s' = match t with Some v => v | None => token_support s end /\
  management_fee_bps s' =
    match mg with Some v => v | None => management_fee_bps s end /\
  performance_fee_bps s' =
    match pf with Some v => v | None => performance_fee_bps s end /\
  min_investment s' = match mi with Some v => v | None => min_investment s end /\
  status s' = match st with Some v => v | None => status s end /\
  updated_at s' = us_now ctx /\
  id s' = id s /\ creator s' = creator s /\
  tvl s' = tvl s /\ subscriber_count s' = subscriber_count s /\
  total_returns_bps s' = total_returns_bps s /\
  created_at s' = created_at s /\ verified s' = verified s /\ bump s' = bump s.
Proof.
  apply update_strategy_ok_inv in H. cbv zeta in *.
  destruct H as (_ & _ & _ & _ & _ & _ & _ & _ & Hid & Hcr & Hn & Hd & Hr & Hh & Hm
                 & Ht & Hmg & Hpf & Hmi & Htvl & Hsc & Htr & Hca & Hua & Hst & Hv & Hb).
  repeat split; assumption.
Qed.

Lemma transfer_ok_inv (pda_hash : list Z -> option Pubkey)
    (ctx : UpdateStrategyCtx) (o : Pubkey) (s' : AIStrategy) :
  transfer_strategy_ownership pda_hash ctx o = Ok s' ->
  update_strategy_accounts pda_hash ctx = Ok tt /\
  s' = set_creator (us_strategy ctx) o.
Proof.
  intros H; unfold transfer_strategy_ownership in H; cbv zeta in H.
  apply bind_ok in H as [u [Hacc H]]; destruct u.
  apply bind_ok in H as [u [_ H]].
  apply bind_ok in H as [u' [_ H]]. injection H as <-. auto.
Qed.

Lemma verify_ok_inv (ctx : VerifyStrategyCtx) (v : bool) (s' : AIStrategy) :
  verify_strategy ctx v = Ok s' ->
  vs_authority ctx = reg_authority (vs_registry ctx) /\
  s' = set_updated_at (set_verified (vs_strategy ctx) v) (vs_now ctx).
Proof.
  intros H; unfold verify_strategy in H; cbv zeta in H.
  apply bind_ok in H as [u [Ha H]]. apply require_ok in Ha. bool_facts.
  apply bind_ok in H as [u' [_ H]]. injection H as <-. auto.
Qed.

Lemma create_ok_inv (pda_hash : list Z -> option Pubkey)
    (ctx : CreateStrategyCtx) (id' name' description_hash' : string)
    (risk horizon models support mgmt perf min : Z)
    (r : StrategyRegistry) (s : AIStrategy) :
  create_strategy pda_hash ctx id' name' description_hash'
    risk horizon models support mgmt perf min = Ok (r, s) ->
  exists b, find_program_address pda_hash
              (strategy_seeds (cs_creator ctx)
                 (u64_to_le_bytes (strategy_count (cs_registry ctx))))
            = Some (cs_strategy_key ctx, b) /\
  s = {| id := id'; creator := cs_creator ctx; name := name';
         description_hash := description_hash'; risk_level := risk;
         time_horizon := horizon; ai_models := models;
         token_support := support; management_fee_bps := mgmt;
         performance_fee_bps := perf; min_investment := min; tvl := 0;
         subscriber_count := 0; total_returns_bps := 0;
         created_at := cs_now ctx; updated_at := cs_now ctx; status := 0;
         verified := false; bump := b |} /\
  risk <= 3 /\ horizon <= 2 /\ support <= 3 /\ mgmt <= 500 /\ perf <= 3000.
Proof.
  intros H. unfold create_strategy in H; cbv zeta in H. decomp H.
  unfold checked_add_u64 in *.
  destruct (strategy_count (cs_registry ctx) + 1 <=? U64_MAX); [|discriminate].
  match goal with Hs : Some _ = Some _ |- _ => injection Hs as <- end.
  injection H as <- <-. destruct a as [k b]; simpl in *; subst.
  exists b; repeat split; auto.
Qed.

Ltac valid_goal :=
  unfold strategy_valid in *; repeat rewrite andb_true_iff in *; bool_facts.

(** X6: the parameter caps (risk <= 3, horizon <= 2, token support <= 3,
    management fee <= 500, performance fee <= 3000, status <= 2) hold for
    every created strategy and are kept by update, ownership transfer,
    verification, subscribe, unsubscribe, value update and both fee sweeps. *)
Theorem strategy_valid_invariant (pda_hash : list Z -> option Pubkey) :
  (forall ctx id' name' description_hash' risk horizon models support mgmt perf
          min r s,
     create_strategy pda_hash ctx id' name' description_hash'
       risk horizon models support mgmt perf min = Ok (r, s) ->
     strategy_valid s = true) /\
  (forall ctx n d r h m t mg pf mi st s',
     strategy_valid (us_strategy ctx) = true ->
     update_strategy pda_hash ctx n d r h m t mg pf mi st = Ok s' ->
     strategy_valid s' = true) /\
  (forall ctx o s',
     strategy_valid (us_strategy ctx) = true ->
     transfer_strategy_ownership pda_hash ctx o = Ok s' ->
     strategy_valid s' = true) /\
  (forall ctx v s',
     strategy_valid (vs_strategy ctx) = true ->
     verify_strategy ctx v = Ok s' -> strategy_valid s' = true) /\
  (forall ctx amount s sub,
     strategy_valid (sc_strategy ctx) = true ->
     subscribe_to_strategy ctx amount = Ok (s, sub) ->
     strategy_valid s = true) /\
  (forall ctx s,
     strategy_valid (uc_strategy ctx) = true ->
     unsubscribe_from_strategy ctx = Ok s -> strategy_valid s = true) /\
  (forall ctx new_value returns_bps s sub,
     strategy_valid (vc_strategy ctx) = true ->
     update_strategy_value ctx new_value returns_bps = Ok (s, sub) ->
     strategy_valid s = true) /\
  (forall ctx now s sub,
     strategy_valid (vc_strategy ctx) = true ->
     collect_management_fees ctx now = Ok (s, sub) -> strategy_valid s = true) /\
  (forall ctx s sub,
     strategy_valid (vc_strategy ctx) = true ->
     collect_performance_fees ctx = Ok (s, sub) -> strategy_valid s = true).
Proof.
  repeat split.
  - intros * H. apply create_ok_inv in H as (b & _ & -> & H1 & H2 & H3 & H4 & H5).
    unfold strategy_valid; cbn [risk_level time_horizon token_support
      management_fee_bps performance_fee_bps status].
    repeat rewrite andb_true_iff. repeat split; apply Z.leb_le; lia.
  - intros * Hv H. apply update_strategy_ok_inv in H; cbv zeta in H.
    destruct H as (_ & _ & H1 & H2 & H3 & H4 & H5 & H6 & _ & _ & _ & _ & Hr & Hh
                   & _ & Ht & Hmg & Hpf & _ & _ & _ & _ & _ & _ & Hst & _).
    unfold strategy_valid in *. rewrite Hr, Hh, Ht, Hmg, Hpf, Hst.
    repeat rewrite andb_true_iff in *.
    destruct Hv as [[[[[V1 V2] V3] V4] V5] V6].
    apply Z.leb_le in V1, V2, V3, V4, V5, V6.
    repeat split; apply Z.leb_le;
      match goal with
      | |- context [match ?o with Some _ => _ | None => _ end] =>
          destruct o; [eauto | lia]
      end.
  - intros * Hv H. apply transfer_ok_inv in H as [_ ->]. exact Hv.
  - intros * Hv H. apply verify_ok_inv in H as [_ ->]. exact Hv.
  - intros * Hv H. unfold subscribe_to_strategy in H; cbv zeta in H.
    repeat (apply bind_ok in H; let a := fresh "a" in destruct H as [a [_ H]]).
    injection H as <- _. exact Hv.
  - intros * Hv H. unfold unsubscribe_from_strategy in H; cbv zeta in H.
    repeat (apply bind_ok in H; let a := fresh "a" in destruct H as [a [_ H]]).
    injection H as <-. exact Hv.
  - intros * Hv H. unfold update_strategy_value in H; cbv zeta in H.
    repeat (apply bind_ok in H; let a := fresh "a" in destruct H as [a [_ H]]).
    injection H as <- _. exact Hv.
  - intros * Hv H. unfold collect_management_fees in H; cbv zeta in H.
    repeat (apply bind_ok in H; let a := fresh "a" in destruct H as [a [_ H]]).
    destruct (_ <? 86400); injection H as <- _; exact Hv.
  - intros * Hv H. unfold collect_performance_fees in H; cbv zeta in H.
    repeat (apply bind_ok in H; let a := fresh "a" in destruct H as [a [_ H]]).
    destruct (_ <=? _); injection H as <- _; exact Hv.
Qed.

Lemma seeds_collide (pda_hash : list Z -> option Pubkey)
    (Hinj : forall a b k, pda_hash a = Some k -> pda_hash b = Some k -> a = b)
    c1 c2 t1 t2 b1 b2 k :
  create_program_address pda_hash (strategy_seeds c1 t1) b1 = Some k ->
  create_program_address pda_hash (strategy_seeds c2 t2) b2 = Some k ->
  pubkey_bytes c1 = pubkey_bytes c2 /\ t1 ++ [b1] = t2 ++ [b2].
Proof.
  intros H1 H2. apply create_program_address_hash in H1, H2.
  pose proof (Hinj _ _ _ H1 H2) as E. unfold strategy_seeds in E. cbn [List.concat] in E.
  rewrite !app_nil_r, <- !app_assoc in E.
  apply app_inv_head in E.
  apply app_inv_length in E; [|unfold pubkey_bytes; rewrite !be_bytes_length; reflexivity].
  exact E.
Qed.

Lemma accounts_seeds_err (pda_hash : list Z -> option Pubkey) (ctx : UpdateStrategyCtx) :
  create_program_address pda_hash
    (strategy_seeds (us_creator ctx) (string_bytes (id (us_strategy ctx))))
    (bump (us_strategy ctx)) <> Some (us_strategy_key ctx) ->
  update_strategy_accounts pda_hash ctx = Err ConstraintSeeds.
Proof.
  intros H. unfold update_strategy_accounts; cbv zeta.
  destruct (create_program_address _ _ _) as [k|] eqn:E; [|reflexivity].
  destruct (Z.eqb_spec k (us_strategy_key ctx)); [congruence|reflexivity].
Qed.

Lemma accounts_unauthorized_err (pda_hash : list Z -> option Pubkey)
    (ctx : UpdateStrategyCtx) :
  create_program_address pda_hash
    (strategy_seeds (us_creator ctx) (string_bytes (id (us_strategy ctx))))
    (bump (us_strategy ctx)) = Some (us_strategy_key ctx) ->
  us_creator ctx <> creator (us_strategy ctx) ->
  update_strategy_accounts pda_hash ctx = Err Unauthorized.
Proof.
  intros H Hc. unfold update_strategy_accounts; cbv zeta. rewrite H, Z.eqb_refl.
  unfold bind, require. destruct (Z.eqb_spec (us_creator ctx) (creator (us_strategy ctx)));
    [congruence|reflexivity].
Qed.

Lemma accounts_err_propagates (pda_hash : list Z -> option Pubkey)
    (ctx : UpdateStrategyCtx) (e : Error) :
  update_strategy_accounts pda_hash ctx = Err e ->
  (forall n d r h m t mg pf mi st,
     update_strategy pda_hash ctx n d r h m t mg pf mi st = Err e) /\
  (forall o, transfer_strategy_ownership pda_hash ctx o = Err e).
Proof.
  intros H; split; intros *;
    [unfold update_strategy | unfold transfer_strategy_ownership]; rewrite H; reflexivity.
Qed.

(** X7: for a collision-free PDA hash, a strategy created under the seeds
    ("strategy", creator, count bytes) can never pass the [UpdateStrategy]
    seeds check, which uses the id bytes instead, when its id's bytes differ
    from the count's 8 little-endian bytes: every [update_strategy] and
    [transfer_strategy_ownership] on it, by any signer, fails with
    [ConstraintSeeds]. *)
Theorem created_strategy_seeds_mismatch (pda_hash : list Z -> option Pubkey)
    (Hinj : forall a b k, pda_hash a = Some k -> pda_hash b = Some k -> a = b)
    (cctx : CreateStrategyCtx) (id' name' description_hash' : string)
    (risk horizon models support mgmt perf min : Z)
    (r : StrategyRegistry) (s : AIStrategy)
    (Hc : create_strategy pda_hash cctx id' name' description_hash'
            risk horizon models support mgmt perf min = Ok (r, s))
    (Hid : string_bytes id' <> u64_to_le_bytes (strategy_count (cs_registry cctx)))
    (signer now : Pubkey) :
  let uctx := mkUpdateStrategyCtx signer (cs_strategy_key cctx) s now in
  (forall n d rl h m t mg pf mi st,
     update_strategy pda_hash uctx n d rl h m t mg pf mi st = Err ConstraintSeeds) /\
  (forall o, transfer_strategy_ownership pda_hash uctx o = Err ConstraintSeeds).
Proof.
  intros uctx. apply accounts_err_propagates, accounts_seeds_err.
  apply create_ok_inv in Hc as (b & Hf & -> & _).
  apply find_bump_spec in Hf. cbn [uctx us_creator us_strategy us_strategy_key id bump].
  intros H. destruct (seeds_collide pda_hash Hinj _ _ _ _ _ _ _ Hf H) as [_ E].
  apply app_inj_tail in E as [E _]. congruence.
Qed.

(** X8: for a collision-free PDA hash, after a successful ownership transfer
    to a different key, the strategy can no longer be updated or
    transferred: the old creator fails with [Unauthorized] (the seeds still
    name them, the stored creator does not), and every other signer,
    including the new owner, fails with [ConstraintSeeds]. *)
Theorem transferred_strategy_locks_out (pda_hash : list Z -> option Pubkey)
    (Hinj : forall a b k, pda_hash a = Some k -> pda_hash b = Some k -> a = b)
    (ctx : UpdateStrategyCtx) (new_owner : Pubkey) (s' : AIStrategy)
    (Ht : transfer_strategy_ownership pda_hash ctx new_owner = Ok s')
    (Hnew : new_owner <> us_creator ctx)
    (Hc : 0 <= us_creator ctx < 2 ^ 256) (u now : Pubkey) (Hu : 0 <= u < 2 ^ 256) :
  let uctx := mkUpdateStrategyCtx u (us_strategy_key ctx) s' now in
  let e := if u =? us_creator ctx then Unauthorized else ConstraintSeeds in
  (forall n d rl h m t mg pf mi st,
     update_strategy pda_hash uctx n d rl h m t mg pf mi st = Err e) /\
  (forall o, transfer_strategy_ownership pda_hash uctx o = Err e).
Proof.
  intros uctx e. apply accounts_err_propagates.
  apply transfer_ok_inv in Ht as [Hacc ->].
  apply accounts_ok in Hacc as [Hseed Hcr].
  subst e. destruct (Z.eqb_spec u (us_creator ctx)) as [->|Hne].
  - apply accounts_unauthorized_err; cbn [uctx us_creator us_strategy us_strategy_key
      id bump set_creator creator]; [exact Hseed | congruence].
  - apply accounts_seeds_err. cbn [uctx us_creator us_strategy us_strategy_key
      id bump set_creator]. intros H.
    destruct (seeds_collide pda_hash Hinj _ _ _ _ _ _ _ Hseed H) as [E _].
    assert (P : 256 ^ Z.of_nat 32 = 2 ^ 256) by reflexivity.
    unfold pubkey_bytes in E.
    apply be_bytes_inj in E; [congruence | rewrite P; lia | rewrite P; lia].
Qed.

(** X9: a created strategy is not verified; update, ownership transfer,
    subscribe, unsubscribe, value update and both fee sweeps keep the
    verified flag; only [verify_strategy] changes it, and only when the
    signer is the registry authority. *)
Theorem only_registry_authority_sets_verified (pda_hash : list Z -> option Pubkey) :
  (forall ctx id' name' description_hash' risk horizon models support mgmt perf
          min r s,
     create_strategy pda_hash ctx id' name' description_hash'
       risk horizon models support mgmt perf min = Ok (r, s) ->
     verified s = false) /\
  (forall ctx n d r h m t mg pf mi st s',
     update_strategy pda_hash ctx n d r h m t mg pf mi st = Ok s' ->
     verified s' = verified (us_strategy ctx)) /\
  (forall ctx o s',
     transfer_strategy_ownership pda_hash ctx o = Ok s' ->
     verified s' = verified (us_strategy ctx)) /\
  (forall ctx v s',
     verify_strategy ctx v = Ok s' ->
     vs_authority ctx = reg_authority (vs_registry ctx) /\ verified s' = v) /\
  (forall ctx amount s sub,
     subscribe_to_strategy ctx amount = Ok (s, sub) ->
     verified s = verified (sc_strategy ctx)) /\
  (forall ctx s,
     unsubscribe_from_strategy ctx = Ok s -> verified s = verified (uc_strategy ctx)) /\
  (forall ctx new_value returns_bps s sub,
     update_strategy_value ctx new_value returns_bps = Ok (s, sub) ->
     verified s = verified (vc_strategy ctx)) /\
  (forall ctx now s sub,
     collect_management_fees ctx now = Ok (s, sub) ->
     verified s = verified (vc_strategy ctx)) /\
  (forall ctx s sub,
     collect_performance_fees ctx = Ok (s, sub) ->
     verified s = verified (vc_strategy ctx)).
Proof.
  repeat split.
  - intros * H. apply create_ok_inv in H as (b & _ & -> & _). reflexivity.
  - intros * H. apply update_strategy_ok_inv in H; cbv zeta in H. tauto.
  - intros * H. apply transfer_ok_inv in H as [_ ->]. reflexivity.
  - match goal with H : verify_strategy _ _ = Ok _ |- _ =>
      apply verify_ok_inv in H as [Ha _]; exact Ha end.
  - match goal with H : verify_strategy _ _ = Ok _ |- _ =>
      apply verify_ok_inv in H as [_ ->]; reflexivity end.
  - intros * H. unfold subscribe_to_strategy in H; cbv zeta in H.
    repeat (apply bind_ok in H; let a := fresh "a" in destruct H as [a [_ H]]).
    injection H as <- _. reflexivity.
  - intros * H. unfold unsubscribe_from_strategy in H; cbv zeta in H.
    repeat (apply bind_ok in H; let a := fresh "a" in destruct H as [a [_ H]]).
    injection H as <-. reflexivity.
  - intros * H. unfold update_strategy_value in H; cbv zeta in H.
    repeat (apply bind_ok in H; let a := fresh "a" in destruct H as [a [_ H]]).
    injection H as <- _. reflexivity.
  - intros * H. unfold collect_management_fees in H; cbv zeta in H.
    repeat (apply bind_ok in H; let a := fresh "a" in destruct H as [a [_ H]]).
    destruct (_ <? 86400); injection H as <- _; reflexivity.
  - intros * H. unfold collect_performance_fees in H; cbv zeta in H.
    repeat (apply bind_ok in H; let a := fresh "a" in destruct H as [a [_ H]]).
    destruct (_ <=? _); injection H as <- _; reflexivity.
Qed.

(** X10: after a successful [update_strategy] that sets a nonzero status,
    every new subscription to the strategy fails with [StrategyNotActive]. *)
Theorem status_update_blocks_subscriptions (pda_hash : list Z -> option Pubkey)
    (ctx : UpdateStrategyCtx) (n d : option string) (r h m t mg pf mi : option Z)
    (new_status : Z) (s' : AIStrategy) (Hst : new_status <> 0)
    (H : update_strategy pda_hash ctx n d r h m t mg pf mi (Some new_status) = Ok s')
    (sctx : SubscribeCtx) (Hs : sc_strategy sctx = s')
    (Hfresh : sc_subscription_exists sctx = false) (amount : Z) :
  subscribe_to_strategy sctx amount = Err StrategyNotActive.
Proof.
  apply update_strategy_ok_inv in H; cbv zeta in H.
  assert (Hstatus : status s' = new_status) by (cbv beta iota in H; tauto).
  unfold subscribe_to_strategy; cbv zeta. rewrite Hfresh, Hs, Hstatus.
  unfold bind, require; cbn [negb].
  destruct (Z.eqb_spec new_status 0); [congruence | reflexivity].
Qed.

Import AdminFixtures.

Lemma point_hash_inj (L : list Z) (addr : Pubkey) :
  forall a b k, point_hash L addr a = Some k -> point_hash L addr b = Some k -> a = b.
Proof.
  unfold point_hash; intros a b k.
  destruct (list_eq_dec Z.eq_dec a L), (list_eq_dec Z.eq_dec b L);
    congruence.
Qed.

(** Witness: [create_strategy_initial_state] at concrete accounts. *)
Lemma create_strategy_initial_state_witness :
  create_strategy demo_create_hash demo_create_ctx "7"%string "n"%string "d"%string 1 1 0 1 100 1000 10
    = Ok (set_strategy_count demo_registry 1, demo_strategy) /\
  strategy_count (set_strategy_count demo_registry 1) = 0 + 1 /\
  id demo_strategy = "7"%string /\ creator demo_strategy = 11 /\ tvl demo_strategy = 0 /\
  verified demo_strategy = false /\ created_at demo_strategy = 1000.
Proof.
  assert (H : create_strategy demo_create_hash demo_create_ctx "7"%string "n"%string "d"%string
                1 1 0 1 100 1000 10
              = Ok (set_strategy_count demo_registry 1, demo_strategy))
    by (vm_compute; reflexivity).
  destruct (create_strategy_initial_state _ _ _ _ _ _ _ _ _ _ _ _ _ _ H)
    as (H1 & _ & _ & _ & H5 & H6 & H7 & _ & _ & _ & H11 & H12 & _).
  repeat split; assumption.
Defined.

(** Witness: [update_strategy_effect] at concrete accounts. *)
Lemma update_strategy_effect_witness :
  update_strategy demo_update_hash demo_update_ctx
    None None None None None None None None None (Some 1) = Ok demo_paused_strategy /\
  status demo_paused_strategy = 1 /\ updated_at demo_paused_strategy = 2000 /\
  name demo_paused_strategy = "n"%string /\ tvl demo_paused_strategy = 0.
Proof.
  assert (H : update_strategy demo_update_hash demo_update_ctx
                None None None None None None None None None (Some 1)
              = Ok demo_paused_strategy) by (vm_compute; reflexivity).
  destruct (update_strategy_effect _ _ _ _ _ _ _ _ _ _ _ _ _ H)
    as (Hn & _ & _ & _ & _ & _ & _ & _ & _ & Hst & Hua & _ & _ & Htvl & _).
  repeat split; assumption.
Defined.

(** Witness: [created_strategy_seeds_mismatch] at concrete accounts. *)
Lemma created_strategy_seeds_mismatch_witness :
  create_strategy demo_create_hash demo_create_ctx "7"%string "n"%string "d"%string 1 1 0 1 100 1000 10
    = Ok (set_strategy_count demo_registry 1, demo_strategy) /\
  update_strategy demo_create_hash (mkUpdateStrategyCtx 11 77 demo_strategy 2000)
    None None None None None None None None None (Some 1) = Err ConstraintSeeds.
Proof.
  assert (H : create_strategy demo_create_hash demo_create_ctx "7"%string "n"%string "d"%string
                1 1 0 1 100 1000 10
              = Ok (set_strategy_count demo_registry 1, demo_strategy))
    by (vm_compute; reflexivity).
  split; [exact H|].
  apply (created_strategy_seeds_mismatch demo_create_hash (point_hash_inj _ _)
           demo_create_ctx _ _ _ _ _ _ _ _ _ _ _ _ H).
  vm_compute; discriminate.
Defined.

(** Witness: [transferred_strategy_locks_out] at concrete accounts. *)
Lemma transferred_strategy_locks_out_witness :
  transfer_strategy_ownership demo_update_hash demo_update_ctx 13
    = Ok (set_creator demo_strategy 13) /\
  transfer_strategy_ownership demo_update_hash
    (mkUpdateStrategyCtx 11 77 (set_creator demo_strategy 13) 3000) 11 = Err Unauthorized /\
  transfer_strategy_ownership demo_update_hash
    (mkUpdateStrategyCtx 13 77 (set_creator demo_strategy 13) 3000) 13
    = Err ConstraintSeeds.
Proof.
  assert (H : transfer_strategy_ownership demo_update_hash demo_update_ctx 13
              = Ok (set_creator demo_strategy 13)) by (vm_compute; reflexivity).
  split; [exact H|]. split.
  - apply (transferred_strategy_locks_out demo_update_hash (point_hash_inj _ _)
             demo_update_ctx 13 _ H); cbn; lia.
  - apply (transferred_strategy_locks_out demo_update_hash (point_hash_inj _ _)
             demo_update_ctx 13 _ H); cbn; lia.
Defined.

(** Witness: [status_update_blocks_subscriptions] at concrete accounts. *)
Lemma status_update_blocks_subscriptions_witness :
  update_strategy demo_update_hash demo_update_ctx
    None None None None None None None None None (Some 1) = Ok demo_paused_strategy /\
  subscribe_to_strategy demo_subscribe_ctx 500 = Err StrategyNotActive.
Proof.
  assert (H : update_strategy demo_update_hash demo_update_ctx
                None None None None None None None None None (Some 1)
              = Ok demo_paused_strategy) by (vm_compute; reflexivity).
  split; [exact H|].
  apply (status_update_blocks_subscriptions demo_update_hash demo_update_ctx
           _ _ _ _ _ _ _ _ _ 1 _ ltac:(lia) H); reflexivity.
Defined.
End StrategyAdminFacts.

Module AiTradingAdminFacts.
Import ResultFacts AiTrading.

Lemma update_parameters_ok_inv (ctx : ParamsCtx) (m r : option Z) (p : option bool)
    (st : TradingState) :
  update_parameters ctx m r p = Ok st ->
  let s := pc_trading_state ctx in
  pc_authority ctx = authority s /\
  (forall v, r = Some v -> v <= 10) /\
  st = (let s1 := match m with Some v => set_max_position_size s v | None => s end in
        let s2 := match r with Some v => set_risk_level s1 v | None => s1 end in
        match p with Some v => set_paused s2 v | None => s2 end).
Proof.
  intros H. unfold update_parameters in H; cbv zeta in H.
  apply bind_ok in H as [u [Ha H]]. apply require_ok in Ha. bool_facts.
  destruct r as [v|].
  - apply bind_ok in H as [s2 [Hs2 H]]. apply bind_ok in Hs2 as [u' [Hl Hs2]].
    apply require_ok in Hl. bool_facts. injection Hs2 as <-. injection H as <-.
    repeat split; auto. intros v' E; injection E as <-; exact Hl.
  - cbn [bind] in H. injection H as <-. repeat split; auto; discriminate.
Qed.

(** X11: [initialize] stores any risk level, also one above 10 (for which the
    confidence threshold is 50), while [update_parameters] rejects that same
    level with [InvalidRiskLevel]; on an existing account [initialize]
    fails with [AccountAlreadyInUse]. *)
Theorem initialize_skips_risk_check (authority' max_size risk : Z) (Hr : 10 < risk) :
  exists st,
    initialize false authority' max_size risk = Ok st /\
    risk_level st = risk /\ min_confidence (risk_level st) = 50 /\
    update_parameters (mkParamsCtx st authority') None (Some risk) None
      = Err InvalidRiskLevel /\
    initialize true authority' max_size risk = Err AccountAlreadyInUse.
Proof.
  eexists; split; [reflexivity|]. cbn [risk_level].
  split; [reflexivity|]. split.
  - unfold min_confidence.
    replace ((1 <=? risk) && (risk <=? 3)) with false
      by (symmetry; apply andb_false_iff; right; apply Z.leb_gt; lia).
    replace ((4 <=? risk) && (risk <=? 7)) with false
      by (symmetry; apply andb_false_iff; right; apply Z.leb_gt; lia).
    reflexivity.
  - split; [|reflexivity].
    unfold update_parameters, bind, require; cbn [pc_authority pc_trading_state authority].
    rewrite Z.eqb_refl. cbv beta iota.
    replace (risk <=? 10) with false by (symmetry; apply Z.leb_gt; lia).
    reflexivity.
Qed.

(** X12: [update_parameters] fails with [Unauthorized] for a signer other than
    the recorded authority; a risk level above 10 never succeeds and, for
    the authority, fails with [InvalidRiskLevel]; on success it sets each
    supplied field, keeps the omitted ones and leaves authority,
    initialized and the three counters unchanged. *)
Theorem update_parameters_spec (ctx : ParamsCtx) (m r : option Z) (p : option bool) :
  let s := pc_trading_state ctx in
  (pc_authority ctx <> authority s ->
   update_parameters ctx m r p = Err Unauthorized) /\
  (forall v, r = Some v -> 10 < v ->
   (forall st, update_parameters ctx m r p <> Ok st) /\
   (pc_authority ctx = authority s ->
    update_parameters ctx m r p = Err InvalidRiskLevel)) /\
  (forall st, update_parameters ctx m r p = Ok st ->
   pc_authority ctx = authority s /\
   authority st = authority s /\ initialized st = initialized s /\
   total_trades st = total_trades s /\ successful_trades st = successful_trades s /\
   total_profit_loss st = total_profit_loss s /\
   max_position_size st = match m with Some v => v | None => max_position_size s end /\
   risk_level st = match r with Some v => v | None => risk_level s end /\
   paused st = match p with Some v => v | None => paused s end /\
   (forall v, r = Some v -> v <= 10)).
Proof.
  cbv zeta. split; [|split].
  - intros Hne. unfold update_parameters, bind, require; cbv zeta.
    destruct (Z.eqb_spec (pc_authority ctx) (authority (pc_trading_state ctx)));
      [congruence | reflexivity].
  - intros v -> Hv. split.
    + intros st H. apply update_parameters_ok_inv in H as (_ & Hl & _).
      specialize (Hl v eq_refl). lia.
    + intros Ha. unfold update_parameters, bind, require; cbv zeta.
      rewrite Ha, Z.eqb_refl. cbv beta iota.
      replace (v <=? 10) with false by (symmetry; apply Z.leb_gt; lia).
      reflexivity.
  - intros st H. apply update_parameters_ok_inv in H as (Ha & Hl & ->).
    split; [exact Ha|].
    destruct m, r, p; cbn; repeat split; auto.
Qed.

(** X13: once [update_parameters] has set [paused] to true, every
    [execute_trade] on a fresh trade-record account fails with
    [TradingPaused]. *)
Theorem paused_state_refuses_trades (pctx : ParamsCtx) (m r : option Z)
    (st : TradingState)
    (Hp : update_parameters pctx m r (Some true) = Ok st)
    (ctx : ExecuteCtx) (Hst : et_trading_state ctx = st)
    (Hfresh : et_trade_record_exists ctx = false)
    (amount' : Z) (side' : TradeSide) (confidence' strategy_id' : Z) :
  execute_trade ctx amount' side' confidence' strategy_id' = Err TradingPaused.
Proof.
  apply update_parameters_ok_inv in Hp as (_ & _ & Hst').
  unfold execute_trade, bind, require. rewrite Hfresh, Hst, Hst'.
  destruct m, r; reflexivity.
Qed.

Lemma execute_trade_ok_inv (ctx : ExecuteCtx) (a : Z) (sd : TradeSide) (c sid : Z)
    (st : TradingState) (rec : TradeRecord) :
  execute_trade ctx a sd c sid = Ok (st, rec) ->
  let s := et_trading_state ctx in
  exists p,
    et_trade_record_exists ctx = false /\ paused s = false /\
    et_authority ctx = authority s /\ et_price ctx = Some p /\
    min_confidence (risk_level s) <= c /\ a <= max_position_size s /\
    total_trades s + 1 <= U64_MAX /\ et_transfer_ok ctx = true /\
    st = set_total_trades s (total_trades s + 1) /\
    rec = {| tr_authority := et_authority ctx; timestamp := et_now ctx;
             amount := a; side := sd; price := pi_price p; confidence := c;
             strategy_id := sid; successful := false; profit_loss := 0 |}.
Proof.
  intros H; unfold execute_trade in H; cbv zeta in H.
  repeat (apply bind_ok in H;
          let x := fresh "x" in let Hx := fresh "Hx" in destruct H as [x [Hx H]]).
  repeat match goal with
  | Hx : require _ _ = Ok _ |- _ => apply require_ok in Hx
  | Hx : unwrap _ _ = Ok _ |- _ => apply unwrap_ok in Hx
  end; bool_facts.
  match goal with Hx : checked_add_u64' _ _ = Ok _ |- _ =>
    unfold checked_add_u64' in Hx; apply unwrap_ok in Hx;
    unfold checked_add_u64 in Hx end.
  match goal with Hx : (if ?b then _ else _) = Some _ |- _ =>
    destruct b eqn:Eb; [injection Hx as <-|discriminate] end.
  bool_facts. injection H as <- <-.
  eexists; repeat split; eauto.
Qed.

(** X14: [execute_trade] succeeds exactly when the trade-record account is
    fresh, trading is not paused, the caller is the recorded authority, the
    price feed answered, the confidence reaches the threshold of the risk
    level, the amount is at most [max_position_size], [total_trades] + 1
    fits in u64 and the token transfer succeeds. *)
Theorem execute_trade_ok_iff (ctx : ExecuteCtx) (a : Z) (sd : TradeSide) (c sid : Z) :
  let s := et_trading_state ctx in
  (exists st rec, execute_trade ctx a sd c sid = Ok (st, rec)) <->
  et_trade_record_exists ctx = false /\ paused s = false /\
  et_authority ctx = authority s /\ et_price ctx <> None /\
  min_confidence (risk_level s) <= c /\ a <= max_position_size s /\
  total_trades s + 1 <= U64_MAX /\ et_transfer_ok ctx = true.
Proof.
  intros s; split.
  - intros (st & rec & H). apply execute_trade_ok_inv in H as (p & H1 & H2 & H3 & H4 & H).
    rewrite H4. repeat split; try tauto; discriminate.
  - intros (H1 & H2 & H3 & H4 & H5 & H6 & H7 & H8).
    destruct (et_price ctx) as [p|] eqn:Ep; [|congruence].
    unfold execute_trade, checked_add_u64', checked_add_u64; cbv zeta.
    fold s. rewrite H1, H2, H3, Ep, H8, Z.eqb_refl.
    unfold bind, require, unwrap; cbv beta iota.
    replace (min_confidence (risk_level s) <=? c) with true
      by (symmetry; apply Z.leb_le; exact H5).
    replace (a <=? max_position_size s) with true
      by (symmetry; apply Z.leb_le; exact H6).
    replace (total_trades s + 1 <=? U64_MAX) with true
      by (symmetry; apply Z.leb_le; exact H7).
    do 2 eexists; reflexivity.
Qed.

(** X15: a successful [execute_trade] adds one to [total_trades] and changes
    no other field of the trading state; the new trade record holds the
    authority, the current time, the amount, side, confidence and strategy
    id given, the feed price, [successful = false] and a profit of 0. *)
Theorem execute_trade_effect (ctx : ExecuteCtx) (a : Z) (sd : TradeSide) (c sid : Z)
    (st : TradingState) (rec : TradeRecord)
    (H : execute_trade ctx a sd c sid = Ok (st, rec)) :
  let s := et_trading_state ctx in
  total_trades st = total_trades s + 1 /\
  initialized st = initialized s /\
  successful_trades st = successful_trades s /\
  total_profit_loss st = total_profit_loss s /\
  authority st = authority s /\ paused st = paused s /\
  max_position_size st = max_position_size s /\ risk_level st = risk_level s /\
  tr_authority rec = authority s /\ timestamp rec = et_now ctx /\
  amount rec = a /\ side rec = sd /\ confidence rec = c /\ strategy_id rec = sid /\
  successful rec = false /\ profit_loss rec = 0 /\
  (exists p, et_price ctx = Some p /\ price rec = pi_price p).
Proof.
  apply execute_trade_ok_inv in H as (p & _ & _ & Ha & Hp & _ & _ & _ & _ & -> & ->).
  cbv zeta. repeat split; eauto.
Qed.


Import TradingFixtures.

(** Witness: [initialize_skips_risk_check] at concrete accounts. *)
Lemma initialize_skips_risk_check_witness :
  exists st, initialize false 7 1000 12 = Ok st /\
    update_parameters (mkParamsCtx st 7) None (Some 12) None = Err InvalidRiskLevel.
Proof.
  destruct (initialize_skips_risk_check 7 1000 12 ltac:(lia))
    as (st & H1 & _ & _ & H2 & _).
  exists st; split; assumption.
Defined.

(** Witness: [paused_state_refuses_trades] at concrete accounts. *)
Lemma paused_state_refuses_trades_witness :
  update_parameters (mkParamsCtx demo_trading_state 7) None None (Some true)
    = Ok (set_paused demo_trading_state true) /\
  execute_trade (demo_execute_ctx (set_paused demo_trading_state true)) 10 Buy 90 0
    = Err TradingPaused.
Proof.
  assert (H : update_parameters (mkParamsCtx demo_trading_state 7) None None (Some true)
              = Ok (set_paused demo_trading_state true)) by reflexivity.
  split; [exact H|].
  exact (paused_state_refuses_trades _ _ _ _ H
           (demo_execute_ctx (set_paused demo_trading_state true)) eq_refl eq_refl
           10 Buy 90 0).
Defined.

(** Witness: [execute_trade_effect] at concrete accounts. *)
Lemma execute_trade_effect_witness :
  execute_trade (demo_execute_ctx demo_trading_state) 10 Sell 70 2
    = Ok (set_total_trades demo_trading_state 4, demo_trade_record) /\
  total_trades (set_total_trades demo_trading_state 4) = 3 + 1 /\
  price demo_trade_record = 150.
Proof.
  assert (H : execute_trade (demo_execute_ctx demo_trading_state) 10 Sell 70 2
              = Ok (set_total_trades demo_trading_state 4, demo_trade_record))
    by (vm_compute; reflexivity).
  destruct (execute_trade_effect _ _ _ _ _ _ _ H)
    as (H1 & _ & _ & _ & _ & _ & _ & _ & _ & _ & _ & _ & _ & _ & _ & _ & (p & Hp & Hpr)).
  split; [exact H|]. split; [exact H1|].
  rewrite Hpr. injection Hp as <-. reflexivity.
Defined.
End AiTradingAdminFacts.

Module DefiProcessorFacts.
Import ResultFacts DefiStrategy.

Lemma pad_spec {A} (n : nat) (z : A) (l : list A) :
  (List.length l <= n)%nat ->
  List.length (pad n z l) = n /\ firstn (List.length l) (pad n z l) = l.
Proof.
  intros Hl. unfold pad. rewrite length_app, repeat_length.
  split; [lia|]. rewrite firstn_app, firstn_all, Nat.sub_diag, firstn_O, app_nil_r.
  reflexivity.
Qed.

Lemma serialize_strategy_ok s len d :
  serialize_strategy s len = Ok d <->
  STRATEGY_LEN <= len /\ d = (if len =? STRATEGY_LEN then DStrategy s else DOther).
Proof.
  unfold serialize_strategy.
  destruct (Z.ltb_spec len STRATEGY_LEN).
  - split; [discriminate | intros [Hle _]; lia].
  - split.
    + intros Hd. split; [lia|].
      destruct (len =? STRATEGY_LEN); injection Hd as <-; reflexivity.
    + intros [_ ->]. destruct (len =? STRATEGY_LEN); reflexivity.
Qed.

(** X16: [process_create_strategy] succeeds exactly when there are at least
    three accounts, the first signs, the second is owned by the program, the
    name has at most 32 bytes, the description at most 200, there are 1 to
    10 tokens, 1 to 10 protocols and at most 5 tags, and the strategy
    account holds at least [STRATEGY_LEN] bytes. *)
Theorem process_create_strategy_ok_iff (program_id : Pubkey)
    (accounts : list AccountInfo) (len : Z) (name' description' : list Z)
    (rl : RiskLevel) (pt : ProtocolType) (apy : Z) (tags' : list Z)
    (lock mi fee : Z) (tokens' : list TokenAllocation)
    (protocols' : list ProtocolAllocation) :
  (exists d, process_create_strategy program_id accounts len name' description'
               rl pt apy tags' lock mi fee tokens' protocols' = Ok d) <->
  exists c sa sp rest, accounts = c :: sa :: sp :: rest /\
    is_signer c = true /\ account_owner sa = program_id /\
    (List.length name' <= 32)%nat /\ (List.length description' <= 200)%nat /\
    (1 <= List.length tokens' <= 10)%nat /\
    (1 <= List.length protocols' <= 10)%nat /\
    (List.length tags' <= 5)%nat /\ STRATEGY_LEN <= len.
Proof.
  split.
  - intros [d H]. destruct accounts as [|c [|sa [|sp rest]]]; try discriminate.
    unfold process_create_strategy in H; cbv zeta in H.
    repeat (apply bind_ok in H;
            let x := fresh "x" in let Hx := fresh "Hx" in destruct H as [x [Hx H]];
            apply require_ok in Hx).
    apply serialize_strategy_ok in H as [Hlen _].
    repeat match goal with
    | Hx : negb _ = true |- _ => apply negb_true_iff in Hx
    | Hx : (_ || _)%bool = false |- _ => apply orb_false_iff in Hx as [? ?]
    | Hx : Nat.ltb _ _ = false |- _ => apply Nat.ltb_ge in Hx
    | Hx : Nat.eqb _ _ = false |- _ => apply Nat.eqb_neq in Hx
    end; bool_facts.
    exists c, sa, sp, rest. repeat split; auto; lia.
  - intros (c & sa & sp & rest & -> & H1 & H2 & H3 & H4 & H5 & H6 & H7 & H8).
    unfold process_create_strategy; cbv zeta.
    unfold bind, require. rewrite H1, H2, Z.eqb_refl. cbv beta iota.
    replace (Nat.ltb 32 (List.length name')) with false
      by (symmetry; apply Nat.ltb_ge; lia).
    replace (Nat.ltb 200 (List.length description')) with false
      by (symmetry; apply Nat.ltb_ge; lia).
    replace (Nat.ltb 10 (List.length tokens') || Nat.eqb (List.length tokens') 0)%bool
      with false by (symmetry; apply orb_false_iff;
                     split; [apply Nat.ltb_ge | apply Nat.eqb_neq]; lia).
    replace (Nat.ltb 10 (List.length protocols') || Nat.eqb (List.length protocols') 0)%bool
      with false by (symmetry; apply orb_false_iff;
                     split; [apply Nat.ltb_ge | apply Nat.eqb_neq]; lia).
    replace (Nat.ltb 5 (List.length tags')) with false
      by (symmetry; apply Nat.ltb_ge; lia).
    cbv beta iota.
    eexists. apply serialize_strategy_ok. split; [exact H8|reflexivity].
Qed.

(** X17: on success, [process_create_strategy] writes, whatever the strategy
    account held before, a strategy whose creator is the signer, with tvl
    and user count 0, not verified, and whose fixed-size name, description,
    tags, tokens and protocols arrays start with the given values (with the
    token and protocol counts set); when the account is longer than
    [STRATEGY_LEN] the data left cannot be decoded as a strategy. *)
Theorem process_create_strategy_effect (program_id : Pubkey)
    (c sa sp : AccountInfo) (rest : list AccountInfo) (len : Z)
    (name' description' : list Z) (rl : RiskLevel) (pt : ProtocolType) (apy : Z)
    (tags' : list Z) (lock mi fee : Z) (tokens' : list TokenAllocation)
    (protocols' : list ProtocolAllocation) (d : AccountData)
    (H : process_create_strategy program_id (c :: sa :: sp :: rest) len name'
           description' rl pt apy tags' lock mi fee tokens' protocols' = Ok d) :
  (STRATEGY_LEN < len -> d = DOther) /\
  (len = STRATEGY_LEN ->
   exists s, d = DStrategy s /\
     version s = 1 /\ creator s = key c /\ tvl s = 0 /\ user_count s = 0 /\
     verified s = false /\ ai_model_version s = 1 /\
     risk_level s = rl /\ protocol_type s = pt /\ estimated_apy s = apy /\
     lockup_period s = lock /\ min_investment s = mi /\ fee_percentage s = fee /\
     List.length (name s) = 32%nat /\ firstn (List.length name') (name s) = name' /\
     List.length (description s) = 200%nat /\
     firstn (List.length description') (description s) = description' /\
     List.length (tags s) = 5%nat /\ firstn (List.length tags') (tags s) = tags' /\
     token_count s = Z.of_nat (List.length tokens') /\
     List.length (tokens s) = 10%nat /\
     firstn (List.length tokens') (tokens s) = tokens' /\
     protocol_count s = Z.of_nat (List.length protocols') /\
     List.length (protocols s) = 10%nat /\
     firstn (List.length protocols') (protocols s) = protocols').
Proof.
  unfold process_create_strategy in H; cbv zeta in H.
  repeat (apply bind_ok in H;
          let x := fresh "x" in let Hx := fresh "Hx" in destruct H as [x [Hx H]];
          apply require_ok in Hx).
  apply serialize_strategy_ok in H as [Hlen ->].
  repeat match goal with
  | Hx : negb _ = true |- _ => apply negb_true_iff in Hx
  | Hx : (_ || _)%bool = false |- _ => apply orb_false_iff in Hx as [? ?]
  | Hx : Nat.ltb _ _ = false |- _ => apply Nat.ltb_ge in Hx
  | Hx : Nat.eqb _ _ = false |- _ => apply Nat.eqb_neq in Hx
  end.
  split.
  - intros Hgt. replace (len =? STRATEGY_LEN) with false
      by (symmetry; apply Z.eqb_neq; lia). reflexivity.
  - intros ->. rewrite Z.eqb_refl. eexists; split; [reflexivity|].
    cbn [version creator tvl user_count verified ai_model_version risk_level
         protocol_type estimated_apy lockup_period min_investment fee_percentage
         name description tags token_count tokens protocol_count protocols].
    destruct (pad_spec 32 0 name') as [N1 N2]; [assumption|].
    destruct (pad_spec 200 0 description') as [D1 D2]; [assumption|].
    destruct (pad_spec 5 0 tags') as [T1 T2]; [assumption|].
    destruct (pad_spec 10 default_token_allocation tokens') as [K1 K2]; [assumption|].
    destruct (pad_spec 10 default_protocol_allocation protocols') as [P1 P2];
      [assumption|].
    repeat split; assumption.
Qed.


Lemma strategy_decode_ok d st :
  strategy_try_from_slice d = Ok st <-> d = DStrategy st.
Proof.
  destruct d; simpl; split; intros H; try discriminate; try congruence.
Qed.

Lemma position_decode_ok d p :
  position_try_from_slice d = Ok p <-> d = DPosition p.
Proof.
  destruct d; simpl; split; intros H; try discriminate; try congruence.
Qed.

Lemma fold_sum_nonneg (l : list Z) :
  Forall (fun x => 0 <= x) l -> 0 <= fold_right Z.add 0 l.
Proof. induction 1; simpl; lia. Qed.

Lemma sum_u64_spec (acc : Z) (l : list Z) :
  0 <= acc <= U64_MAX -> Forall (fun x => 0 <= x) l ->
  sum_u64 acc l =
  if acc + fold_right Z.add 0 l <=? U64_MAX
  then Ok (acc + fold_right Z.add 0 l) else Err Panic.
Proof.
  intros Hacc Hl. revert acc Hacc.
  induction Hl as [|x l Hx Hl IH]; intros acc Hacc; simpl.
  - rewrite Z.add_0_r. replace (acc <=? U64_MAX) with true
      by (symmetry; apply Z.leb_le; lia). reflexivity.
  - pose proof (fold_sum_nonneg l Hl) as Hs.
    unfold bind, unwrap, checked_add_u64.
    destruct (Z.leb_spec (acc + x) U64_MAX).
    + rewrite IH by lia. rewrite Z.add_assoc. reflexivity.
    + replace (acc + (x + fold_right Z.add 0 l) <=? U64_MAX) with false
        by (symmetry; apply Z.leb_gt; lia). reflexivity.
Qed.

Ltac decomp_defi H :=
  repeat (apply bind_ok in H;
          let x := fresh "x" in let Hx := fresh "Hx" in destruct H as [x [Hx H]]);
  repeat match goal with
  | Hx : require _ _ = Ok _ |- _ => apply require_ok in Hx
  | Hx : unwrap _ _ = Ok _ |- _ => apply unwrap_ok in Hx
  | Hx : strategy_try_from_slice _ = Ok _ |- _ => apply strategy_decode_ok in Hx
  | Hx : position_try_from_slice _ = Ok _ |- _ => apply position_decode_ok in Hx
  | Hx : negb _ = true |- _ => apply negb_true_iff in Hx
  | Hx : (_ || _)%bool = false |- _ => apply orb_false_iff in Hx as [? ?]
  | Hx : (_ && _)%bool = true |- _ => apply andb_true_iff in Hx as [? ?]
  | Hx : Nat.ltb _ _ = false |- _ => apply Nat.ltb_ge in Hx
  | Hx : Nat.eqb _ _ = false |- _ => apply Nat.eqb_neq in Hx
  end; bool_facts.

(** X18: for u64 amounts, [process_subscribe_to_strategy] succeeds exactly
    when there are at least four accounts, the subscriber signs, the
    strategy account is the program's and decodes, there are 1 to 10
    investments whose total fits in u64 and reaches the strategy minimum,
    tvl + total fits in u64 and the user count + 1 fits in u32. *)
Theorem process_subscribe_ok_iff (program_id : Pubkey) (accounts : list AccountInfo)
    (now : Z) (investment_amounts : list TokenInvestment)
    (Hnn : Forall (fun i => 0 <= initial_amount i) investment_amounts) :
  process_subscribe_to_strategy program_id accounts now investment_amounts = Ok tt <->
  exists sub sa pa sp rest st,
    accounts = sub :: sa :: pa :: sp :: rest /\ is_signer sub = true /\
    account_owner sa = program_id /\ data sa = DStrategy st /\
    (1 <= List.length investment_amounts <= 10)%nat /\
    let total := fold_right Z.add 0 (map initial_amount investment_amounts) in
    total <= U64_MAX /\ min_investment st <= total /\
    tvl st + total <= U64_MAX /\ user_count st + 1 <= U32_MAX.
Proof.
  assert (Hm : Forall (fun x => 0 <= x) (map initial_amount investment_amounts))
    by (apply Forall_map; exact Hnn).
  pose proof (sum_u64_spec 0 _ ltac:(unfold U64_MAX; lia) Hm) as Hsum.
  rewrite Z.add_0_l in Hsum.
  split.
  - intros H. destruct accounts as [|sub [|sa [|pa [|sp rest]]]]; try discriminate.
    unfold process_subscribe_to_strategy in H; cbv zeta in H.
    decomp_defi H.
    match goal with Hx : sum_u64 0 _ = Ok _ |- _ => rewrite Hsum in Hx end.
    match goal with Hx : (if ?b then _ else _) = Ok _ |- _ =>
      destruct b eqn:Eb; [injection Hx as <-|discriminate] end.
    unfold checked_add_u64 in *.
    repeat match goal with Hx : (if ?b then _ else _) = Some _ |- _ =>
      let E := fresh "E" in
      destruct b eqn:E; [injection Hx as <-|discriminate] end.
    bool_facts. cbn [set_tvl user_count] in *.
    exists sub, sa, pa, sp, rest, x1. repeat split; auto; lia.
  - intros (sub & sa & pa & sp & rest & st & -> & H1 & H2 & H3 & H4 & H5 & H6 & H7 & H8).
    unfold process_subscribe_to_strategy; cbv zeta.
    rewrite Hsum, H1, H2, H3, Z.eqb_refl.
    unfold bind, require, unwrap, strategy_try_from_slice; cbv beta iota.
    replace (Nat.eqb (List.length investment_amounts) 0
             || Nat.ltb 10 (List.length investment_amounts))%bool with false
      by (symmetry; apply orb_false_iff;
          split; [apply Nat.eqb_neq | apply Nat.ltb_ge]; lia).
    cbv beta iota.
    set (total := fold_right Z.add 0 (map initial_amount investment_amounts)) in *.
    replace (total <=? U64_MAX) with true by (symmetry; apply Z.leb_le; lia).
    replace (min_investment st <=? total) with true by (symmetry; apply Z.leb_le; lia).
    unfold checked_add_u64.
    replace (tvl st + total <=? U64_MAX) with true by (symmetry; apply Z.leb_le; lia).
    cbn [set_tvl user_count].
    replace (user_count st + 1 <=? U32_MAX) with true
      by (symmetry; apply Z.leb_le; lia).
    reflexivity.
Qed.

Lemma quot_day_pos (e : Z) : 0 < Z.quot e (24 * 60 * 60) -> 86400 <= e.
Proof.
  intros H. destruct (Z_lt_le_dec e 0) as [Hn|Hp].
  - rewrite <- (Z.opp_involutive e), Z.quot_opp_l in H by lia.
    pose proof (Z.quot_pos (- e) (24 * 60 * 60) ltac:(lia) ltac:(lia)). lia.
  - destruct (Z_lt_le_dec e 86400) as [Hs|Hs]; [|exact Hs].
    rewrite Z.quot_small in H by lia. lia.
Qed.

(** X19: [process_harvest_rewards] only succeeds for the position's owner, on
    the position's own strategy, with both accounts owned by the program,
    and at least one full day (86400 s) after the last harvest. *)
Theorem process_harvest_needs_a_day (program_id : Pubkey)
    (sub sa pa fr : AccountInfo) (rest : list AccountInfo) (now : Z)
    (H : process_harvest_rewards program_id (sub :: sa :: pa :: fr :: rest) now = Ok tt) :
  exists p st,
    data pa = DPosition p /\ data sa = DStrategy st /\
    is_signer sub = true /\ account_owner sa = program_id /\
    account_owner pa = program_id /\
    owner p = key sub /\ up_strategy p = key sa /\
    86400 <= now - last_harvest_time p.
Proof.
  unfold process_harvest_rewards in H; cbv zeta in H.
  decomp_defi H.
  unfold checked_sub_i64 in *.
  match goal with Hx : (if in_i64 ?v then _ else _) = Some _ |- _ =>
    destruct (in_i64 v); [injection Hx as <-|discriminate] end.
  match goal with Hx : 0 < Z.quot _ _ |- _ => apply quot_day_pos in Hx end.
  do 2 eexists; repeat split; eauto.
Qed.

(** X20: [process_update_strategy] succeeds exactly when the first account
    signs, the second is the program's, decodes as a strategy whose creator
    is the signer, and the new description has at most 200 bytes. *)
Theorem process_update_strategy_ok_iff (program_id : Pubkey)
    (accounts : list AccountInfo) (apy : Z) (description' : list Z) :
  process_update_strategy program_id accounts apy description' = Ok tt <->
  exists c sa rest st,
    accounts = c :: sa :: rest /\ is_signer c = true /\
    account_owner sa = program_id /\ data sa = DStrategy st /\
    creator st = key c /\ (List.length description' <= 200)%nat.
Proof.
  split.
  - intros H. destruct accounts as [|c [|sa rest]]; try discriminate.
    unfold process_update_strategy in H; cbv zeta in H.
    decomp_defi H.
    destruct (Nat.eqb (List.length description') 0) eqn:E0.
    + apply Nat.eqb_eq in E0.
      exists c, sa, rest, x1. repeat split; auto; lia.
    + cbn [negb] in *.
      match goal with Hy : bind (require _ _) _ = Ok _ |- _ => decomp_defi Hy end.
      exists c, sa, rest, x1. repeat split; auto.
  - intros (c & sa & rest & st & -> & H1 & H2 & H3 & H4 & H5).
    unfold process_update_strategy; cbv zeta.
    rewrite H1, H2, H3.
    unfold bind, require, strategy_try_from_slice; cbv beta iota.
    rewrite H4, !Z.eqb_refl. cbv beta iota.
    destruct (Nat.eqb (List.length description') 0); [reflexivity|].
    cbn [negb]. replace (Nat.ltb 200 (List.length description')) with false
      by (symmetry; apply Nat.ltb_ge; lia).
    reflexivity.
Qed.

(** X21: [process_verify_strategy] succeeds exactly when the first account
    signs and is the hard-coded admin key [[1; 32]], and the second is
    owned by the program and decodes as a strategy. *)
Theorem process_verify_strategy_ok_iff (program_id : Pubkey)
    (accounts : list AccountInfo) (verified' : bool) :
  process_verify_strategy program_id accounts verified' = Ok tt <->
  exists a sa rest st,
    accounts = a :: sa :: rest /\ is_signer a = true /\
    account_owner sa = program_id /\ key a = expected_admin /\
    data sa = DStrategy st.
Proof.
  split.
  - intros H. destruct accounts as [|a [|sa rest]]; try discriminate.
    unfold process_verify_strategy in H; cbv zeta in H.
    decomp_defi H. exists a, sa, rest, x2. repeat split; auto.
  - intros (a & sa & rest & st & -> & H1 & H2 & H3 & H4).
    unfold process_verify_strategy; cbv zeta.
    rewrite H1, H2, H3, H4, !Z.eqb_refl. reflexivity.
Qed.


Import DefiFixtures.

(** Witness: [process_subscribe_ok_iff] at concrete accounts. *)
Lemma process_subscribe_ok_iff_witness :
  Forall (fun i => 0 <= initial_amount i) [demo_investment 60; demo_investment 70] /\
  process_subscribe_to_strategy 9 demo_accounts 50
    [demo_investment 60; demo_investment 70] = Ok tt.
Proof.
  assert (Hnn : Forall (fun i => 0 <= initial_amount i)
                  [demo_investment 60; demo_investment 70])
    by (repeat constructor; simpl; lia).
  split; [exact Hnn|].
  apply (proj2 (process_subscribe_ok_iff 9 demo_accounts 50 _ Hnn)).
  do 5 eexists; exists demo_defi_strategy.
  split; [reflexivity|]. cbv zeta.
  repeat split; try reflexivity; cbn; unfold U64_MAX, U32_MAX; lia.
Defined.

(** Witness: [process_create_strategy_effect] at concrete accounts. *)
Lemma process_create_strategy_effect_witness :
  process_create_strategy 9 demo_accounts STRATEGY_LEN [65; 66] [67]
    Moderate Lending 500 [1] 7 100 50 [demo_token] [demo_protocol]
    = Ok (DStrategy
            {| version := 1; creator := 3; name := pad 32 0 [65; 66];
               description := pad 200 0 [67]; risk_level := Moderate;
               protocol_type := Lending; estimated_apy := 500; tags := pad 5 0 [1];
               tvl := 0; user_count := 0; lockup_period := 7; min_investment := 100;
               fee_percentage := 50; token_count := 1;
               tokens := pad 10 default_token_allocation [demo_token];
               protocol_count := 1;
               protocols := pad 10 default_protocol_allocation [demo_protocol];
               verified := false; ai_model_version := 1; reserved := repeat 0 64 |}) /\
  firstn 2 (pad 32 0 [65; 66]) = [65; 66].
Proof.
  assert (H : process_create_strategy 9 demo_accounts STRATEGY_LEN [65; 66] [67]
    Moderate Lending 500 [1] 7 100 50 [demo_token] [demo_protocol]
    = Ok (DStrategy
            {| version := 1; creator := 3; name := pad 32 0 [65; 66];
               description := pad 200 0 [67]; risk_level := Moderate;
               protocol_type := Lending; estimated_apy := 500; tags := pad 5 0 [1];
               tvl := 0; user_count := 0; lockup_period := 7; min_investment := 100;
               fee_percentage := 50; token_count := 1;
               tokens := pad 10 default_token_allocation [demo_token];
               protocol_count := 1;
               protocols := pad 10 default_protocol_allocation [demo_protocol];
               verified := false; ai_model_version := 1; reserved := repeat 0 64 |}))
    by (vm_compute; reflexivity).
  split; [exact H|].
  destruct (process_create_strategy_effect _ _ _ _ _ _ _ _ _ _ _ _ _ _ _ _ _ _ H)
    as [_ Heq].
  destruct (Heq eq_refl) as (s & Hs & _ & _ & _ & _ & _ & _ & _ & _ & _ & _ & _ & _
                             & _ & Hn & _).
  injection Hs as <-. exact Hn.
Defined.

(** Witness: [process_harvest_needs_a_day] at concrete accounts. *)
Lemma process_harvest_needs_a_day_witness :
  process_harvest_rewards 9 demo_accounts (10 * 86400) = Ok tt /\
  86400 <= 10 * 86400 - last_harvest_time demo_position.
Proof.
  assert (H : process_harvest_rewards 9 demo_accounts (10 * 86400) = Ok tt)
    by (vm_compute; reflexivity).
  split; [exact H|].
  destruct (process_harvest_needs_a_day _ _ _ _ _ _ _ H)
    as (p & st & Hp & _ & _ & _ & _ & _ & _ & Hd).
  injection Hp as <-. exact Hd.
Defined.
End DefiProcessorFacts.
